(* ===== verification/_CoqProject ===== *)
-Q . S2P
Prelude.v
Sampler.v
Session.v
Review.v
Markup.v
View.v
App.v
Base64.v
Store.v
Forms.v
Auth.v
Theme.v
Boot.v
