(* ===== verification/Prelude.v ===== *)
(** * QuizLab: a verification development of [src/script.js]

    QuizLab is a single-page quiz application written as one browser script,
    [src/script.js].  It keeps one global mutable record [state]
    (lines 112-118) that every event handler reads and writes, and it drives
    the page by showing and hiding five screens.  The program's parts are:

    - the Sampler: [shuffle] (lines 20-27), an in-place Fisher-Yates shuffle
      over a copy of the array, driven by [Math.random], and the sampling
      expression [shuffle(all).slice(0, 10)] of [loadCategory] (line 124);
    - the Session State: the global [state] record and its creation by
      [loadCategory] (lines 120-130), which replaces it wholesale;
    - the Navigator: the click handlers of [#prev-btn] and [#next-btn]
      (lines 164-169), guarded moves of [state.index];
    - the Answer Recorder: the click closure of each option button built by
      [renderQuestion] (lines 148-153);
    - the Submission Validator: the [#submit-btn] handler (lines 172-184),
      which lists the unanswered questions and asks for a confirmation;
    - the Scorer: [showReview] (lines 187-208), which builds the review list
      and the score line;
    - the Renderer: [renderQuestion] and [renderProgress] (lines 133-161);
    - the screens and the remaining handlers (back, home, retry, logout,
      lines 275-304) and the boot sequence (lines 257-272, 306-315);
    - Auth (lines 29-98) over the [store] wrapper of localStorage
      (lines 14-18), and the Theme toggle (lines 210-254), which keeps its
      own key of localStorage.

    The handlers interact only through [state] and the DOM: the Sampler
    feeds [loadCategory], which creates the session; the Navigator and the
    Recorder mutate it; the Validator gates the Scorer.  [loadCategory] is
    asynchronous (it awaits [fetch] and [res.json()]), so its effect lands
    later, interleaved with other events.

    ** Library layout (this file is the root)

    - [Prelude] (this file): the JavaScript notions shared by all
      components: exceptions, the handler monad [jsM] (state threaded
      through, state kept when an exception aborts the handler), the
      nullish-coalescing notation [??] and JavaScript falsiness of strings
      in [js_scope], generic list lemmas (swap by two inserts is a
      permutation, inserts below a suffix, counting over a mapped list),
      the hint databases [quiz] (resolve) and [quiz_rw] (rewrite), and the
      tactics [js_simpl] and [decide_by_compute].
    - [Sampler]: [Math.random] as a stream of 53-bit integers, the draw
      [Math.floor(Math.random()*(i+1))] as an integer division, [swap],
      [shuffle_loop], [shuffle], the index-level algorithm [fisher_yates],
      and [sample] (line 124).  The typeclass [SampleSpec] is the contract
      the Session relies on (length [min n |pool|], a sub-multiset of the
      pool); [Sampler] proves the instance.
    - [Session]: [Question], [QuizState], [begin_quiz] (the state written by
      [loadCategory]), the navigator guards and moves, the recorder, the
      falsy-based unanswered list of the submit handler and its message,
      the well-formedness invariant [session_wf] and its preservation.
    - [Review]: [showReview] as [review_items] and [score], the abstract
      per-index answer type [Unanswered | Answered s] of the design notes,
      and the refinement theorems relating the code's sentinel- and
      falsiness-based tests to that abstract specification, with the two
      divergences they expose.
    - [Markup]: the class and the [innerHTML] template of a review item
      (lines 196-202) as strings, and the part of the HTML tokenizer that
      decides which elements a text makes (a browser algorithm, modelled
      from the HTML standard: tags with quoted attributes, end tags,
      comments, bogus comments).
    - [View]: [renderQuestion] (a [TypeError] when
      [state.questions[state.index]] is undefined), [renderProgress], the
      option click's update of the buttons; the theorems tie the disabled
      flags to the handlers' guards, show that a selection survives
      navigation, and that the click's direct update equals a re-render
      when options are distinct.
    - [App]: the page.  Its state is the quiz [state], the quiz screen, the
      review list, the set of visible screens (a [gset]), the category keys
      of fetches in flight and the [Math.random] stream.  Every handler is
      a computation in [jsM]; [loadCategory] is split at its [await] into
      [load_start] (the click) and [load_finish] (the settling fetch, a
      separate event).  The listener table is built as the script builds
      it, at top level and again on DOMContentLoaded, and a click runs the
      listeners of its target in order.  [app_step] is the step relation
      (clicks on clickable elements, settling fetches in any order).  The
      theorems: every click acts on [state] exactly as the Session
      operation it stands for (a refinement); the index invariant over all
      reachable states (rule induction); and, as concrete reachable
      traces, the bugs of the asynchronous and duplicated loads.
    - [Base64]: [btoa] (a browser function, modelled from its standard
      definition) with a decoder and the round trip; examples check the
      model against the browser's outputs.
    - [Store]: localStorage as a [gmap] from keys to JSON values or raw
      text, [store.get]/[set]/[del] (lines 15-17), property reads and
      writes on the parsed [users] object with the members it inherits
      from [Object.prototype], and [trim]/[toLowerCase] on 8-bit strings.
    - [Forms]: the five inputs of the sign-up and login forms, typing, and
      [form.reset()] (lines 95-96).
    - [Auth]: the sign-up and login submit listeners (lines 46-72), which
      read the form inputs when they run, [onLogin], [logout] (with its two
      form resets) and [switchAuthTab] as [jsM] handlers over a page of
      localStorage, screens, [#welcome], alerts, the active tab and the
      inputs; the
      listener table of [initAuth], run twice (lines 259 and 312), and the
      session check of the boot.  Auth and App share the [Screen] type;
      they share no other state (the spec treats the store as an opaque
      collaborator of the quiz engine, and the code's quiz handlers never
      read it).
    - [Theme]: [initTheme], [toggleTheme], [updateThemeToggle] and the
      listener on the system colour scheme as [jsM] handlers over a page of
      [data-theme], the [#theme-toggle] button, localStorage (its
      ["theme"] key is written with [localStorage.setItem], read with
      [getItem]) and the media query; [theme_step] is the step relation of
      button clicks and scheme changes after [theme_boot].
    - [Boot]: the composition.  One [Page] record holds the quiz part (an
      [App], with the visible screens), the localStorage, the auth texts,
      the form inputs, the theme's parts and the listener table; a [Lens] (a record of
      [get]/[put] with the three lens laws) gives each component its view,
      and [lift] runs a component's handler on the page (a monad morphism).
      The boot is the script's top level then the [DOMContentLoaded]
      listener (lines 257-272), with [initTheme]'s exception ending that
      listener; [page_event] runs the listener table on an event.

    ** Groups of theorems

    - C1-C5 (Sampler): permutation, draw bounds and surjectivity, sample
      contract, the bijection between valid draw sequences and orderings,
      reachability of every ordering.
    - C6, C7, C10 (Session): fresh session, navigation, the
      well-formedness invariant of the session machine.
    - C8 (Boot): the theme and auth parts do not interfere through the
      page and the storage they share.
    - C11-C15 (Review): the functional spec of [showReview], refinement of
      the Scorer and the Validator, and their divergences from the spec.
    - C16-C18 (View), C9 and C19-C27 (App) as described above; C21 is a
      simulation: with the buttons of the current question on screen,
      every click is a [session_step] of the Session or a stutter; C9 is
      the termination of the asynchronous part: with no click, every
      sequence of settling fetches is finite (each removes its fetch from
      the in-flight list and issues none: nothing is retried), and some
      order of settlements empties the list.
    - C28 (Store): the store round trip.
    - C29, C33 (Markup): the review item's markup has exactly the
      template's elements for values without [<]; a question holding
      markup injects elements (an [img] with [onerror]) into the review.
    - C30-C32, C34-C35, C38 (Auth): what a login accepts, the
      sign-up/logout/login round trip, the doubled sign-up listener (a
      successful sign-up, read twice from the same inputs, alerts that the
      account exists), the addresses named after [Object.prototype]
      members that can never own an account, the session across a reload
      and a logout, and the form inputs: only [logout] clears them.
    - C40 (Theme): the [TypeError] of [initTheme] without [matchMedia].
    - C36, C37, C39 (Boot): on every page reachable from the boot a click
      does to the quiz part what App's [dispatch] does (a refinement of
      App by the composed page, the listener table being the one the
      boot builds); on the composed page every reachable state keeps the
      quiz index in range and the theme button consistent (the
      components' invariants carried through the lenses); the boot builds
      the static listener tables of App and Auth when [matchMedia] exists,
      a single copy of each otherwise.
    - Lemmas kept beside the claims: the [btoa] round trip (so [passHash]
      equality is password equality), Next iterated, property write/read
      on JS objects, the last option clicked winning, the short-password
      double alert, the toggle's two-click round trip, the picked theme
      surviving a reload, a saved theme beating the system scheme, the
      theme button's agreement on the pages of Theme alone (rule
      induction), the lens laws, the frame lemmas and the invariant steps
      of Boot.

    ** Bounds and fuel

    No definition uses fuel: every loop of the code is a structural
    recursion on a list or a counter ([shuffle_loop] on [i], [review_loop]
    on the question list).  The one unbounded process is the event loop;
    its asynchronous part terminates by the measure [length pending]
    (C9).  The one numeric bound is [2^53], the number of
    values of [Math.random]; [shuffle_onto] needs arrays shorter than
    [2^53], which every JS array is (at most [2^32-1] elements).

    ** Plan for the next sittings (in this order)

    - Character references in the HTML tokenizer, so that the text a
      review item shows (not only its elements) is a theorem.
    - The JSON the question bank returns, with the records the code keeps
      unchecked in [state.questions] (a record without [options] makes
      [renderQuestion] throw after [state] is written).

    ** Modelling choices

    - JavaScript strings are Rocq [string]s (8-bit characters, i.e. the
      Latin-1 subset of UTF-16); numbers that are array indices are [nat],
      the loop bound [state.questions.length-1] is compared in [Z] as the
      code compares it.
    - [Math.random()] returns [k / 2^53] for a 53-bit integer [k]; the
      stream of results is an explicit [rng] threaded through the calls.
      [Math.floor(r*(i+1))] is [k*(i+1) / 2^53]: the double product
      [r*(i+1)] never rounds up to the next integer, so the floor is exact.
    - Arrays are lists updated with stdpp's [<[i:=x]>]; the shuffle only
      writes in range (proved), so the out-of-range behaviour of a JS array
      never arises.
    - A JS object used as a map ([state.answers]) is a [gmap nat string];
      the retry handler's [answers: []] (an array) behaves as an empty map
      for the index reads and writes the code makes.
    - From the browser and from index.html, which are not in the sources:
      a click runs its target's listeners in registration order and an
      exception in one does not stop the next; a hidden or disabled button
      cannot be clicked; each button's screen; the page starts with the
      quiz and review screens hidden; fetches settle in any order.
    - The progress width is an exact rational; the float rounding of
      [index/length*100] and its formatting into a CSS string are not
      modelled.
    - localStorage holds the value a [JSON.stringify] wrote, or raw text;
      [JSON.parse] of the former gives the value back and of the latter
      throws (caught by [store.get]).  A stored [users] value that is not
      an object is read as [{}]: the code only ever stores an object there.
    - The review item's markup is read by a subset of the HTML tokenizer:
      character references are not decoded, and a comment closed by [-->]
      right after [<!--] is not treated specially; neither changes which
      elements the template's own text makes.
    - [alert] appends its message to a list and returns;
      [e.preventDefault()] only stops the browser's own submission.  The
      inputs of the auth forms have no [value] attribute in index.html, so
      [form.reset()] empties them.

    ** Not modelled (yet)

    The DOM helpers [$] and [$$] as functions: they change nothing, and
    there is no model of the document tree; each listener table resolves
    its selectors statically, and [$('#theme-toggle')?.] is the page's
    [has_toggle] flag.  The question-bank fetch itself (the JSON files are
    not among the sources), whose result, a list of questions or a
    failure, is an input of [load_finish].
    The quiz steps of App.v run on [App] alone; on the composed page they
    run through [app_lens], whose laws make them the same steps.
*)

From stdpp Require Export base list gmap strings pretty sets.
From Stdlib Require Export ZArith.

(** ** JavaScript exceptions and the handler monad *)

(** The exceptions the modelled code can raise.  [TypeError] is raised by a
    property access on [undefined]. *)
Inductive exn :=
| TypeError (what : string)
| InvalidCharacterError.

(** A handler runs against a state [S] and either returns or throws; a throw
    keeps the mutations made before it (JavaScript has no rollback). *)
Definition jsM (S A : Type) : Type := S -> (A + exn) * S.

Definition js_ret {S A} (x : A) : jsM S A := fun s => (inl x, s).

Definition js_bind {S A B} (f : A -> jsM S B) (m : jsM S A) : jsM S B :=
  fun s => match m s with
           | (inl x, s') => f x s'
           | (inr e, s') => (inr e, s')
           end.

Definition js_throw {S A} (e : exn) : jsM S A := fun s => (inr e, s).
Definition js_get {S} : jsM S S := fun s => (inl s, s).
Definition js_put {S} (s : S) : jsM S unit := fun _ => (inl tt, s).
Definition js_modify {S} (f : S -> S) : jsM S unit := fun s => (inl tt, f s).

#[export] Instance jsM_ret {S} : MRet (jsM S) := @js_ret S.
#[export] Instance jsM_bind {S} : MBind (jsM S) := @js_bind S.

(** Run a handler for its final state, whether it returned or threw. *)
Definition js_exec {S A} (m : jsM S A) (s : S) : S := snd (m s).

(** ** JavaScript operators on values *)

Declare Scope js_scope.
Delimit Scope js_scope with js.

(** [a ?? b]: the left operand unless it is [null] or [undefined]. *)
Notation "o ?? d" := (default d o) (at level 40, left associativity) : js_scope.

(** [!s] on a string: only the empty string is falsy. *)
Definition js_falsy_str (s : string) : bool := bool_decide (s = "").

(** [!x] on an optional string ([undefined] is falsy). *)
Definition js_falsy_opt (o : option string) : bool :=
  match o with None => true | Some s => js_falsy_str s end.

Open Scope js_scope.

(** Characters a string literal of the code writes with an escape: the
    double quote and the backslash, by their codes. *)
Definition QUOTE : Ascii.ascii := Ascii.ascii_of_N 34.
Definition BACKSLASH : Ascii.ascii := Ascii.ascii_of_N 92.


(** ** Generic lemmas *)

Create HintDb quiz discriminated.
Create Rewrite HintDb quiz_rw.

Section generic_lists.
Context {A : Type}.

(** Putting [x] in place of [y] and consing [y] is a permutation. *)
Lemma perm_cons_insert (l : list A) (j : nat) (x y : A) :
  l !! j = Some y -> y :: <[j:=x]> l ≡ₚ x :: l.
Proof.
  intros Hj. assert (Hlt := lookup_lt_Some _ _ _ Hj).
  rewrite insert_take_drop by done.
  rewrite <-(take_drop_middle l j y Hj) at 3.
  rewrite <-!Permutation_middle. apply perm_swap.
Qed.

(** Two inserts that exchange the elements at [i] and [j] permute the
    list. *)
Lemma perm_insert_swap (l : list A) (i j : nat) (x y : A) :
  l !! i = Some x -> l !! j = Some y ->
  <[j:=x]> (<[i:=y]> l) ≡ₚ l.
Proof.
  revert i j. induction l as [|z l IH]; intros i j Hi Hj; [done|].
  destruct i as [|i], j as [|j]; simpl in *; simplify_eq; [done| | |].
  - by apply perm_cons_insert.
  - by rewrite perm_cons_insert.
  - by rewrite IH.
Qed.

(** Inserting below the length of a prefix leaves the suffix alone. *)
Lemma insert_app_below (l k : list A) (i : nat) (x : A) :
  i < length l -> <[i:=x]> (l ++ k) = <[i:=x]> l ++ k.
Proof. apply insert_app_l. Qed.

Lemma lookup_app_below (l k : list A) (i : nat) :
  i < length l -> (l ++ k) !! i = l !! i.
Proof. apply lookup_app_l. Qed.

(** The last element of a list splits it off. *)
Lemma list_split_last (l : list A) (x : A) :
  l !! (length l - 1) = Some x -> l = take (length l - 1) l ++ [x].
Proof.
  intros Hx. assert (Hlt := lookup_lt_Some _ _ _ Hx).
  rewrite <-(take_drop (length l - 1) l) at 1. f_equal.
  rewrite (drop_S _ x) by done. rewrite drop_ge; [done|]. lia.
Qed.
(** Counting the elements of a mapped list that satisfy [P]. *)
Lemma length_filter_fmap {B} (P : B -> Prop) `{!forall y, Decision (P y)}
    (f : A -> B) (l : list A) :
  length (filter P (f <$> l)) = length (filter (fun x => P (f x)) l).
Proof.
  induction l as [|x l IH]; [done|]. rewrite fmap_cons, !filter_cons.
  case_decide; simpl; lia.
Qed.
End generic_lists.

#[export] Hint Rewrite @length_insert @length_app @length_take : quiz_rw.
#[export] Hint Resolve submseteq_take : quiz.

(** Unfold the handler monad and simplify. *)
Ltac js_simpl :=
  repeat (unfold js_exec, mbind, mret, jsM_bind, jsM_ret, js_bind, js_ret,
          js_get, js_put, js_modify, js_throw in *); simpl in *.

(** Decide a closed decidable proposition by evaluation. *)
Ltac decide_by_compute := apply (bool_decide_unpack _); vm_compute; reflexivity.

(** ** The handler monad *)

(** Running [m ;; k] where [m] returns runs [k] on the state [m] leaves. *)
Lemma js_exec_seq {S} (m k : jsM S unit) (s : S) :
  fst (m s) = inl tt -> js_exec (m ;; k) s = js_exec k (js_exec m s).
Proof.
  unfold js_exec, mbind, jsM_bind, js_bind. destruct (m s) as [[[]|e] s']; simpl; congruence.
Qed.

(** ** Strings as lists of characters *)

Lemma list_ascii_of_string_app (s1 s2 : string) :
  String.list_ascii_of_string (s1 +:+ s2) =
  String.list_ascii_of_string s1 ++ String.list_ascii_of_string s2.
Proof. induction s1 as [|c s1 IH]; simpl; [done|by rewrite IH]. Qed.

#[export] Hint Rewrite list_ascii_of_string_app : quiz_rw.

(** ** Folding steps that each stay within a preorder *)

Lemma foldl_preorder {S B} (R : relation S) `{!PreOrder R} (f : S -> B -> S) (l : list B) (s : S) :
  (forall s' x, R s' (f s' x)) -> R s (foldl f s l).
Proof.
  intros Hf. revert s. induction l as [|x l IH]; intros s; simpl; [reflexivity|].
  etrans; [apply Hf|apply IH].
Qed.
