(* ===== verification/Sampler.v ===== *)
(** * Sampler: [shuffle] and the sampling of [loadCategory]

    Models [shuffle] (src/script.js lines 20-27), the Fisher-Yates loop over
    a copy of the array driven by [Math.random], and the expression
    [shuffle(all).slice(0, 10)] of [loadCategory] (line 124).  The random
    source is an explicit stream threaded through the calls.  The theorems
    show that the result is a permutation of the input, that every draw is
    in range, that the sample has length [min n |pool|] and draws no element
    twice, and that the map from draw sequences to orderings is a bijection
    (every ordering of a list of distinct questions arises from exactly one
    sequence of draws), the combinatorial core of "no bias". *)

From S2P Require Import Prelude.

(** ** [Math.random] *)

(** [Math.random()] returns [k / 2^53] for a 53-bit integer [k]. *)
Definition two53 : Z := (2 ^ 53)%Z.

(** The stream of values [Math.random] will return, and how many were
    consumed.  A stream entry is reduced to 53 bits when drawn. *)
Record rng := mk_rng { rng_stream : nat -> Z; rng_pos : nat }.

Definition math_random (g : rng) : Z * rng :=
  ((rng_stream g (rng_pos g) mod two53)%Z, mk_rng (rng_stream g) (S (rng_pos g))).

(** [Math.floor(Math.random()*(i+1))] for the draw [k / 2^53]. *)
Definition draw_index (k : Z) (i : nat) : nat :=
  Z.to_nat (k * Z.of_nat (S i) / two53)%Z.

Section shuffle.
Context {A : Type}.

(** [[a[i],a[j]] = [a[j],a[i]]]: the right-hand array is built first,
    then [a[i]] and [a[j]] are assigned, in that order.  The loop only
    swaps in range (see [draw_index_bound]), so the out-of-range case is
    never taken. *)
Definition swap (a : list A) (i j : nat) : list A :=
  match a !! j, a !! i with
  | Some aj, Some ai => <[j:=ai]> (<[i:=aj]> a)
  | _, _ => a
  end.

(** [for(let i=a.length-1;i>0;i--){ const j = ...; swap }] from the
    current [i] down; the loop body runs for [i], then for [i-1], and
    stops at [0]. *)
Fixpoint shuffle_loop (i : nat) (g : rng) (a : list A) : list A * rng :=
  match i with
  | 0 => (a, g)
  | S i' =>
      let '(k, g') := math_random g in
      shuffle_loop i' g' (swap a i (draw_index k i))
  end.

(** [shuffle(arr)]: [arr.slice()] copies, lists are values, so the caller's
    array is untouched by construction.  For an empty array the JS bound
    [a.length-1] is [-1] and the loop does not run, as here. *)
Definition shuffle (g : rng) (arr : list A) : list A * rng :=
  shuffle_loop (length arr - 1) g arr.

(** [shuffle(all).slice(0, n)]. *)
Definition sample (n : nat) (g : rng) (pool : list A) : list A * rng :=
  let '(s, g') := shuffle g pool in (take n s, g').

(** The same loop with the drawn indices given as a list: [js] holds the
    [j] drawn for [i], [i-1], ..., [1]. *)
Fixpoint fisher_yates (i : nat) (js : list nat) (a : list A) : list A :=
  match i, js with
  | S i', j :: js' => fisher_yates i' js' (swap a (S i') j)
  | _, _ => a
  end.
End shuffle.

(** The indices the loop draws from [g], from [i] down to [1]. *)
Fixpoint draws (i : nat) (g : rng) : list nat :=
  match i with
  | 0 => []
  | S i' => let '(k, g') := math_random g in draw_index k i :: draws i' g'
  end.

(** A draw sequence the loop can produce from [i] down: one index per
    iteration, the one drawn at [i] at most [i]. *)
Fixpoint valid_draws (i : nat) (js : list nat) : bool :=
  match i, js with
  | 0, [] => true
  | S i', j :: js' => bool_decide (j <= S i') && valid_draws i' js'
  | _, _ => false
  end.

(** The 53-bit value that makes the draw for index [i] come out as [j]:
    the least [k] with [k*(i+1) >= j*2^53]. *)
Definition draw_for (j i : nat) : Z :=
  ((Z.of_nat j * two53 + Z.of_nat i) / Z.of_nat (S i))%Z.

(** A [Math.random] stream that yields the draws [js] from index [i]
    down. *)
Definition stream_for (i : nat) (js : list nat) : nat -> Z :=
  fun n => draw_for (default 0 (js !! n)) (i - n).

(** The contract of the Sampler (spec section 4.1) as the Session relies on
    it: [sample n g pool] has length [min n |pool|] and takes every element
    of the pool at most as often as it occurs there. *)
Class SampleSpec (smp : forall {A : Type}, nat -> rng -> list A -> list A * rng) := {
  sample_spec_length : forall A n g (pool : list A),
    length (smp n g pool).1 = min n (length pool);
  sample_spec_sub : forall A n g (pool : list A), (smp n g pool).1 ⊆+ pool
}.

(** ** Lemmas *)

Lemma math_random_range g : (0 <= (math_random g).1 < two53)%Z.
Proof. unfold math_random, two53. simpl. apply Z.mod_pos_bound. lia. Qed.

Section shuffle_lemmas.
Context {A : Type}.
Implicit Types a b c : list A.

Lemma swap_perm a i j : swap a i j ≡ₚ a.
Proof.
  unfold swap. destruct (a !! j) eqn:Hj, (a !! i) eqn:Hi; [|done..].
  by apply perm_insert_swap.
Qed.

Lemma length_swap a i j : length (swap a i j) = length a.
Proof. apply Permutation_length, swap_perm. Qed.

Lemma fisher_yates_perm i js a : fisher_yates i js a ≡ₚ a.
Proof.
  revert js a. induction i as [|i IH]; intros [|j js] a; simpl; [done..|].
  by rewrite IH, swap_perm.
Qed.

Lemma shuffle_loop_fisher_yates i g a :
  (shuffle_loop i g a).1 = fisher_yates i (draws i g) a.
Proof.
  revert g a. induction i as [|i IH]; intros g a; [done|].
  simpl. destruct (math_random g) as [k g']. apply IH.
Qed.
End shuffle_lemmas.

#[export] Hint Rewrite @length_swap : quiz_rw.

Lemma valid_draws_cons i j js :
  valid_draws (S i) (j :: js) = true <-> j <= S i /\ valid_draws i js = true.
Proof. simpl. by rewrite andb_true_iff, bool_decide_eq_true. Qed.

Lemma valid_draws_length i js : valid_draws i js = true -> length js = i.
Proof.
  revert js. induction i as [|i IH]; intros [|j js]; simpl; try done.
  rewrite andb_true_iff. intros [_ H]. by rewrite (IH js H).
Qed.

Section shuffle_theorems.
Context {A : Type}.
Implicit Types a b c : list A.

(** C1: [shuffle] returns a permutation of its input: no question is
    lost, duplicated or invented, whatever [Math.random] returns. *)
Theorem shuffle_perm g a : (shuffle g a).1 ≡ₚ a.
Proof.
  unfold shuffle. rewrite shuffle_loop_fisher_yates. apply fisher_yates_perm.
Qed.

Lemma length_shuffle g a : length (shuffle g a).1 = length a.
Proof.
  unfold shuffle. rewrite shuffle_loop_fisher_yates. apply Permutation_length, fisher_yates_perm.
Qed.

Lemma sample_fst n g a : (sample n g a).1 = take n (shuffle g a).1.
Proof. unfold sample. by destruct (shuffle g a). Qed.
End shuffle_theorems.

Lemma draw_index_le (k : Z) (i : nat) : (0 <= k < two53)%Z -> draw_index k i <= i.
Proof.
  intros Hk. unfold draw_index.
  assert (k * Z.of_nat (S i) / two53 < Z.of_nat (S i))%Z.
  { apply Z.div_lt_upper_bound; [unfold two53; lia|].
    nia. }
  remember (k * Z.of_nat (S i) / two53)%Z as q. lia.
Qed.

(** C2: [Math.floor(Math.random()*(i+1))] is an index in [[0, i]] for
    every value [Math.random] can return, and every index in [[0, i]] is
    drawn by some value (for [i+1] at most [2^53]): the draw can pick any
    element of the unshuffled prefix and nothing outside it. *)
Theorem draw_index_bound (i : nat) :
  (forall k, (0 <= k < two53)%Z -> draw_index k i <= i) /\
  ((Z.of_nat i < two53)%Z -> forall j, j <= i ->
     exists k, (0 <= k < two53)%Z /\ draw_index k i = j).
Proof.
  split; [intros k; apply draw_index_le|]. intros Hi j Hj.
  set (n := Z.of_nat (S i)). set (J := Z.of_nat j).
  assert (Hn : (0 < n)%Z) by (unfold n; lia).
  assert (HT : (0 < two53)%Z) by (unfold two53; lia).
  exists ((J * two53 + Z.of_nat i) / n)%Z.
  set (k := ((J * two53 + Z.of_nat i) / n)%Z).
  assert (H1 : (n * k <= J * two53 + Z.of_nat i)%Z) by (apply Z.mul_div_le; lia).
  assert (H2 : (J * two53 + Z.of_nat i < n * (k + 1))%Z).
  { pose proof (Z.mul_succ_div_gt (J * two53 + Z.of_nat i) n Hn). unfold k. lia. }
  assert (HJ : (J <= Z.of_nat i)%Z) by (unfold J; lia).
  split; [split|].
  - apply Z.div_pos; [|lia]. unfold J. lia.
  - apply Z.div_lt_upper_bound; [lia|]. unfold n. nia.
  - unfold draw_index. fold n. rewrite Z.mul_comm.
    assert (Hq : (n * k / two53)%Z = J).
    { assert (En : n = (Z.of_nat i + 1)%Z) by (unfold n; lia).
      rewrite Z.mul_add_distr_l, Z.mul_1_r in H2.
      symmetry. apply Z.div_unique_pos with (n * k - J * two53)%Z; [lia|ring]. }
    rewrite Hq. unfold J. lia.
Qed.

Lemma draws_valid i g : valid_draws i (draws i g) = true.
Proof.
  revert g. induction i as [|i IH]; intros g; [done|].
  cbn [draws]. pose proof (math_random_range g) as Hr.
  destruct (math_random g) as [k g']. simpl in Hr.
  apply valid_draws_cons. split; [by apply draw_index_le|apply IH].
Qed.

(** The Sampler meets the contract the Session relies on. *)
#[export] Instance sample_meets_spec : SampleSpec (@sample).
Proof.
  split.
  - intros A n g pool. rewrite sample_fst, length_take, length_shuffle. lia.
  - intros A n g pool. rewrite sample_fst, submseteq_take.
    unfold shuffle. rewrite shuffle_loop_fisher_yates. by rewrite fisher_yates_perm.
Qed.

(** C3: the quiz drawn by [loadCategory] has [min 10 |pool|] questions,
    each taken from the pool no more often than it occurs there: short
    pools are used as they are, with no padding or repetition. *)
Theorem sample_length_sub {A} n g (pool : list A) :
  length (sample n g pool).1 = min n (length pool) /\ (sample n g pool).1 ⊆+ pool.
Proof. split; [apply sample_spec_length|apply sample_spec_sub]. Qed.

(** ** Draw sequences and orderings *)

Section bijection.
Context {A : Type}.
Implicit Types a b c : list A.

Lemma swap_app a c i j :
  i < length a -> j < length a -> swap (a ++ c) i j = swap a i j ++ c.
Proof.
  intros Hi Hj. unfold swap. rewrite !lookup_app_below by done.
  destruct (a !! j) eqn:Ej; [|by apply lookup_ge_None in Ej; lia].
  destruct (a !! i) eqn:Ei; [|by apply lookup_ge_None in Ei; lia].
  rewrite !insert_app_below; [done|by rewrite length_insert|done].
Qed.

Lemma swap_lookup_i a i j x :
  i < length a -> a !! j = Some x -> swap a i j !! i = Some x.
Proof.
  intros Hi Hj. unfold swap. rewrite Hj.
  destruct (a !! i) as [y|] eqn:Ei; [|by apply lookup_ge_None in Ei; lia].
  destruct (decide (i = j)) as [->|Hne]; [by simplify_eq; rewrite !list_lookup_insert_eq; rewrite ?length_insert; eauto using lookup_lt_Some|].
  rewrite list_lookup_insert_ne by done. by rewrite list_lookup_insert_eq.
Qed.

(** After the swap at the last index [i], the drawn element ends the
    list. *)
Lemma swap_split a i j x :
  length a = S i -> a !! j = Some x ->
  swap a i j = take i (swap a i j) ++ [x].
Proof.
  intros Hlen Hx. pose proof (list_split_last (swap a i j) x) as H.
  rewrite length_swap, Hlen in H. replace (S i - 1) with i in H by lia.
  apply H. apply swap_lookup_i; [lia|done].
Qed.

(** Later iterations only touch indices below the current one, so a
    suffix beyond them is left in place. *)
Lemma fisher_yates_app i js a c :
  valid_draws i js = true -> i < length a ->
  fisher_yates i js (a ++ c) = fisher_yates i js a ++ c.
Proof.
  revert js a. induction i as [|i IH]; intros [|j js] a Hv Hlen; try done.
  apply valid_draws_cons in Hv as [Hj Hv]. simpl.
  rewrite swap_app by lia. apply IH; [done|]. rewrite length_swap. lia.
Qed.

(** One iteration fixes the element drawn at position [i] for good. *)
Lemma fisher_yates_step i j js a x :
  valid_draws i js = true -> length a = S (S i) -> a !! j = Some x ->
  fisher_yates (S i) (j :: js) a =
    fisher_yates i js (take (S i) (swap a (S i) j)) ++ [x].
Proof.
  intros Hv Hlen Hx. simpl.
  rewrite (swap_split a (S i) j x) at 1 by done.
  apply fisher_yates_app; [done|]. rewrite length_take, length_swap. lia.
Qed.

Lemma fisher_yates_onto i :
  forall a l', length a = S i -> l' ≡ₚ a ->
  exists js, valid_draws i js = true /\ fisher_yates i js a = l'.
Proof.
  induction i as [|i IH]; intros a l' Hlen Hp.
  - destruct a as [|y [|]]; try done.
    exists []. split; [done|]. by apply Permutation_singleton_r in Hp.
  - assert (Hl' : length l' = S (S i)) by by rewrite Hp.
    destruct (l' !! S i) as [x|] eqn:Ex; [|by apply lookup_ge_None in Ex; lia].
    assert (x ∈ a) as Hxa by (rewrite <-Hp; by eapply list_elem_of_lookup_2).
    apply list_elem_of_lookup in Hxa as [j Hj].
    assert (j < length a) by (by eapply lookup_lt_Some).
    set (b := take (S i) (swap a (S i) j)).
    assert (Hsplit : swap a (S i) j = b ++ [x]) by (by apply swap_split).
    assert (Hl'split : l' = take (S i) l' ++ [x]).
    { pose proof (list_split_last l' x) as Hs. rewrite Hl' in Hs.
      apply Hs, Ex. }
    destruct (IH b (take (S i) l')) as (js & Hv & Hfy).
    + subst b. rewrite length_take, length_swap. lia.
    + apply (Permutation_app_inv_r [x]). rewrite <-Hsplit, <-Hl'split.
      by rewrite swap_perm.
    + exists (j :: js). split; [apply valid_draws_cons; split; [lia|done]|].
      rewrite (fisher_yates_step i j js a x) by done. fold b.
      by rewrite Hfy, <-Hl'split.
Qed.

Lemma fisher_yates_inj i :
  forall a js1 js2, NoDup a -> length a = S i ->
  valid_draws i js1 = true -> valid_draws i js2 = true ->
  fisher_yates i js1 a = fisher_yates i js2 a -> js1 = js2.
Proof.
  induction i as [|i IH]; intros a js1 js2 Hnd Hlen Hv1 Hv2 Heq.
  - by destruct js1, js2.
  - destruct js1 as [|j1 js1], js2 as [|j2 js2]; try done.
    apply valid_draws_cons in Hv1 as [Hj1 Hv1].
    apply valid_draws_cons in Hv2 as [Hj2 Hv2].
    destruct (a !! j1) as [x1|] eqn:E1; [|by apply lookup_ge_None in E1; lia].
    destruct (a !! j2) as [x2|] eqn:E2; [|by apply lookup_ge_None in E2; lia].
    rewrite (fisher_yates_step i j1 js1 a x1),
      (fisher_yates_step i j2 js2 a x2) in Heq by done.
    apply app_inj_tail in Heq as [Heq <-].
    assert (j1 = j2) as <- by (by eapply NoDup_lookup).
    f_equal. eapply (IH (take (S i) (swap a (S i) j1))); [| |done..].
    + assert (Hnd' : NoDup (swap a (S i) j1)) by (by rewrite swap_perm).
      rewrite (swap_split a (S i) j1 x1) in Hnd' by done.
      by apply NoDup_app in Hnd' as [? _].
    + rewrite length_take, length_swap. lia.
Qed.
End bijection.

Lemma valid_draws_lookup i js n j :
  valid_draws i js = true -> js !! n = Some j -> j <= i - n.
Proof.
  revert js n. induction i as [|i IH]; intros [|j' js] n Hv Hn; try done.
  apply valid_draws_cons in Hv as [Hj' Hv].
  destruct n as [|n]; simpl in Hn; simplify_eq; [lia|].
  specialize (IH js n Hv Hn). lia.
Qed.

(** C4: for a pool of distinct questions, every ordering of the pool is the
    result of exactly one valid sequence of draws.  Each draw [j] for
    index [i] ranges over [i+1] values, so there are [n!] sequences for
    [n!] orderings, and independent uniform draws give every ordering the
    same probability. *)
Theorem fisher_yates_unique {A} (a l' : list A) :
  NoDup a -> l' ≡ₚ a ->
  exists! js, valid_draws (length a - 1) js = true /\
              fisher_yates (length a - 1) js a = l'.
Proof.
  intros Hnd Hp. destruct a as [|y a].
  - apply Permutation_nil_r in Hp as ->. exists [].
    split; [done|]. by intros [|] [? _].
  - simpl. rewrite Nat.sub_0_r.
    destruct (fisher_yates_onto (length a) (y :: a) l') as (js & Hv & Hfy); [done..|].
    exists js. split; [done|]. intros js' [Hv' Hfy'].
    eapply (fisher_yates_inj (length a) (y :: a)); [done..|]. by rewrite Hfy, Hfy'.
Qed.

Lemma draw_for_spec (i j : nat) :
  j <= i -> (Z.of_nat i < two53)%Z ->
  (0 <= draw_for j i < two53)%Z /\ draw_index (draw_for j i) i = j.
Proof.
  intros Hj Hi. unfold draw_for, draw_index.
  assert (HM : (0 < two53)%Z) by (unfold two53; lia).
  set (m := Z.of_nat (S i)).
  assert (Hm : (0 < m)%Z) by lia.
  pose proof (Z.div_mod (Z.of_nat j * two53 + Z.of_nat i) m ltac:(lia)) as Hdm.
  pose proof (Z.mod_pos_bound (Z.of_nat j * two53 + Z.of_nat i) m Hm) as Hr.
  set (q := ((Z.of_nat j * two53 + Z.of_nat i) / m)%Z) in *.
  set (r := ((Z.of_nat j * two53 + Z.of_nat i) mod m)%Z) in *.
  assert (Hq : (Z.of_nat j * two53 <= q * m < Z.of_nat j * two53 + m)%Z)
    by (subst m; lia).
  split; [split; nia|].
  rewrite <-(Z.div_unique_pos (q * m) two53 (Z.of_nat j)
               (q * m - Z.of_nat j * two53)); [lia|nia|lia].
Qed.

Lemma draws_of_stream (i : nat) (js : list nat) (f : nat -> Z) (p : nat) :
  valid_draws i js = true ->
  (forall n j, js !! n = Some j -> draw_index (Z.modulo (f (p + n)) two53) (i - n) = j) ->
  draws i (mk_rng f p) = js.
Proof.
  revert js p. induction i as [|i IH]; intros [|j js] p Hv Hf; try done.
  apply valid_draws_cons in Hv as [_ Hv]. simpl. f_equal.
  - specialize (Hf 0 j eq_refl). by rewrite Nat.add_0_r in Hf.
  - apply IH; [done|]. intros n j' Hn.
    specialize (Hf (S n) j' Hn). by rewrite Nat.add_succ_r in Hf.
Qed.

(** C5: [shuffle] can produce every ordering of the pool: for each
    permutation there is a sequence of values of [Math.random] that makes
    [shuffle] return it.  The hypothesis that the array is shorter than
    [2^53] (JS arrays are shorter than [2^32]) is what makes every index
    [j <= i] reachable by [Math.floor(Math.random()*(i+1))]. *)
Theorem shuffle_onto {A} (a l' : list A) :
  (Z.of_nat (length a) <= two53)%Z -> l' ≡ₚ a ->
  exists g, (shuffle g a).1 = l'.
Proof.
  intros Hlen Hp. destruct a as [|y a].
  - apply Permutation_nil_r in Hp as ->. by exists (mk_rng (fun _ => 0%Z) 0).
  - destruct (fisher_yates_onto (length a) (y :: a) l') as (js & Hv & Hfy); [done..|].
    exists (mk_rng (stream_for (length a) js) 0).
    unfold shuffle. simpl. rewrite Nat.sub_0_r, shuffle_loop_fisher_yates.
    rewrite (draws_of_stream _ js); [done..|].
    intros n j Hn. simpl. unfold stream_for. rewrite Hn. simpl.
    pose proof (valid_draws_lookup _ _ _ _ Hv Hn) as Hj.
    simpl in Hlen. destruct (draw_for_spec (length a - n) j) as [Hr Hd]; [lia..|].
    by rewrite Z.mod_small.
Qed.

(** ** Witnesses *)

(** Index [5] of [[0, 9]] is drawn by some [Math.random()] value. *)
Lemma draw_index_bound_witness :
  (Z.of_nat 9 < two53)%Z /\ 5 <= 9 /\
  exists k, (0 <= k < two53)%Z /\ draw_index k 9 = 5.
Proof.
  assert (H1 : (Z.of_nat 9 < two53)%Z) by (unfold two53; lia).
  assert (H2 : 5 <= 9) by lia.
  split; [exact H1|]. split; [exact H2|].
  exact (proj2 (draw_index_bound 9) H1 5 H2).
Defined.

Lemma fisher_yates_unique_witness :
  NoDup [1; 2; 3] /\ [3; 1; 2] ≡ₚ [1; 2; 3] /\
  exists! js, valid_draws (length [1; 2; 3] - 1) js = true /\
              fisher_yates (length [1; 2; 3] - 1) js [1; 2; 3] = [3; 1; 2].
Proof.
  assert (Hnd : NoDup [1; 2; 3]) by (apply (bool_decide_unpack _); reflexivity).
  assert (Hp : [3; 1; 2] ≡ₚ [1; 2; 3]) by solve_Permutation.
  split_and!; [exact Hnd|exact Hp|]. apply fisher_yates_unique; [exact Hnd|exact Hp].
Defined.

Lemma shuffle_onto_witness :
  (Z.of_nat (length [1; 2; 3]) <= two53)%Z /\ [2; 3; 1] ≡ₚ [1; 2; 3] /\
  exists g, (shuffle g [1; 2; 3]).1 = [2; 3; 1].
Proof.
  assert (Hl : (Z.of_nat (length [1; 2; 3]) <= two53)%Z) by (unfold two53; simpl; lia).
  assert (Hp : [2; 3; 1] ≡ₚ [1; 2; 3]) by solve_Permutation.
  split_and!; [exact Hl|exact Hp|]. apply shuffle_onto; [exact Hl|exact Hp].
Defined.
