(* ===== verification/Session.v ===== *)
(** * Session: the global quiz [state] and the handlers that mutate it

    Models the record [state] of src/script.js (lines 112-118), its
    creation by [loadCategory] (lines 124-125), the guards and moves of the
    navigation handlers (lines 164-169), the option-click closure that
    records an answer (line 149), and the unanswered list and confirmation
    text of the submit handler (lines 174-179).  The DOM effects of these
    handlers ([renderQuestion], screen switches) are composed in [App].

    The theorems show that a fresh session is well formed, that every move
    keeps the index in range and leaves the answers alone, that [k] clicks
    on Next from a fresh session land on [min k (N-1)], that the last click
    on an option wins, and that the well-formedness invariant (index in
    range, every answer key a question index, every answer one of that
    question's options) is preserved by every state-changing operation. *)

From S2P Require Import Prelude Sampler.

(** ** Data *)

(** A question record of the category files: [{question, options, answer}]. *)
Record Question := mkQuestion {
  question : string;
  options : list string;
  answer : string
}.

#[export] Instance Question_eq_dec : EqDecision Question.
Proof. solve_decision. Defined.

(** [state]: [category], the picked [questions], the current [index], the
    sparse [answers] object (question index to option text) and the
    [submitted] flag. *)
Record QuizState := mkState {
  category : option string;
  questions : list Question;
  index : nat;
  answers : gmap nat string;
  submitted : bool
}.

(** The initial value of [state] (lines 112-118). *)
Definition initial_state : QuizState := mkState None [] 0 ∅ false.

(** [.slice(0, 10)]: the number of questions a quiz draws. *)
Definition QUIZ_SIZE : nat := 10.

Definition set_index (st : QuizState) (n : nat) : QuizState :=
  mkState (category st) (questions st) n (answers st) (submitted st).

Definition set_answers (st : QuizState) (m : gmap nat string) : QuizState :=
  mkState (category st) (questions st) (index st) m (submitted st).

Definition set_submitted (st : QuizState) : QuizState :=
  mkState (category st) (questions st) (index st) (answers st) true.

(** ** Operations *)

(** [loadCategory], once the pool [all] has arrived:
    [const picked = shuffle(all).slice(0, 10);
     state = { category: catKey, questions: picked, index: 0, answers: {},
               submitted: false };]. *)
Definition begin_quiz (catKey : string) (g : rng) (all : list Question)
    : QuizState * rng :=
  let '(picked, g') := sample QUIZ_SIZE g all in
  (mkState (Some catKey) picked 0 ∅ false, g').

(** The guard of the Prev handler: [state.index>0]. *)
Definition prev_enabled (st : QuizState) : bool := bool_decide (0 < index st).

(** The guard of the Next handler: [state.index < state.questions.length-1],
    compared as JS numbers. *)
Definition next_enabled (st : QuizState) : bool :=
  bool_decide (Z.of_nat (index st) < Z.of_nat (length (questions st)) - 1)%Z.

(** [if(state.index>0){ state.index--; ... }] *)
Definition move_prev (st : QuizState) : QuizState :=
  if prev_enabled st then set_index st (index st - 1) else st.

(** [if(state.index < state.questions.length-1){ state.index++; ... }] *)
Definition move_next (st : QuizState) : QuizState :=
  if next_enabled st then set_index st (S (index st)) else st.

(** The option-button closure: [state.answers[state.index] = opt], with the
    index read when the button is clicked. *)
Definition record_answer (st : QuizState) (opt : string) : QuizState :=
  set_answers st (<[index st := opt]> (answers st)).

(** The submit handler's scan: [if(!state.answers[i]) unanswered.push(i+1)]
    over [0 <= i < state.questions.length]; the numbers are 1-based. *)
Definition unanswered (st : QuizState) : list nat :=
  S <$> filter (fun i => js_falsy_opt (answers st !! i) = true)
               (seq 0 (length (questions st))).

(** [arr.join(', ')] on numbers. *)
Fixpoint join_nats (sep : string) (l : list nat) : string :=
  match l with
  | [] => ""
  | [n] => pretty n
  | n :: l' => pretty n +:+ sep +:+ join_nats sep l'
  end.

(** The text of the confirmation dialog. *)
Definition confirm_message (st : QuizState) : string :=
  "You have unanswered questions: " +:+ join_nats ", " (unanswered st)
  +:+ "." +:+ String (Ascii.ascii_of_nat 10) "Submit anyway?".

(** Whether the submit handler goes on to set [submitted] and show the
    review: at once when nothing is unanswered, otherwise as the user
    answers the [confirm] dialog ([if(!go) return;]). *)
Definition submit_proceeds (st : QuizState) (confirmed : bool) : bool :=
  match unanswered st with
  | [] => true
  | _ => confirmed
  end.

(** ** The session invariant *)

(** [state.index] is a valid question index (or [0] for an empty quiz). *)
Definition index_ok (st : QuizState) : Prop :=
  index st < length (questions st) \/ (questions st = [] /\ index st = 0).

(** Every answer key is a question index, and every answer is one of that
    question's options. *)
Definition answers_ok (st : QuizState) : Prop :=
  forall i s, answers st !! i = Some s ->
  exists q, questions st !! i = Some q /\ s ∈ options q.

Definition session_wf (st : QuizState) : Prop := index_ok st /\ answers_ok st.

(** The options offered on the current question. *)
Definition current_options (st : QuizState) : list string :=
  match questions st !! index st with
  | Some q => options q
  | None => []
  end.

(** The invariant as a boolean test, to check concrete sessions. *)
#[export] Instance index_ok_dec st : Decision (index_ok st).
Proof. unfold index_ok. apply _. Defined.

Definition session_wfb (st : QuizState) : bool :=
  bool_decide (index_ok st) &&
  bool_decide (map_Forall (fun i s =>
    match questions st !! i with
    | Some q => bool_decide (s ∈ options q)
    | None => false
    end = true) (answers st)).

(** ** Lemmas *)

Lemma next_enabled_true st :
  next_enabled st = true <-> S (index st) < length (questions st).
Proof. unfold next_enabled. rewrite bool_decide_eq_true. lia. Qed.

Lemma prev_enabled_true st : prev_enabled st = true <-> 0 < index st.
Proof. unfold prev_enabled. by rewrite bool_decide_eq_true. Qed.

Lemma move_next_fields st :
  questions (move_next st) = questions st /\ answers (move_next st) = answers st /\
  submitted (move_next st) = submitted st /\ category (move_next st) = category st.
Proof. unfold move_next. by destruct (next_enabled st). Qed.

Lemma move_prev_fields st :
  questions (move_prev st) = questions st /\ answers (move_prev st) = answers st /\
  submitted (move_prev st) = submitted st /\ category (move_prev st) = category st.
Proof. unfold move_prev. by destruct (prev_enabled st). Qed.

Lemma answers_ok_index st n : answers_ok st -> answers_ok (set_index st n).
Proof. done. Qed.

#[export] Hint Resolve answers_ok_index : quiz.

(** Operations that keep the questions and the answers keep [answers_ok]. *)
Lemma answers_ok_same st st' :
  questions st' = questions st -> answers st' = answers st ->
  answers_ok st -> answers_ok st'.
Proof. intros Hq Ha H i s. rewrite Hq, Ha. apply H. Qed.

Lemma move_next_index st :
  index_ok st -> index (move_next st) = min (S (index st)) (length (questions st) - 1).
Proof.
  unfold index_ok, move_next. intros Hok.
  destruct (next_enabled st) eqn:E.
  { apply next_enabled_true in E. cbn [index set_index]. lia. }
  rewrite <-not_true_iff_false, next_enabled_true in E.
  destruct Hok as [?|[Hq ->]]; [lia|rewrite Hq in *; simpl in *; lia].
Qed.

Lemma move_prev_index st : index (move_prev st) = index st - 1.
Proof.
  unfold move_prev. destruct (prev_enabled st) eqn:E; [done|].
  rewrite <-not_true_iff_false, prev_enabled_true in E. lia.
Qed.

Lemma move_next_index_ok st : index_ok st -> index_ok (move_next st).
Proof.
  intros Hi. destruct (move_next_fields st) as (Hq & _).
  unfold index_ok in *. rewrite move_next_index, Hq by done.
  destruct Hi as [?|[Hq0 Hi0]]; [left; lia|right; rewrite Hq0, Hi0; done].
Qed.

Lemma move_prev_index_ok st : index_ok st -> index_ok (move_prev st).
Proof.
  intros Hi. destruct (move_prev_fields st) as (Hq & _).
  unfold index_ok in *. rewrite move_prev_index, Hq.
  destruct Hi as [?|[Hq0 Hi0]]; [left; lia|right; rewrite Hq0, Hi0; done].
Qed.

Lemma move_next_wf st : session_wf st -> session_wf (move_next st).
Proof.
  intros [Hi Ha]. destruct (move_next_fields st) as (Hq & Hans & _).
  split; [by apply move_next_index_ok|by eapply answers_ok_same].
Qed.

Lemma move_prev_wf st : session_wf st -> session_wf (move_prev st).
Proof.
  intros [Hi Ha]. destruct (move_prev_fields st) as (Hq & Hans & _).
  split; [by apply move_prev_index_ok|by eapply answers_ok_same].
Qed.

Lemma record_answer_wf st opt :
  session_wf st -> opt ∈ current_options st -> session_wf (record_answer st opt).
Proof.
  intros [Hi Ha] Hopt. split; [done|].
  intros i s. simpl. unfold current_options in Hopt.
  destruct (questions st !! index st) as [q|] eqn:Eq; [|by apply not_elem_of_nil in Hopt].
  rewrite lookup_insert. case_decide as Heq; [intros [= <-]; subst; by exists q|].
  apply Ha.
Qed.

Lemma set_submitted_wf st : session_wf st -> session_wf (set_submitted st).
Proof. intros [Hi Ha]. split; [done|]. by eapply answers_ok_same. Qed.

#[export] Hint Resolve answers_ok_same move_next_wf move_prev_wf record_answer_wf
  set_submitted_wf : quiz.

(** The fields [loadCategory] writes into [state]. *)
Lemma begin_quiz_fields cat g all :
  let st := (begin_quiz cat g all).1 in
  questions st = (sample QUIZ_SIZE g all).1 /\ index st = 0 /\ answers st = ∅ /\
  submitted st = false /\ category st = Some cat.
Proof. unfold begin_quiz. by destruct (sample QUIZ_SIZE g all). Qed.

Lemma begin_quiz_wf cat g all : session_wf (begin_quiz cat g all).1.
Proof.
  destruct (begin_quiz_fields cat g all) as (Hq & Hi & Ha & _).
  set (st := (begin_quiz cat g all).1) in *. split.
  - unfold index_ok. rewrite Hi. destruct (questions st); [by right|left; simpl; lia].
  - intros i s. rewrite Ha. by rewrite lookup_empty.
Qed.

(** C6: the state [loadCategory] writes is a fresh, well-formed session:
    [min 10 |pool|] questions, index [0], no answers, not submitted.  It
    depends on the Sampler only through its contract [SampleSpec]. *)
Theorem begin_quiz_fresh cat g all :
  let st := (begin_quiz cat g all).1 in
  session_wf st /\ length (questions st) = min QUIZ_SIZE (length all) /\
  index st = 0 /\ answers st = ∅ /\ submitted st = false /\ category st = Some cat.
Proof.
  destruct (begin_quiz_fields cat g all) as (Hq & Hi & Ha & Hs & Hc).
  pose proof (sample_spec_length _ QUIZ_SIZE g all) as Hl.
  split_and!; auto using begin_quiz_wf. by rewrite Hq.
Qed.

(** C7: Next and Prev never leave the question range and never touch the
    answers: on a well-formed session Next moves to [min (i+1) (N-1)] (a
    no-op on the last question) and Prev to [i-1] (a no-op on the first),
    and both keep the session well formed. *)
Theorem navigation_spec st :
  session_wf st ->
  index (move_next st) = min (S (index st)) (length (questions st) - 1) /\
  index (move_prev st) = index st - 1 /\
  answers (move_next st) = answers st /\ answers (move_prev st) = answers st /\
  session_wf (move_next st) /\ session_wf (move_prev st).
Proof.
  intros Hwf.
  destruct (move_next_fields st) as (_ & Hn & _), (move_prev_fields st) as (_ & Hp & _).
  split_and!; [apply move_next_index, Hwf|apply move_prev_index|done|done|..];
    eauto with quiz.
Qed.

(** Clicking Next [k] times on a fresh quiz of [N] questions shows
    question [min k (N-1)]: every question is reachable and the last one
    is never passed. *)
Theorem next_iter_index cat g all k :
  index (Nat.iter k move_next (begin_quiz cat g all).1) =
    min k (length (questions (begin_quiz cat g all).1) - 1).
Proof.
  pose proof (begin_quiz_wf cat g all) as Hwf.
  destruct (begin_quiz_fields cat g all) as (_ & H0 & _).
  set (st := (begin_quiz cat g all).1) in *. clearbody st.
  induction k as [|k IH]; [simpl; lia|].
  assert (Hk : session_wf (Nat.iter k move_next st)).
  { clear IH. induction k; [done|]. rewrite Nat.iter_succ. eauto with quiz. }
  assert (Hq : questions (Nat.iter k move_next st) = questions st).
  { clear IH Hk. induction k; [done|]. rewrite Nat.iter_succ. by rewrite (proj1 (move_next_fields _)). }
  rewrite Nat.iter_succ, move_next_index by apply Hk. rewrite IH, Hq. lia.
Qed.

(** The answer recorder overwrites: after a sequence of clicks on
    options of the current question, that question's answer is the last
    option clicked, and every other question's answer is unchanged. *)
Theorem record_last_wins st (clicks : list string) :
  clicks <> [] ->
  answers (foldl record_answer st clicks) !! index st = last clicks /\
  (forall i, i <> index st ->
     answers (foldl record_answer st clicks) !! i = answers st !! i) /\
  index (foldl record_answer st clicks) = index st.
Proof.
  revert st. induction clicks as [|c clicks IH] using rev_ind; intros st Hne; [done|].
  rewrite foldl_app, last_snoc. simpl.
  destruct (decide (clicks = [])) as [->|Hc].
  - simpl. split_and!; [by rewrite lookup_insert_eq| |done].
    intros i Hi. by rewrite lookup_insert_ne.
  - destruct (IH st Hc) as (_ & Hother & Hidx).
    split_and!; [by rewrite Hidx, lookup_insert_eq| |done].
    intros i Hi. rewrite lookup_insert_ne by congruence. by apply Hother.
Qed.

(** ** The session as a state machine *)

(** The state changes the quiz handlers make to [state]: a new quiz, Next,
    Prev, a click on one of the current question's options, and a
    submission the validator lets through. *)
Inductive session_step : QuizState -> QuizState -> Prop :=
| SBegin st cat g all : session_step st (begin_quiz cat g all).1
| SNext st : session_step st (move_next st)
| SPrev st : session_step st (move_prev st)
| SRecord st opt : opt ∈ current_options st -> session_step st (record_answer st opt)
| SSubmit st confirmed :
    submit_proceeds st confirmed = true -> session_step st (set_submitted st).

Lemma session_step_wf st st' : session_step st st' -> session_wf st -> session_wf st'.
Proof.
  destruct 1; intros Hwf; eauto with quiz. apply begin_quiz_wf.
Qed.


Lemma session_wfb_spec st : session_wfb st = true -> session_wf st.
Proof.
  unfold session_wfb. rewrite andb_true_iff, !bool_decide_eq_true.
  intros [Hi Ha]. split; [done|]. intros i s Hs.
  specialize (Ha i s Hs). simpl in Ha.
  destruct (questions st !! i) as [q|]; [|done].
  exists q. split; [done|]. by apply bool_decide_eq_true in Ha.
Qed.

(** ** Witnesses *)

Lemma navigation_spec_witness :
  let st := mkState (Some "devops") [mkQuestion "Q1" ["a"; "b"] "a";
                                     mkQuestion "Q2" ["c"; "d"] "d"] 1 {[0 := "b"]} false in
  session_wf st /\
  (index (move_next st) = min (S (index st)) (length (questions st) - 1) /\
   index (move_prev st) = index st - 1 /\
   answers (move_next st) = answers st /\ answers (move_prev st) = answers st /\
   session_wf (move_next st) /\ session_wf (move_prev st)).
Proof.
  intros st. assert (H : session_wf st) by (apply session_wfb_spec; vm_compute; reflexivity).
  split; [exact H|]. apply navigation_spec. exact H.
Defined.

Lemma record_last_wins_witness :
  let st := mkState (Some "devops") [mkQuestion "Q1" ["A"; "B"] "B"] 0 ∅ false in
  ["A"; "B"] <> [] /\
  (answers (foldl record_answer st ["A"; "B"]) !! index st = last ["A"; "B"] /\
   (forall i, i <> index st ->
      answers (foldl record_answer st ["A"; "B"]) !! i = answers st !! i) /\
   index (foldl record_answer st ["A"; "B"]) = index st).
Proof.
  intros st. assert (H : ["A"; "B"] <> []) by discriminate.
  split; [exact H|]. apply record_last_wins. exact H.
Defined.

