(* ===== verification/Review.v ===== *)
(** * Review: the Scorer and the Submission Validator against their spec

    Models [showReview] (src/script.js lines 187-208): the [forEach] over
    the questions that builds one review item per question, counts
    [correctCount], and writes the score line.  It states the abstract
    specification of the design notes, one slot per question index that is
    [Unanswered] or [Answered s], and proves how the code refines it.

    The code does not test "absent" as the spec does.  The Scorer replaces
    a missing answer with the text ["(no answer)"] and compares that text to
    the correct answer, so an unanswered question whose correct answer is
    that very text counts as correct.  The Validator tests JavaScript
    falsiness ([!state.answers[i]]), so an answer that is the empty string
    counts as unanswered.  The refinement theorems hold exactly when these
    two texts are not in play; the divergence theorems show what happens
    when they are. *)

From S2P Require Import Prelude Sampler Session.

(** ** The code *)

(** The text shown for a missing answer: [state.answers[i] ?? '(no answer)']. *)
Definition NO_ANSWER : string := "(no answer)".

(** What one review item displays: [Q${i+1}], the question, "Your answer",
    "Correct answer", and the [correct]/[wrong] class. *)
Record ReviewItem := mkItem {
  ri_num : nat;
  ri_question : string;
  ri_your : string;
  ri_correct : string;
  ri_ok : bool
}.

(** One iteration of the [forEach] body, without the counter. *)
Definition review_item (ans : gmap nat string) (i : nat) (q : Question) : ReviewItem :=
  let your := ans !! i ?? NO_ANSWER in
  mkItem (S i) (question q) your (answer q) (bool_decide (your = answer q)).

(** [state.questions.forEach((q, i) => { ...; if(isCorrect) correctCount++;
    list.appendChild(item); })] from index [i] with the counter so far. *)
Fixpoint review_loop (ans : gmap nat string) (i : nat) (qs : list Question)
    (correctCount : nat) : list ReviewItem * nat :=
  match qs with
  | [] => ([], correctCount)
  | q :: qs' =>
      let it := review_item ans i q in
      let '(items, c) :=
        review_loop ans (S i) qs' (if ri_ok it then S correctCount else correctCount) in
      (it :: items, c)
  end.

(** [showReview]: the review list and the text of [#score]. *)
Definition show_review (st : QuizState) : list ReviewItem * string :=
  let '(items, correctCount) := review_loop (answers st) 0 (questions st) 0 in
  (items, "Score: " +:+ pretty correctCount +:+ " / " +:+ pretty (length (questions st))).

(** The final value of [correctCount]. *)
Definition score (st : QuizState) : nat := (review_loop (answers st) 0 (questions st) 0).2.

(** ** The abstract specification *)

(** The per-index answer of the design notes: [Unanswered | Answered s]. *)
Inductive Slot := Unanswered | Answered (s : string).

#[export] Instance Slot_eq_dec : EqDecision Slot.
Proof. solve_decision. Defined.

Definition slot (st : QuizState) (i : nat) : Slot :=
  match answers st !! i with Some s => Answered s | None => Unanswered end.

(** Spec 4.6: question [i] is correct when it is answered with exactly the
    correct answer text; one verdict per question, in order. *)
Definition spec_verdicts (st : QuizState) : list bool :=
  imap (fun i q => bool_decide (slot st i = Answered (answer q))) (questions st).

(** [score = count(isCorrect == true)]. *)
Definition spec_score (st : QuizState) : nat :=
  length (filter (fun b => b = true) (spec_verdicts st)).

(** Spec 4.5: the 0-based indices with no answer. *)
Definition spec_unanswered (st : QuizState) : list nat :=
  filter (fun i => slot st i = Unanswered) (seq 0 (length (questions st))).

(** ** Lemmas *)

Lemma review_loop_spec ans qs : forall i c,
  (review_loop ans i qs c).1 = imap (fun k q => review_item ans (i + k) q) qs /\
  (review_loop ans i qs c).2 = c + length (filter ri_ok (review_loop ans i qs c).1).
Proof.
  induction qs as [|q qs IH]; intros i c.
  { simpl. split; [done|lia]. }
  simpl.
  specialize (IH (S i) (if ri_ok (review_item ans i q) then S c else c)).
  destruct (review_loop ans (S i) qs _) as [items c'] eqn:E. simpl in *.
  destruct IH as [-> ->]. split.
  - rewrite Nat.add_0_r. f_equal. apply imap_ext. intros k x _. unfold compose. by rewrite Nat.add_succ_r.
  - rewrite filter_cons. cbn [ri_ok review_item]. destruct (bool_decide _); simpl; lia.
Qed.

Lemma review_items_lookup st i :
  (show_review st).1 !! i = review_item (answers st) i <$> questions st !! i.
Proof.
  unfold show_review. destruct (review_loop_spec (answers st) (questions st) 0 0) as [H1 _].
  destruct (review_loop _ _ _ _) as [items c]. simpl in *. subst items.
  by rewrite list_lookup_imap.
Qed.

Lemma score_count st : score st = length (filter ri_ok (show_review st).1).
Proof.
  unfold score, show_review. destruct (review_loop_spec (answers st) (questions st) 0 0) as [_ H2].
  destruct (review_loop _ _ _ _) as [items c]. simpl in *. lia.
Qed.

Lemma length_review_items st : length (show_review st).1 = length (questions st).
Proof.
  unfold show_review. destruct (review_loop_spec (answers st) (questions st) 0 0) as [H1 _].
  destruct (review_loop _ _ _ _) as [items c]. simpl in *. subst. apply length_imap.
Qed.

(** Where the sentinel is not a correct answer, the code's verdict for
    question [i] is the spec's. *)
Lemma review_item_verdict ans i q :
  answer q <> NO_ANSWER ->
  ri_ok (review_item ans i q) =
    bool_decide (match ans !! i with Some s => Answered s | None => Unanswered end
                 = Answered (answer q)).
Proof.
  intros Hq. unfold review_item. cbn [ri_ok]. apply bool_decide_ext.
  destruct (ans !! i) as [s|]; simpl.
  - split; [by intros ->|by intros [= ->]].
  - split; [intros H; exfalso; by apply Hq|discriminate].
Qed.

(** Where no answer is the empty string, the falsiness test is the
    absence test. *)
Lemma falsy_absent (ans : gmap nat string) i :
  (forall j s, ans !! j = Some s -> s <> "") ->
  js_falsy_opt (ans !! i) = true <->
    match ans !! i with Some s => Answered s | None => Unanswered end = Unanswered.
Proof.
  intros Hne. destruct (ans !! i) as [s|] eqn:E; simpl; [|done].
  unfold js_falsy_str. rewrite bool_decide_eq_true.
  split; [|done]. intros ->. by apply (Hne i "") in E.
Qed.

(** C11: [showReview] builds one item per question, in order, showing
    [Q(i+1)], the question, the recorded answer or ["(no answer)"], the
    correct answer, and the verdict "your answer text equals the correct
    answer text" (exact, case-sensitive); the score counts the items
    judged correct, so it never exceeds the number of questions, and the
    score line reads ["Score: " score " / " total]. *)
Theorem show_review_spec st :
  length (show_review st).1 = length (questions st) /\
  (forall i q, questions st !! i = Some q ->
     (show_review st).1 !! i =
       Some (mkItem (S i) (question q) (answers st !! i ?? NO_ANSWER) (answer q)
               (bool_decide ((answers st !! i ?? NO_ANSWER) = answer q)))) /\
  score st = length (filter ri_ok (show_review st).1) /\
  score st <= length (questions st) /\
  (show_review st).2 = "Score: " +:+ pretty (score st) +:+ " / " +:+ pretty (length (questions st)).
Proof.
  split_and!.
  - apply length_review_items.
  - intros i q Hq. by rewrite review_items_lookup, Hq.
  - apply score_count.
  - rewrite score_count, <-length_review_items. apply length_filter.
  - unfold show_review, score. by destruct (review_loop _ _ _ _).
Qed.

(** C12: refinement of the Scorer.  When no question's correct answer is
    the literal text ["(no answer)"], the verdicts of [showReview] are the
    spec's verdicts (answered with exactly the correct text) and the score
    is the spec's score. *)
Theorem score_refines_spec st :
  Forall (fun q => answer q <> NO_ANSWER) (questions st) ->
  ri_ok <$> (show_review st).1 = spec_verdicts st /\ score st = spec_score st.
Proof.
  intros Hall.
  assert (Hv : ri_ok <$> (show_review st).1 = spec_verdicts st).
  { apply list_eq. intros i. rewrite list_lookup_fmap, review_items_lookup.
    unfold spec_verdicts. rewrite list_lookup_imap.
    destruct (questions st !! i) as [q|] eqn:Eq; [|done]. simpl. f_equal.
    apply review_item_verdict. rewrite Forall_lookup in Hall. by apply (Hall i). }
  split; [done|]. unfold spec_score. rewrite <-Hv, length_filter_fmap, score_count.
  f_equal. apply list_filter_iff. intros x. destruct (ri_ok x); simpl; intuition congruence.
Qed.

(** C13: divergence of the Scorer from the spec.  An unanswered question
    whose correct answer is the text ["(no answer)"] is shown as answered
    correctly and counted in the score, while the spec's verdict for an
    unanswered question is "incorrect". *)
Theorem unanswered_scored_correct st i q :
  questions st !! i = Some q -> answers st !! i = None -> answer q = NO_ANSWER ->
  (show_review st).1 !! i = Some (mkItem (S i) (question q) NO_ANSWER NO_ANSWER true) /\
  spec_verdicts st !! i = Some false.
Proof.
  intros Hq Ha Hans. rewrite review_items_lookup, Hq. unfold spec_verdicts.
  rewrite list_lookup_imap, Hq. simpl. unfold review_item, slot. rewrite Ha, Hans.
  simpl. split; [done|]. reflexivity.
Qed.

(** C14: refinement of the Submission Validator.  When no recorded answer
    is the empty string, the submit handler's list is the spec's list of
    unanswered indices, shifted to 1-based numbers, and the handler submits
    without asking exactly when the spec's list is empty. *)
Theorem unanswered_refines_spec st :
  (forall i s, answers st !! i = Some s -> s <> "") ->
  unanswered st = S <$> spec_unanswered st /\
  (submit_proceeds st false = true <-> spec_unanswered st = []).
Proof.
  intros Hne.
  assert (Hu : unanswered st = S <$> spec_unanswered st).
  { unfold unanswered, spec_unanswered. f_equal. apply list_filter_iff.
    intros i. unfold slot. by apply falsy_absent. }
  split; [done|]. unfold submit_proceeds. rewrite Hu.
  destruct (spec_unanswered st); simpl; split; congruence.
Qed.

(** C15: divergence of the Validator from the spec.  An answer that is the
    empty string (an option whose text is empty) is reported as
    unanswered by the submit handler, though the spec counts it answered
    and the review shows it as the answer given. *)
Theorem empty_answer_reported_unanswered st i :
  i < length (questions st) -> answers st !! i = Some "" ->
  S i ∈ unanswered st /\ (i ∉ spec_unanswered st) /\
  ri_your <$> ((show_review st).1 !! i) = Some "".
Proof.
  intros Hi Ha. split_and!.
  - unfold unanswered. apply list_elem_of_fmap_2.
    apply list_elem_of_filter. rewrite Ha.
    split; [done|]. apply elem_of_seq. lia.
  - unfold spec_unanswered. rewrite list_elem_of_filter. unfold slot. rewrite Ha. by intros [? _].
  - rewrite review_items_lookup.
    destruct (questions st !! i) eqn:E; [|by apply lookup_ge_None in E; lia].
    simpl. by rewrite Ha.
Qed.

(** ** Witnesses: the examples of spec section 8 *)

(** The scoring example: answers [{0:"Paris", 2:"Green"}] against correct
    answers ["Paris"; "4"; "Blue"] give verdicts [true; false; false] and
    score 1 of 3. *)
Lemma score_refines_spec_witness :
  let st := mkState (Some "geo")
    [mkQuestion "Capital of France?" ["Paris"; "Lyon"] "Paris";
     mkQuestion "2+2?" ["3"; "4"] "4";
     mkQuestion "Sky colour?" ["Blue"; "Green"] "Blue"] 0
    {[0 := "Paris"; 2 := "Green"]} true in
  Forall (fun q => answer q <> NO_ANSWER) (questions st) /\
  (ri_ok <$> (show_review st).1 = spec_verdicts st /\ score st = spec_score st) /\
  spec_verdicts st = [true; false; false] /\ score st = 1 /\
  (show_review st).2 = "Score: 1 / 3".
Proof.
  intros st. assert (H : Forall (fun q => answer q <> NO_ANSWER) (questions st)) by (apply (bool_decide_unpack _); vm_compute; reflexivity).
  split; [exact H|]. split; [apply score_refines_spec; exact H|].
  split_and!; vm_compute; reflexivity.
Defined.

Lemma unanswered_scored_correct_witness :
  let q := mkQuestion "Which option means you skipped?" ["(no answer)"; "skip"] "(no answer)" in
  let st := mkState (Some "trivia") [q] 0 ∅ true in
  questions st !! 0 = Some q /\ answers st !! 0 = None /\ answer q = NO_ANSWER /\
  ((show_review st).1 !! 0 = Some (mkItem 1 (question q) NO_ANSWER NO_ANSWER true) /\
   spec_verdicts st !! 0 = Some false).
Proof.
  intros q st. assert (H1 : questions st !! 0 = Some q) by reflexivity.
  assert (H2 : answers st !! 0 = None) by reflexivity.
  assert (H3 : answer q = NO_ANSWER) by reflexivity.
  split; [exact H1|]. split; [exact H2|]. split; [exact H3|].
  apply unanswered_scored_correct; [exact H1|exact H2|exact H3].
Defined.

(** The validator example: questions 2 and 5 (1-based) unanswered. *)
Lemma unanswered_refines_spec_witness :
  let q := mkQuestion "?" ["a"; "b"] "a" in
  let st := mkState (Some "x") [q; q; q; q; q] 0 {[0 := "a"; 2 := "b"; 3 := "a"]} false in
  (forall i s, answers st !! i = Some s -> s <> "") /\
  (unanswered st = S <$> spec_unanswered st /\
   (submit_proceeds st false = true <-> spec_unanswered st = [])) /\
  spec_unanswered st = [1; 4] /\ unanswered st = [2; 5] /\
  confirm_message st = "You have unanswered questions: 2, 5." +:+
                       String (Ascii.ascii_of_nat 10) "Submit anyway?".
Proof.
  intros q st.
  assert (H : forall i s, answers st !! i = Some s -> s <> "").
  { change (map_Forall (fun _ s => s <> "") (answers st)).
    apply (bool_decide_unpack _); vm_compute; reflexivity. }
  split; [exact H|]. split; [apply unanswered_refines_spec; exact H|].
  split_and!; vm_compute; reflexivity.
Defined.

Lemma empty_answer_reported_unanswered_witness :
  let st := mkState (Some "x") [mkQuestion "Pick the empty option" [""; "x"] "x"] 0
              {[0 := ""]} false in
  0 < length (questions st) /\ answers st !! 0 = Some "" /\
  (S 0 ∈ unanswered st /\ (0 ∉ spec_unanswered st) /\
   ri_your <$> ((show_review st).1 !! 0) = Some "").
Proof.
  intros st. assert (H1 : 0 < length (questions st)) by (simpl; lia).
  assert (H2 : answers st !! 0 = Some "") by reflexivity.
  split; [exact H1|]. split; [exact H2|].
  apply empty_answer_reported_unanswered; [exact H1|exact H2].
Defined.
