(* ===== verification/Markup.v ===== *)
(** * Markup: the HTML of a review item, and how the browser reads it

    [showReview] (src/script.js lines 187-208) builds each review item by
    assigning a template literal to [item.innerHTML] (lines 197-202), with
    the question, the recorded answer and the correct answer interpolated
    as they are, without escaping.  This file models the item's class
    (line 196) and the exact text of the template, and the part of the HTML
    tokenizer (a browser algorithm, modelled from the HTML standard) that
    decides which elements that text makes: text, start tags with their
    attributes (quoted values may hold [>]), end tags, comments
    [<!-- ... -->] and the bogus comments that [<!], [<?] and [</] followed
    by a non-letter begin.  Text tokens keep their raw characters:
    character references ([&lt;], ...) are not decoded, which changes no
    element.

    The theorems: when the three values hold no [<], the item's markup
    reads as exactly the template's elements, with each value as one text
    token in its place; and a question holding markup adds elements to the
    review page, e.g. an [img] whose [onerror] attribute runs script. *)

From S2P Require Import Prelude Sampler Session Review.
From Stdlib Require Import Ascii String.

(** ** The item's text *)

(** [NL] followed by [n] spaces: the indentation of the template. *)
Definition indent (n : nat) : string := String (ascii_of_N 10) (string_of_list_ascii (repeat " "%char n)).

Definition dq : string := String QUOTE EmptyString.

(** [item.className = 'review-item ' + (isCorrect ? 'correct' : 'wrong')]. *)
Definition review_item_class (it : ReviewItem) : string :=
  "review-item " +:+ (if ri_ok it then "correct" else "wrong").

(** The template literal of lines 197-202. *)
Definition review_item_html (it : ReviewItem) : string :=
  indent 6 +:+ "<div class=" +:+ dq +:+ "muted" +:+ dq +:+ ">Q" +:+ pretty (ri_num it) +:+ "</div>" +:+
  indent 6 +:+ "<div><strong>" +:+ ri_question it +:+ "</strong></div>" +:+
  indent 6 +:+ "<div>Your answer: <span class=" +:+ dq +:+ (if ri_ok it then "muted" else "") +:+ dq +:+
    ">" +:+ ri_your it +:+ "</span></div>" +:+
  indent 6 +:+ "<div>Correct answer: <strong>" +:+ ri_correct it +:+ "</strong></div>" +:+
  indent 4.

(** ** Reading HTML *)

(** What the tokenizer emits, with tag names lower-cased. *)
Inductive Token := TText (s : string) | TStart (name : string) | TEnd (name : string).

#[export] Instance Token_eq_dec : EqDecision Token.
Proof. solve_decision. Defined.

(** The tokenizer's states; text and names are kept reversed. *)
Inductive Mode :=
| MData (text : list ascii)                      (** data *)
| MTagOpen (text : list ascii)                   (** after [<] *)
| MEndOpen (text : list ascii)                   (** after [</] *)
| MTagName (close : bool) (name : list ascii)    (** in a tag name *)
| MAttrs (close : bool) (name : string) (after_eq : bool) (quote : option ascii)
| MDecl (dashes : nat)                           (** after [<!] *)
| MComment (dashes : nat)                        (** in [<!-- ... -->] *)
| MBogus.                                        (** in a bogus comment *)

Definition is_letter (c : ascii) : bool :=
  let n := N_of_ascii c in bool_decide ((65 <= n <= 90)%N \/ (97 <= n <= 122)%N).

Definition is_html_space (c : ascii) : bool :=
  bool_decide (N_of_ascii c ∈ [9; 10; 12; 13; 32]%N).

(** ASCII lower case, as the tokenizer applies to tag names. *)
Definition ascii_lower (c : ascii) : ascii :=
  if bool_decide (65 <= N_of_ascii c <= 90)%N then ascii_of_N (N_of_ascii c + 32) else c.

(** Emit the text read so far, if any. *)
Definition flush (text : list ascii) (out : list Token) : list Token :=
  match text with [] => out | _ => TText (string_of_list_ascii (rev text)) :: out end.

Definition emit_tag (close : bool) (name : string) (out : list Token) : list Token :=
  (if close then TEnd name else TStart name) :: out.

(** One character in a state: the next state and the tokens emitted so
    far (most recent first). *)
Definition lex_step (m : Mode) (c : ascii) (out : list Token) : Mode * list Token :=
  match m with
  | MData t => if bool_decide (c = "<"%char) then (MTagOpen t, out) else (MData (c :: t), out)
  | MTagOpen t =>
      if is_letter c then (MTagName false [ascii_lower c], flush t out)
      else if bool_decide (c = "/"%char) then (MEndOpen t, out)
      else if bool_decide (c = "!"%char) then (MDecl 0, flush t out)
      else if bool_decide (c = "?"%char) then (MBogus, flush t out)
      else if bool_decide (c = "<"%char) then (MTagOpen ("<"%char :: t), out)
      else (MData (c :: "<"%char :: t), out)
  | MEndOpen t =>
      if is_letter c then (MTagName true [ascii_lower c], flush t out)
      else if bool_decide (c = ">"%char) then (MData [], flush t out)
      else (MBogus, flush t out)
  | MTagName cl n =>
      if is_html_space c || bool_decide (c = "/"%char)
      then (MAttrs cl (string_of_list_ascii (rev n)) false None, out)
      else if bool_decide (c = ">"%char)
      then (MData [], emit_tag cl (string_of_list_ascii (rev n)) out)
      else (MTagName cl (ascii_lower c :: n), out)
  | MAttrs cl n ae None =>
      if bool_decide (c = ">"%char) then (MData [], emit_tag cl n out)
      else if bool_decide (c = "="%char) then (MAttrs cl n true None, out)
      else if ae && (bool_decide (c = QUOTE) || bool_decide (c = "'"%char))
      then (MAttrs cl n false (Some c), out)
      else if is_html_space c then (MAttrs cl n ae None, out)
      else (MAttrs cl n false None, out)
  | MAttrs cl n _ (Some q) =>
      if bool_decide (c = q) then (MAttrs cl n false None, out) else (MAttrs cl n false (Some q), out)
  | MDecl k =>
      if bool_decide (c = "-"%char) then (if k =? 0 then (MDecl 1, out) else (MComment 0, out))
      else if bool_decide (c = ">"%char) then (MData [], out)
      else (MBogus, out)
  | MComment k =>
      if bool_decide (c = "-"%char) then (MComment (S k), out)
      else if bool_decide (c = ">"%char) && (2 <=? k) then (MData [], out)
      else (MComment 0, out)
  | MBogus => if bool_decide (c = ">"%char) then (MData [], out) else (MBogus, out)
  end.

(** The end of the input: pending text is emitted, an unfinished tag or
    comment is dropped. *)
Definition lex_eof (m : Mode) (out : list Token) : list Token :=
  match m with
  | MData t => flush t out
  | MTagOpen t => flush ("<"%char :: t) out
  | MEndOpen t => flush ("/"%char :: "<"%char :: t) out
  | _ => out
  end.

Fixpoint lex (m : Mode) (cs : list ascii) (out : list Token) : list Token :=
  match cs with
  | [] => lex_eof m out
  | c :: cs' => let '(m', out') := lex_step m c out in lex m' cs' out'
  end.

(** The tokenizer over a prefix, without the end of input. *)
Fixpoint lex_run (m : Mode) (cs : list ascii) (out : list Token) : Mode * list Token :=
  match cs with
  | [] => (m, out)
  | c :: cs' => let '(m', out') := lex_step m c out in lex_run m' cs' out'
  end.

(** The tokens of an [innerHTML] assignment, in order. *)
Definition html_tokens (s : string) : list Token := rev (lex (MData []) (list_ascii_of_string s) []).

(** The element structure: the start and end tags, in order. *)
Definition is_tag (t : Token) : bool := match t with TText _ => false | _ => true end.

Definition tags_of (ts : list Token) : list Token := filter (fun t => is_tag t = true) ts.

(** A text token for a value, none for the empty string. *)
Definition text_token (s : string) : list Token := if bool_decide (s = "") then [] else [TText s].

(** The tokens of the item's template for the given values. *)
Definition review_item_tokens (num q your ans : string) (ok : bool) : list Token :=
  [TText (indent 6); TStart "div"; TText ("Q" +:+ num); TEnd "div"; TText (indent 6);
   TStart "div"; TStart "strong"] ++ text_token q ++ [TEnd "strong"; TEnd "div"; TText (indent 6);
   TStart "div"; TText "Your answer: "; TStart "span"] ++ text_token your ++
  [TEnd "span"; TEnd "div"; TText (indent 6); TStart "div"; TText "Correct answer: "; TStart "strong"] ++
  text_token ans ++ [TEnd "strong"; TEnd "div"; TText (indent 4)].

(** The element structure of the template. *)
Definition REVIEW_SKELETON : list Token :=
  [TStart "div"; TEnd "div"; TStart "div"; TStart "strong"; TEnd "strong"; TEnd "div";
   TStart "div"; TStart "span"; TEnd "span"; TEnd "div";
   TStart "div"; TStart "strong"; TEnd "strong"; TEnd "div"].

(** ** Lemmas *)

Lemma lex_lex_run m cs out : lex m cs out = let '(m', o) := lex_run m cs out in lex_eof m' o.
Proof.
  revert m out. induction cs as [|c cs IH]; intros m out; [done|].
  simpl. destruct (lex_step m c out). apply IH.
Qed.

Lemma lex_run_app m cs1 cs2 out :
  lex_run m (cs1 ++ cs2) out = let '(m', o) := lex_run m cs1 out in lex_run m' cs2 o.
Proof.
  revert m out. induction cs1 as [|c cs1 IH]; intros m out; [done|].
  simpl. destruct (lex_step m c out). apply IH.
Qed.

(** Text without [<] is read as text. *)
Lemma lex_run_text t cs out :
  "<"%char ∉ cs -> lex_run (MData t) cs out = (MData (rev cs ++ t), out).
Proof.
  revert t. induction cs as [|c cs IH]; intros t Hc; [done|].
  simpl. rewrite bool_decide_eq_false_2 by set_solver.
  rewrite IH by set_solver. by rewrite <-app_assoc.
Qed.

Lemma flush_text s out :
  flush (rev (list_ascii_of_string s)) out = rev (text_token s) ++ out.
Proof.
  unfold flush, text_token. destruct (rev (list_ascii_of_string s)) as [|a l] eqn:E.
  - apply (f_equal (@rev _)) in E. rewrite rev_involutive in E.
    destruct s; [done|discriminate].
  - rewrite bool_decide_eq_false_2; [|intros ->; discriminate].
    rewrite <-E, rev_involutive, string_of_list_ascii_of_string. done.
Qed.

Lemma pretty_N_go_no_lt x s :
  "<"%char ∉ list_ascii_of_string s -> "<"%char ∉ list_ascii_of_string (pretty_N_go x s).
Proof.
  revert s. induction (N.lt_wf_0 x) as [x _ IH]; intros s Hs.
  destruct (decide (x = 0)%N) as [->|Hx]; [by rewrite pretty_N_go_0|].
  rewrite pretty_N_go_step by lia. apply IH; [apply N.div_lt; lia|].
  simpl. apply not_elem_of_cons. split; [|done].
  unfold pretty_N_char. by repeat case_match.
Qed.

Lemma pretty_nat_no_lt (n : nat) : "<"%char ∉ list_ascii_of_string (pretty n).
Proof.
  unfold pretty, pretty_nat. unfold pretty, pretty_N. case_decide; [simpl; set_solver|].
  apply pretty_N_go_no_lt. simpl. set_solver.
Qed.

Lemma flush_rev cs out :
  flush (rev cs) out = match cs with [] => out | _ => TText (string_of_list_ascii cs) :: out end.
Proof.
  unfold flush. destruct cs as [|c cs]; [done|].
  destruct (rev (c :: cs)) eqn:E; [simpl in E; by apply app_eq_nil in E as [_ ?]|].
  by rewrite <-E, rev_involutive.
Qed.

(** The tokenizer only adds tokens in front of those already emitted. *)
Lemma lex_step_acc m c out : exists l, (lex_step m c out).2 = l ++ out.
Proof.
  unfold lex_step, flush, emit_tag.
  repeat case_match; simpl; solve [exists []; done | eexists [_]; done].
Qed.

Lemma lex_run_acc m cs out : exists l, (lex_run m cs out).2 = l ++ out.
Proof.
  revert m out. induction cs as [|c cs IH]; intros m out; [by exists []|].
  simpl. destruct (lex_step_acc m c out) as [k Hk].
  destruct (lex_step m c out) as [m' out']. simpl in Hk. subst out'.
  destruct (IH m' (k ++ out)) as [l Hl]. rewrite Hl. exists (l ++ k). by rewrite app_assoc.
Qed.

Lemma lex_eof_acc m out : exists l, lex_eof m out = l ++ out.
Proof. destruct m; simpl; unfold flush; repeat case_match; solve [exists []; done | eexists [_]; done]. Qed.

Lemma lex_app m cs1 cs2 out :
  lex m (cs1 ++ cs2) out = let '(m', o) := lex_run m cs1 out in lex m' cs2 o.
Proof. rewrite lex_lex_run, lex_run_app. destruct (lex_run m cs1 out) as [m' o]. by rewrite lex_lex_run. Qed.

(** A token already emitted stays in the output. *)
Lemma lex_keeps m cs out x : x ∈ out -> x ∈ rev (lex m cs out).
Proof.
  intros Hx. rewrite lex_lex_run. destruct (lex_run_acc m cs out) as [l Hl].
  destruct (lex_run m cs out) as [m' o]. simpl in Hl. subst o.
  destruct (lex_eof_acc m' (l ++ out)) as [k ->].
  rewrite list_elem_of_In, <-in_rev, <-list_elem_of_In. set_solver.
Qed.

Lemma lex_keeps_prefix m cs1 cs2 out x :
  x ∈ (lex_run m cs1 out).2 -> x ∈ rev (lex m (cs1 ++ cs2) out).
Proof.
  intros Hx. rewrite lex_app. destruct (lex_run m cs1 out) as [m' o]. by apply lex_keeps.
Qed.

Lemma tags_of_text s : tags_of (text_token s) = [].
Proof. unfold text_token. by case_bool_decide. Qed.

Lemma tags_of_review_item_tokens num q your ans ok :
  tags_of (review_item_tokens num q your ans ok) = REVIEW_SKELETON.
Proof.
  unfold review_item_tokens, tags_of. rewrite !filter_app. fold (tags_of (text_token q)).
  fold (tags_of (text_token your)) (tags_of (text_token ans)). by rewrite !tags_of_text.
Qed.

(** Run the tokenizer through a template, one piece at a time: constant
    pieces by computation, interpolated text by [lex_run_text]. *)
Ltac lex_template :=
  repeat (rewrite lex_run_app; try (rewrite lex_run_text by done); simpl).

(** ** Theorems *)

(** C29: the review item's markup is well formed for plain values: when
    the question, the recorded answer and the correct answer hold no [<],
    the browser reads [item.innerHTML] as exactly the template's
    elements, [div]s with a [strong] and a [span], with the question
    number and each value as one text token in its place (none for an
    empty value). *)
Theorem review_item_markup it :
  "<"%char ∉ list_ascii_of_string (ri_question it) ->
  "<"%char ∉ list_ascii_of_string (ri_your it) ->
  "<"%char ∉ list_ascii_of_string (ri_correct it) ->
  html_tokens (review_item_html it) =
    review_item_tokens (pretty (ri_num it)) (ri_question it) (ri_your it) (ri_correct it) (ri_ok it) /\
  tags_of (html_tokens (review_item_html it)) = REVIEW_SKELETON.
Proof.
  intros Hq Hy Hc. rewrite <-(tags_of_review_item_tokens (pretty (ri_num it)) (ri_question it)
    (ri_your it) (ri_correct it) (ri_ok it)).
  cut (html_tokens (review_item_html it) =
    review_item_tokens (pretty (ri_num it)) (ri_question it) (ri_your it) (ri_correct it) (ri_ok it));
    [by intros ->|].
  destruct it as [n q y c ok]; simpl in *.
  pose proof (pretty_nat_no_lt n) as Hn.
  unfold html_tokens, review_item_html. rewrite !list_ascii_of_string_app, lex_lex_run.
  destruct ok; lex_template; rewrite !app_nil_r, !flush_rev;
  change (rev (list_ascii_of_string (pretty n)) ++ ["Q"%char])
    with (rev ("Q"%char :: list_ascii_of_string (pretty n)));
  rewrite flush_rev; unfold review_item_tokens, text_token;
  destruct q, y, c; simpl; rewrite ?string_of_list_ascii_of_string;
  repeat (rewrite bool_decide_eq_false_2 by done); reflexivity.
Qed.

(** C33: the review page runs markup from the question bank: a question
    whose text is [<img src=x onerror=alert(1)>] gives its review item an
    [img] element (whose [onerror] handler runs), so the item's element
    structure is no longer the template's. *)
Theorem review_markup_injection (st : QuizState) (i : nat) (q : Question) :
  questions st !! i = Some q -> question q = "<img src=x onerror=alert(1)>" ->
  exists it : ReviewItem, fst (show_review st) !! i = Some it /\
    TStart "img" ∈ html_tokens (review_item_html it) /\
    tags_of (html_tokens (review_item_html it)) <> REVIEW_SKELETON.
Proof.
  intros Hq Hp. exists (review_item (answers st) i q).
  rewrite review_items_lookup, Hq. split; [done|].
  assert (Himg : TStart "img" ∈ html_tokens (review_item_html (review_item (answers st) i q))).
  { set (P := indent 6 +:+ "<div class=" +:+ dq +:+ "muted" +:+ dq +:+ ">Q" +:+ pretty (S i) +:+
               "</div>" +:+ indent 6 +:+ "<div><strong>" +:+ "<img src=x onerror=alert(1)>").
    assert (Hs : exists rest, list_ascii_of_string (review_item_html (review_item (answers st) i q)) =
                              list_ascii_of_string P ++ rest).
    { eexists. unfold review_item_html, review_item, P. cbn [ri_num ri_question]. rewrite Hp.
      rewrite !list_ascii_of_string_app, <-!app_assoc. reflexivity. }
    destruct Hs as [rest Hs]. unfold html_tokens. rewrite Hs. apply lex_keeps_prefix.
    unfold P. rewrite !list_ascii_of_string_app.
    repeat (rewrite lex_run_app; try (rewrite lex_run_text by apply pretty_nat_no_lt); simpl).
    unfold emit_tag. repeat (apply elem_of_cons; (left; reflexivity) || right). }
  split; [done|]. intros Hs.
  assert (Ht : TStart "img" ∈ tags_of (html_tokens (review_item_html (review_item (answers st) i q))))
    by (apply list_elem_of_filter; by split).
  rewrite Hs in Ht. unfold REVIEW_SKELETON in Ht. set_solver.
Qed.

(** ** Witnesses *)

Lemma review_item_markup_witness :
  let it := mkItem 3 "What is 2+2?" "4" "4" true in
  "<"%char ∉ list_ascii_of_string (ri_question it) /\
  "<"%char ∉ list_ascii_of_string (ri_your it) /\
  "<"%char ∉ list_ascii_of_string (ri_correct it) /\
  tags_of (html_tokens (review_item_html it)) = REVIEW_SKELETON.
Proof.
  intros it.
  assert (H1 : "<"%char ∉ list_ascii_of_string (ri_question it)) by decide_by_compute.
  assert (H2 : "<"%char ∉ list_ascii_of_string (ri_your it)) by decide_by_compute.
  assert (H3 : "<"%char ∉ list_ascii_of_string (ri_correct it)) by decide_by_compute.
  split; [exact H1|]. split; [exact H2|]. split; [exact H3|].
  exact (proj2 (review_item_markup it H1 H2 H3)).
Defined.

Lemma review_markup_injection_witness :
  let q := mkQuestion "<img src=x onerror=alert(1)>" ["a"; "b"] "a" in
  let st := mkState (Some "web_development") [q] 0 ∅ true in
  questions st !! 0 = Some q /\ question q = "<img src=x onerror=alert(1)>" /\
  exists it : ReviewItem, fst (show_review st) !! 0 = Some it /\
    TStart "img" ∈ html_tokens (review_item_html it).
Proof.
  intros q st.
  assert (H1 : questions st !! 0 = Some q) by reflexivity.
  assert (H2 : question q = "<img src=x onerror=alert(1)>") by reflexivity.
  split; [exact H1|]. split; [exact H2|].
  destruct (review_markup_injection st 0 q H1 H2) as (it & Hit & Himg & _).
  exists it. split; [exact Hit|exact Himg].
Defined.
