(* ===== verification/View.v ===== *)
(** * View: [renderQuestion], [renderProgress] and the option buttons

    Models what [renderQuestion] (src/script.js lines 138-161) and
    [renderProgress] (lines 133-136) write to the quiz screen, and what a
    click on an option button does to the buttons (lines 148-153).  The
    quiz screen is a record of the displayed values; [renderQuestion]
    returns the new record, or the [TypeError] it raises when
    [state.questions[state.index]] is [undefined] (the template
    [`${q.question}`] reads a property of [undefined] before anything is
    written).

    The theorems show that rendering succeeds exactly on an in-range index;
    that the disabled flags of Prev and Next are the negations of their
    handlers' guards; that the selected buttons are the options equal to
    the recorded answer, so moving away and back restores the selection
    (spec 4.3); that the click handler's direct update of the buttons
    agrees with a re-render when the options are distinct; and that the progress bar stays in [[0, 100)], never
    reaching 100% even on the last question. *)

From S2P Require Import Prelude Sampler Session.
From Stdlib Require Import QArith.
Close Scope Q_scope.

(** ** The quiz screen *)

(** [#question]'s text, the [#options] buttons (text and [selected] class,
    in order), [#prev-btn.disabled], [#next-btn.disabled] and the width of
    [#progress] in percent. *)
Record QuizView := mkView {
  qv_text : string;
  qv_options : list (string * bool);
  qv_prev_disabled : bool;
  qv_next_disabled : bool;
  qv_progress : Q
}.

(** The quiz screen before anything is rendered. *)
Definition empty_view : QuizView := mkView "" [] false false (inject_Z 0).

(** [renderProgress]: [(state.index / state.questions.length) * 100]. *)
Definition progress_pct (st : QuizState) : Q :=
  Qmult (Qdiv (inject_Z (Z.of_nat (index st))) (inject_Z (Z.of_nat (length (questions st)))))
        (inject_Z 100).

(** The buttons [q.options.forEach(...)] creates: one per option, selected
    when [state.answers[state.index] === opt]. *)
Definition option_buttons (st : QuizState) (q : Question) : list (string * bool) :=
  (fun opt => (opt, bool_decide (answers st !! index st = Some opt))) <$> options q.

(** [renderQuestion]. *)
Definition render_question (st : QuizState) : QuizView + exn :=
  match questions st !! index st with
  | None => inr (TypeError "Cannot read properties of undefined (reading 'question')")
  | Some q =>
      inl (mkView (pretty (S (index st)) +:+ ". " +:+ question q)
                  (option_buttons st q)
                  (bool_decide (index st = 0))
                  (bool_decide (Z.of_nat (length (questions st)) - 1 <= Z.of_nat (index st))%Z)
                  (progress_pct st))
  end.

(** The second half of the option click handler:
    [$$('.option').forEach(o=>o.classList.remove('selected'));
     btn.classList.add('selected');] for the [k]-th button. *)
Definition select_button (v : QuizView) (k : nat) : QuizView :=
  mkView (qv_text v) (imap (fun j b => (b.1, bool_decide (j = k))) (qv_options v))
         (qv_prev_disabled v) (qv_next_disabled v) (qv_progress v).

(** A click on the [k]-th option button: the closure writes the option it
    was built with into [state.answers[state.index]] (the index read at
    click time), then marks that button alone as selected.  [None] when
    there is no [k]-th button. *)
Definition click_option (st : QuizState) (v : QuizView) (k : nat)
    : option (QuizState * QuizView) :=
  match qv_options v !! k with
  | Some (opt, _) => Some (record_answer st opt, select_button v k)
  | None => None
  end.

(** The options of the buttons on screen. *)
Definition shown_options (v : QuizView) : list string := fst <$> qv_options v.

(** ** Lemmas *)

Lemma render_question_ok st :
  (exists v, render_question st = inl v) <-> index st < length (questions st).
Proof.
  unfold render_question. split.
  - intros [v Hv]. destruct (questions st !! index st) eqn:E; [|done].
    by eapply lookup_lt_Some.
  - intros H. destruct (questions st !! index st) eqn:E; [by eexists|].
    apply lookup_ge_None in E. lia.
Qed.

Lemma progress_pct_bounds st :
  index st < length (questions st) ->
  Qle 0 (progress_pct st) /\ Qlt (progress_pct st) (inject_Z 100).
Proof.
  unfold progress_pct. generalize (index st) (length (questions st)).
  intros i n H. destruct n as [|m]; [lia|].
  unfold Qdiv, Qle, Qlt. rewrite Nat2Z.inj_succ.
  replace (Qinv (inject_Z (Z.succ (Z.of_nat m)))) with (Qmake 1 (Pos.of_succ_nat m))
    by (by rewrite <-Zpos_P_of_succ_nat).
  simpl. rewrite Pos.mul_1_l, Pos.mul_1_r, Zpos_P_of_succ_nat. lia.
Qed.

Lemma option_buttons_selected st q opt b :
  (opt, b) ∈ option_buttons st q -> (b = true <-> answers st !! index st = Some opt).
Proof.
  unfold option_buttons. intros (o & [= -> ->] & _)%list_elem_of_fmap.
  by rewrite bool_decide_eq_true.
Qed.

Lemma shown_option_buttons st q : fst <$> option_buttons st q = options q.
Proof.
  unfold option_buttons. rewrite <-list_fmap_compose. apply list_fmap_id.
Qed.

(** C16: [renderQuestion] throws a [TypeError] exactly when the index is
    past the question list; otherwise it shows question [index+1], one
    button per option of the current question, selected exactly when the
    option equals the recorded answer, disables Prev and Next exactly when
    their handlers would do nothing, and sets a progress width in
    [[0, 100)] percent, never 100 even on the last question. *)
Theorem render_question_spec st :
  (render_question st =
     inr (TypeError "Cannot read properties of undefined (reading 'question')") <->
   length (questions st) <= index st) /\
  (forall v, render_question st = inl v ->
     exists q, questions st !! index st = Some q /\
       qv_text v = pretty (S (index st)) +:+ ". " +:+ question q /\
       shown_options v = options q /\
       (forall opt b, (opt, b) ∈ qv_options v ->
          (b = true <-> answers st !! index st = Some opt)) /\
       qv_prev_disabled v = negb (prev_enabled st) /\
       qv_next_disabled v = negb (next_enabled st) /\
       Qle 0 (qv_progress v) /\ Qlt (qv_progress v) (inject_Z 100)).
Proof.
  split.
  - unfold render_question. destruct (questions st !! index st) eqn:E.
    + split; [done|]. intros. apply lookup_lt_Some in E. lia.
    + split; [|done]. intros _. by apply lookup_ge_None in E.
  - intros v Hv. pose proof Hv as Hv'. unfold render_question in Hv.
    destruct (questions st !! index st) as [q|] eqn:E; [|done].
    injection Hv as <-. exists q. simpl. split_and!; try done.
    + apply shown_option_buttons.
    + apply option_buttons_selected.
    + unfold prev_enabled. destruct (index st); simpl; repeat case_bool_decide; done || lia.
    + unfold next_enabled. repeat case_bool_decide; done || lia.
    + apply progress_pct_bounds. by eapply lookup_lt_Some.
    + apply progress_pct_bounds. by eapply lookup_lt_Some.
Qed.

(** C17: selections are per question, not transient (spec 4.3): after
    choosing an option on a question that has a next one, moving Next and
    then Prev renders the question again with exactly the buttons that
    carry the chosen text selected. *)
Theorem selection_restored st a :
  next_enabled st = true ->
  exists v, render_question (move_prev (move_next (record_answer st a))) = inl v /\
    (forall opt b, (opt, b) ∈ qv_options v -> (b = true <-> opt = a)).
Proof.
  intros Hn.
  set (st1 := record_answer st a).
  assert (Hn1 : next_enabled st1 = true) by done.
  assert (Hst : move_prev (move_next st1) = st1).
  { unfold move_next. rewrite Hn1. unfold move_prev.
    rewrite (proj2 (prev_enabled_true _)) by (simpl; lia).
    destruct st1. unfold set_index. simpl. by rewrite Nat.sub_0_r. }
  rewrite Hst. apply next_enabled_true in Hn.
  destruct (proj2 (render_question_ok st1)) as [v Hv]; [subst st1; simpl; lia|].
  exists v. split; [done|]. intros opt b Hin.
  unfold render_question in Hv. destruct (questions st1 !! index st1) as [q|]; [|done].
  injection Hv as <-. simpl in Hin. rewrite (option_buttons_selected st1 q opt b Hin).
  subst st1. simpl. rewrite lookup_insert_eq. split; congruence.
Qed.

(** C18: the click handler's direct update of the buttons agrees with a
    fresh [renderQuestion] when the current question's options are
    distinct: after a click on button [k], re-rendering shows exactly the
    screen the handler left. *)
Theorem click_then_render st v k st' v' q :
  render_question st = inl v -> questions st !! index st = Some q -> NoDup (options q) ->
  click_option st v k = Some (st', v') ->
  render_question st' = inl v'.
Proof.
  intros Hv Hq Hnd Hc. unfold render_question in *. rewrite Hq in Hv.
  injection Hv as <-. unfold click_option in Hc. simpl in Hc.
  destruct (option_buttons st q !! k) as [[opt b]|] eqn:Ek; [|done].
  injection Hc as <- <-. simpl. rewrite Hq. unfold select_button. simpl.
  do 2 f_equal. unfold option_buttons in *. unfold record_answer, set_answers. cbn [answers index]. rewrite lookup_insert_eq.
  apply list_eq. intros j. rewrite list_lookup_imap, !list_lookup_fmap.
  rewrite list_lookup_fmap in Ek.
  destruct (options q !! j) as [o|] eqn:Ej; simpl; [|done].
  destruct (options q !! k) as [ok|] eqn:Eok; simpl in Ek; [|done].
  injection Ek as <- _. do 2 f_equal. apply bool_decide_ext. split.
  - intros [= <-]. by eapply NoDup_lookup.
  - intros ->. congruence.
Qed.

(** ** Witnesses *)

Lemma selection_restored_witness :
  let st := mkState (Some "devops") [mkQuestion "Q1" ["a"; "b"] "a";
                                     mkQuestion "Q2" ["c"; "d"] "d"] 0 ∅ false in
  next_enabled st = true /\
  exists v, render_question (move_prev (move_next (record_answer st "b"))) = inl v /\
    (forall opt b, (opt, b) ∈ qv_options v -> (b = true <-> opt = "b")).
Proof.
  intros st. assert (H : next_enabled st = true) by reflexivity.
  split; [exact H|]. apply selection_restored. exact H.
Defined.

Lemma click_then_render_witness :
  let q := mkQuestion "Q1" ["a"; "b"; "c"] "a" in
  let st := mkState (Some "devops") [q] 0 ∅ false in
  let v := match render_question st with inl v => v | inr _ => empty_view end in
  let r := default (st, v) (click_option st v 1) in
  render_question st = inl v /\ questions st !! index st = Some q /\ NoDup (options q) /\
  click_option st v 1 = Some r /\ render_question r.1 = inl r.2.
Proof.
  intros q st v r.
  assert (H1 : render_question st = inl v) by reflexivity.
  assert (H2 : questions st !! index st = Some q) by reflexivity.
  assert (H3 : NoDup (options q)) by decide_by_compute.
  assert (H4 : click_option st v 1 = Some (r.1, r.2)) by reflexivity.
  split_and!; [exact H1|exact H2|exact H3|exact H4|].
  apply (click_then_render st v 1 r.1 r.2 q); [exact H1|exact H2|exact H3|exact H4].
Defined.
