(* ===== verification/App.v ===== *)
(** * App: the screens, the event handlers, the boot listeners, async loads

    Models the page as the script drives it: which of the five screens are
    visible, the quiz screen ([View]), the review list and score line, the
    global [state] ([Session]), the [Math.random] stream, and the fetches
    of [loadCategory] still in flight.  Each click handler of
    src/script.js is a computation in the handler monad [jsM]: the
    Prev/Next handlers (lines 164-169), the option buttons (148-153), the
    submit handler with [showReview] (172-184, 187-208), the back, home and
    retry buttons (275-303), [logout] (86-98) and the category buttons
    ([loadCategory], 120-130).  [loadCategory] is split at its [await]: a
    click issues the fetch (the key joins [pending]); the resolution is a
    separate event, in any order, that runs the rest of the function.

    A click runs every listener registered on its target, in registration
    order, each to completion or to its exception.  The listener table is
    built as the code builds it: once at top level (lines 164-309) and once
    more on [DOMContentLoaded] (lines 262-264), so every category button
    carries two [loadCategory] listeners.  Which screen holds which button,
    and that the page starts with the quiz and review screens hidden, comes
    from index.html, which is not part of the sources.

    The theorems: the index invariant holds in every reachable state; each
    category click starts two loads; the second load's resolution throws
    away the answers of the quiz the first one started; a retry followed by
    a click on a stale option button records an answer for a question that
    does not exist; logging out while a load is in flight ends with the
    login and quiz screens both visible; an empty category pool leaves
    a TypeError and the dashboard on screen; and the fetches in flight
    always drain, nothing being retried. *)

From S2P Require Import Prelude Sampler Session Review View.

(** ** Screens *)

(** [#auth-screen], [#topbar], [#dashboard], [#quiz-screen], [#review-screen]. *)
Inductive Screen := AuthScreen | Topbar | Dashboard | QuizScreen | ReviewScreen.

#[export] Instance Screen_eq_dec : EqDecision Screen.
Proof. solve_decision. Defined.

#[export] Instance Screen_countable : Countable Screen.
Proof.
  refine (inj_countable'
    (fun s => match s with
              | AuthScreen => 0 | Topbar => 1 | Dashboard => 2
              | QuizScreen => 3 | ReviewScreen => 4 end)
    (fun n => match n with
              | 0 => AuthScreen | 1 => Topbar | 2 => Dashboard
              | 3 => QuizScreen | _ => ReviewScreen end) _).
  by intros [].
Defined.

(** [CATEGORY_MAP] (lines 101-110). *)
Definition CATEGORY_MAP : list (string * string) :=
  [("programming", "Programming"); ("cybersecurity", "Cyber Security");
   ("machine_learning", "Machine Learning"); ("web_development", "Web Development");
   ("microservices", "Microservices"); ("devops", "DevOps");
   ("software_development", "Software Development"); ("data_science", "Data Science")].

(** [CATEGORY_MAP[catKey]]; [undefined] is [None]. *)
Definition category_label (catKey : string) : option string :=
  (list_to_map CATEGORY_MAP : gmap string string) !! catKey.

(** ** The page *)

Record App := mkApp {
  quiz : QuizState;             (** [state] *)
  view : QuizView;              (** [#question], [#options], the buttons, [#progress] *)
  title : option string;        (** [#quiz-title] is ["Quiz • "] and this label *)
  review_list : list ReviewItem; (** [#review-list] *)
  score_text : string;          (** [#score] *)
  visible : gset Screen;        (** the screens without the [hidden] class *)
  pending : list string;        (** keys of the fetches in flight, oldest first *)
  rand : rng                    (** what [Math.random] returns next *)
}.

Definition set_quiz (a : App) (st : QuizState) : App :=
  mkApp st (view a) (title a) (review_list a) (score_text a) (visible a) (pending a) (rand a).
Definition set_view (a : App) (v : QuizView) : App :=
  mkApp (quiz a) v (title a) (review_list a) (score_text a) (visible a) (pending a) (rand a).
Definition set_title (a : App) (t : option string) : App :=
  mkApp (quiz a) (view a) t (review_list a) (score_text a) (visible a) (pending a) (rand a).
Definition set_review (a : App) (items : list ReviewItem) (txt : string) : App :=
  mkApp (quiz a) (view a) (title a) items txt (visible a) (pending a) (rand a).
Definition set_visible (a : App) (vis : gset Screen) : App :=
  mkApp (quiz a) (view a) (title a) (review_list a) (score_text a) vis (pending a) (rand a).
Definition set_pending (a : App) (p : list string) : App :=
  mkApp (quiz a) (view a) (title a) (review_list a) (score_text a) (visible a) p (rand a).
Definition set_rand (a : App) (g : rng) : App :=
  mkApp (quiz a) (view a) (title a) (review_list a) (score_text a) (visible a) (pending a) g.

(** ** Handlers *)

Abbreviation H := (jsM App unit).

(** [hide(el)] and [show(el)] (lines 30-31). *)
Definition hide (s : Screen) : H := js_modify (fun a => set_visible a (visible a ∖ {[s]})).
Definition show (s : Screen) : H := js_modify (fun a => set_visible a ({[s]} ∪ visible a)).

(** A call of [renderQuestion()] against the page. *)
Definition render_dom : H :=
  a ← js_get;
  match render_question (quiz a) with
  | inl v => js_put (set_view a v)
  | inr e => js_throw e
  end.

(** The Prev handler (lines 164-166). *)
Definition on_prev : H :=
  a ← js_get;
  if prev_enabled (quiz a)
  then js_put (set_quiz a (set_index (quiz a) (index (quiz a) - 1))) ;; render_dom
  else mret tt.

(** The Next handler (lines 167-169). *)
Definition on_next : H :=
  a ← js_get;
  if next_enabled (quiz a)
  then js_put (set_quiz a (set_index (quiz a) (S (index (quiz a))))) ;; render_dom
  else mret tt.

(** The click listener [renderQuestion] attaches to the [k]-th option
    button. *)
Definition on_option (k : nat) : H :=
  a ← js_get;
  match click_option (quiz a) (view a) k with
  | Some (st, v) => js_put (set_view (set_quiz a st) v)
  | None => mret tt
  end.

(** [showReview] (lines 187-208). *)
Definition show_review_dom : H :=
  a ← js_get;
  let '(items, txt) := show_review (quiz a) in
  js_put (set_review a items txt) ;; hide QuizScreen ;; show ReviewScreen.

(** The submit handler (lines 172-184); [go] is the user's answer to the
    [confirm] dialog, asked only when some question is unanswered. *)
Definition on_submit (go : bool) : H :=
  a ← js_get;
  if submit_proceeds (quiz a) go
  then js_put (set_quiz a (set_submitted (quiz a))) ;; show_review_dom
  else mret tt.

(** [loadCategory(catKey)] up to its first [await]: [fetch(`${catKey}.json`)]
    is issued. *)
Definition load_start (catKey : string) : H :=
  js_modify (fun a => set_pending a (pending a ++ [catKey])).

(** The rest of [loadCategory] when the [n]-th fetch in flight settles:
    [res] is the parsed pool, or [None] when [fetch] or [res.json()]
    rejects (the async function then rejects, with no other effect). *)
Definition load_finish (n : nat) (res : option (list Question)) : H :=
  a ← js_get;
  match pending a !! n with
  | None => mret tt
  | Some catKey =>
      js_put (set_pending a (delete n (pending a))) ;;
      match res with
      | None => js_throw (TypeError "Failed to fetch")
      | Some all =>
          a' ← js_get;
          let '(st, g') := begin_quiz catKey (rand a') all in
          js_put (set_title (set_rand (set_quiz a' st) g') (category_label catKey)) ;;
          render_dom ;; hide Dashboard ;; show QuizScreen
      end
  end.

(** The key [loadCategory] is called with: [state.category], which is
    [null] before any quiz (the fetch then asks for [null.json]). *)
Definition js_key (o : option string) : string := default "null" o.

(** The retry handler (lines 284-303). *)
Definition on_retry : H :=
  a ← js_get;
  js_put (set_quiz a (mkState (category (quiz a)) [] 0 ∅ false)) ;;
  hide ReviewScreen ;; show QuizScreen ;;
  load_start (js_key (category (quiz a))) ;;
  render_dom.

(** [#back-to-dashboard] (275-277), [#back-to-categories] (278-280) and
    [#home-btn] (281-283). *)
Definition on_back_to_dashboard : H := hide QuizScreen ;; show Dashboard.
Definition on_back_to_categories : H := hide ReviewScreen ;; show Dashboard.
Definition on_home : H := hide ReviewScreen ;; show Dashboard.

(** [logout] (lines 86-98), on the screens; the session key and the auth
    forms are outside this file. *)
Definition on_logout : H :=
  hide Topbar ;; hide Dashboard ;; hide QuizScreen ;; hide ReviewScreen ;; show AuthScreen.

(** ** Listeners and events *)

(** The elements the user clicks, with what the click carries: the
    answer to the [confirm] dialog for Submit, the [data-cat] key of a
    category button, the position of an option button. *)
Inductive Target :=
| TPrev | TNext | TSubmit (go : bool) | TOption (k : nat) | TCategory (catKey : string)
| TBackToDashboard | TBackToCategories | THome | TRetry | TLogout.

(** The elements listeners are registered on, by selector. *)
Inductive Selector := SPrev | SNext | SSubmit | SCategory | SBackToDashboard
| SBackToCategories | SHome | SRetry | SLogout.

#[export] Instance Selector_eq_dec : EqDecision Selector.
Proof. solve_decision. Defined.

(** The listener bodies. *)
Inductive Listener := LPrev | LNext | LSubmit | LLoadCategory | LBackToDashboard
| LBackToCategories | LHome | LRetry | LLogout.

(** The registrations the script makes as it runs, in order (lines 164,
    167, 172, 275, 278, 281, 284, 304, 307). *)
Definition toplevel_listeners : list (Selector * Listener) :=
  [(SPrev, LPrev); (SNext, LNext); (SSubmit, LSubmit);
   (SBackToDashboard, LBackToDashboard); (SBackToCategories, LBackToCategories);
   (SHome, LHome); (SRetry, LRetry); (SLogout, LLogout); (SCategory, LLoadCategory)].

(** The registrations of the [DOMContentLoaded] handler (lines 262-264),
    which runs after the script. *)
Definition domcontentloaded_listeners : list (Selector * Listener) :=
  [(SCategory, LLoadCategory)].

Definition boot_listeners : list (Selector * Listener) :=
  toplevel_listeners ++ domcontentloaded_listeners.

Definition selector_of (t : Target) : option Selector :=
  match t with
  | TPrev => Some SPrev | TNext => Some SNext | TSubmit _ => Some SSubmit
  | TCategory _ => Some SCategory | TBackToDashboard => Some SBackToDashboard
  | TBackToCategories => Some SBackToCategories | THome => Some SHome
  | TRetry => Some SRetry | TLogout => Some SLogout | TOption _ => None
  end.

(** The listeners a click on [t] runs, in registration order. *)
Definition listeners_of (t : Target) : list Listener :=
  match selector_of t with
  | Some sel => snd <$> filter (fun r => r.1 = sel) boot_listeners
  | None => []
  end.

Definition run_listener (t : Target) (l : Listener) : H :=
  match l, t with
  | LPrev, _ => on_prev
  | LNext, _ => on_next
  | LSubmit, TSubmit go => on_submit go
  | LSubmit, _ => on_submit false
  | LLoadCategory, TCategory k => load_start k
  | LLoadCategory, _ => mret tt
  | LBackToDashboard, _ => on_back_to_dashboard
  | LBackToCategories, _ => on_back_to_categories
  | LHome, _ => on_home
  | LRetry, _ => on_retry
  | LLogout, _ => on_logout
  end.

(** A click: every listener of the target runs to its end or to its
    exception; an exception in one listener does not stop the next. *)
Definition dispatch (t : Target) (a : App) : App :=
  match t with
  | TOption k => js_exec (on_option k) a
  | _ => foldl (fun a l => js_exec (run_listener t l) a) a (listeners_of t)
  end.

(** The screen each element sits in (index.html), and whether it can be
    clicked: on a visible screen, and not [disabled]. *)
Definition clickable (t : Target) (a : App) : Prop :=
  match t with
  | TPrev => QuizScreen ∈ visible a /\ qv_prev_disabled (view a) = false
  | TNext => QuizScreen ∈ visible a /\ qv_next_disabled (view a) = false
  | TSubmit _ | TOption _ | TBackToDashboard => QuizScreen ∈ visible a
  | TBackToCategories | THome | TRetry => ReviewScreen ∈ visible a
  | TCategory _ => Dashboard ∈ visible a
  | TLogout => Topbar ∈ visible a
  end.

#[export] Instance clickable_dec t a : Decision (clickable t a).
Proof. destruct t; simpl; apply _. Defined.

(** The page's events: a click, or the settling of a fetch in flight. *)
Inductive app_step : App -> App -> Prop :=
| AppClick t a : clickable t a -> app_step a (dispatch t a)
| AppLoad n res a : n < length (pending a) -> app_step a (js_exec (load_finish n res) a).

(** The settling of a fetch in flight, with no click: the [AppLoad]
    events alone. *)
Inductive settle : App -> App -> Prop :=
| Settle n res a : n < length (pending a) -> settle a (js_exec (load_finish n res) a).

(** The page after boot for a logged-in user ([onLogin] shows the topbar
    and the dashboard; index.html starts with the other screens hidden). *)
Definition app_boot (g : rng) : App :=
  mkApp initial_state empty_view None [] "" {[Topbar; Dashboard]} [] g.

(** What a click does to [state], per target, in terms of the Session's
    operations: the abstract effect the handlers implement. *)
Definition click_effect (t : Target) (a : App) : QuizState :=
  match t with
  | TPrev => move_prev (quiz a)
  | TNext => move_next (quiz a)
  | TSubmit go => if submit_proceeds (quiz a) go then set_submitted (quiz a) else quiz a
  | TOption k =>
      match qv_options (view a) !! k with
      | Some (opt, _) => record_answer (quiz a) opt
      | None => quiz a
      end
  | TRetry => mkState (category (quiz a)) [] 0 ∅ false
  | _ => quiz a
  end.

(** ** Lemmas *)

Lemma js_run_bind {A B} (m : jsM App A) (f : A -> jsM App B) a :
  (m ≫= f) a = match m a with (inl x, a') => f x a' | (inr e, a') => (inr e, a') end.
Proof. done. Qed.

Lemma render_dom_run a :
  render_dom a = match render_question (quiz a) with
                 | inl v => (inl tt, set_view a v)
                 | inr e => (inr e, a)
                 end.
Proof. unfold render_dom. js_simpl. by destruct (render_question (quiz a)). Qed.

Lemma render_dom_quiz a : quiz (render_dom a).2 = quiz a.
Proof. rewrite render_dom_run. by destruct (render_question (quiz a)). Qed.

Lemma render_dom_pending a : pending (render_dom a).2 = pending a.
Proof. rewrite render_dom_run. by destruct (render_question (quiz a)). Qed.

Lemma listeners_category k : listeners_of (TCategory k) = [LLoadCategory; LLoadCategory].
Proof. reflexivity. Qed.

#[export] Hint Rewrite render_dom_quiz render_dom_pending : quiz_rw.

(** C19: every click on a category button starts two loads of the
    category: the button carries the listener registered at top level
    (line 307) and the one registered again on [DOMContentLoaded]
    (line 263), and both call [loadCategory]. *)
Theorem category_click_two_loads a k :
  pending (dispatch (TCategory k) a) = pending a ++ [k; k] /\
  quiz (dispatch (TCategory k) a) = quiz a /\ visible (dispatch (TCategory k) a) = visible a.
Proof.
  unfold dispatch. rewrite listeners_category. simpl. js_simpl.
  rewrite <-app_assoc. by split_and!.
Qed.

(** C20: when a fetch in flight settles with a pool, [loadCategory]
    replaces [state] by a fresh quiz of that fetch's category whatever the
    current state is: there is no check that the load is still the latest
    one, so the last load to settle wins and the answers given so far are
    discarded. *)
Theorem load_finish_overwrites a n k all :
  pending a !! n = Some k ->
  quiz (js_exec (load_finish n (Some all)) a) = (begin_quiz k (rand a) all).1 /\
  answers (quiz (js_exec (load_finish n (Some all)) a)) = ∅ /\
  pending (js_exec (load_finish n (Some all)) a) = delete n (pending a).
Proof.
  intros Hn. pose proof (begin_quiz_fields k (rand a) all) as (_ & _ & Hans & _).
  destruct (begin_quiz k (rand a) all) as [st g'] eqn:E. simpl in Hans.
  unfold load_finish, js_exec. js_simpl. rewrite Hn. simpl. rewrite E.
  rewrite render_dom_run. simpl. by destruct (render_question st).
Qed.

Lemma on_prev_quiz a : quiz (on_prev a).2 = move_prev (quiz a).
Proof.
  unfold on_prev, move_prev. js_simpl. destruct (prev_enabled (quiz a)); [|done].
  rewrite render_dom_run. by destruct (render_question _).
Qed.

Lemma on_next_quiz a : quiz (on_next a).2 = move_next (quiz a).
Proof.
  unfold on_next, move_next. js_simpl. destruct (next_enabled (quiz a)); [|done].
  rewrite render_dom_run. by destruct (render_question _).
Qed.

Lemma on_submit_quiz go a :
  quiz (on_submit go a).2 =
  if submit_proceeds (quiz a) go then set_submitted (quiz a) else quiz a.
Proof.
  unfold on_submit, show_review_dom. js_simpl.
  destruct (submit_proceeds (quiz a) go); [|done]. simpl.
  by destruct (show_review _).
Qed.

Lemma on_option_quiz k a :
  quiz (on_option k a).2 =
  match qv_options (view a) !! k with
  | Some (opt, _) => record_answer (quiz a) opt
  | None => quiz a
  end.
Proof.
  unfold on_option, click_option. js_simpl.
  by destruct (qv_options (view a) !! k) as [[opt b]|].
Qed.

(** What a click does to [state]: the listeners of its target run in
    order, and only the quiz handlers write [state]. *)
Lemma dispatch_quiz t a : quiz (dispatch t a) = click_effect t a.
Proof.
  destruct t; unfold dispatch, click_effect; simpl; js_simpl;
    rewrite ?render_dom_run; try done.
  - apply on_prev_quiz.
  - apply on_next_quiz.
  - apply on_submit_quiz.
  - apply on_option_quiz.
Qed.

(** Retry writes the state [begin_quiz] writes for an empty pool. *)
Lemma retry_state_begin c g :
  mkState (Some c) [] 0 ∅ false = (begin_quiz c g []).1.
Proof.
  destruct (begin_quiz_fields c g []) as (Hq & Hi & Ha & Hs & Hc).
  destruct ((begin_quiz c g []).1) as [cat qs i ans sub]. simpl in *. by subst.
Qed.

(** When the buttons on screen are those of the current question, what a
    click does to [state] is a step of the Session or nothing. *)
Lemma click_effect_step t a :
  shown_options (view a) = current_options (quiz a) -> is_Some (category (quiz a)) ->
  click_effect t a = quiz a \/ session_step (quiz a) (click_effect t a).
Proof.
  intros Hs [c Hc]. destruct t as [| |go|k|ck| | | | |]; simpl; try by left.
  - right. constructor.
  - right. constructor.
  - destruct (submit_proceeds (quiz a) go) eqn:E; [right; by econstructor|by left].
  - destruct (qv_options (view a) !! k) as [[opt b]|] eqn:E; [right|by left].
    constructor. rewrite <-Hs. unfold shown_options. apply list_elem_of_fmap.
    exists (opt, b). split; [done|]. by eapply list_elem_of_lookup_2.
  - right. rewrite Hc, (retry_state_begin c (rand a)). constructor.
Qed.

(** C21: refinement of the Session by the page.  On [state], every click
    handler does exactly the Session operation it stands for: Prev and Next
    are [move_prev] and [move_next], an option button is [record_answer]
    with the option the button was built with, Submit is [set_submitted]
    when the validator lets it through, Retry resets to an empty quiz of
    the same category, and every other click leaves [state] alone; the
    rendering and screen updates never touch it.  When the buttons on
    screen are the current question's options and a category is loaded,
    each click is therefore a step of the Session's state machine
    [session_step] or leaves [state] as it is. *)
Theorem dispatch_refines_session t a :
  quiz (dispatch t a) = click_effect t a /\
  (shown_options (view a) = current_options (quiz a) -> is_Some (category (quiz a)) ->
     quiz (dispatch t a) = quiz a \/ session_step (quiz a) (quiz (dispatch t a))).
Proof.
  split; [apply dispatch_quiz|]. intros Hs Hc. rewrite dispatch_quiz. by apply click_effect_step.
Qed.

Lemma load_finish_quiz n res a :
  quiz (js_exec (load_finish n res) a) =
  match pending a !! n, res with
  | Some k, Some all => (begin_quiz k (rand a) all).1
  | _, _ => quiz a
  end.
Proof.
  unfold load_finish, js_exec. js_simpl.
  destruct (pending a !! n) as [k|]; [|done]. simpl.
  destruct res as [all|]; [|done]. simpl.
  destruct (begin_quiz k (rand a) all) as [st g'] eqn:E. simpl.
  rewrite render_dom_run. simpl. by destruct (render_question st).
Qed.

(** A fetch that settles leaves the in-flight list, whatever its result
    and whether the rest of [loadCategory] throws: nothing in
    [loadCategory]'s continuation issues another fetch. *)
Lemma load_finish_pending n res a :
  pending (js_exec (load_finish n res) a) = delete n (pending a).
Proof.
  unfold load_finish, js_exec. js_simpl.
  destruct (pending a !! n) as [k|] eqn:Hn; simpl.
  - destruct res as [all|]; [|done]. simpl.
    destruct (begin_quiz k (rand a) all) as [st g'] eqn:E. simpl.
    rewrite render_dom_run. simpl. by destruct (render_question st).
  - apply lookup_ge_None in Hn.
    by rewrite delete_take_drop, take_ge, drop_ge, app_nil_r by lia.
Qed.

Lemma settle_length a a' : settle a a' -> length (pending a') = length (pending a) - 1.
Proof.
  intros [n res x Hn]. rewrite load_finish_pending, length_delete; [done|].
  by apply lookup_lt_is_Some_2.
Qed.

Lemma click_effect_index_ok t a : index_ok (quiz a) -> index_ok (click_effect t a).
Proof.
  intros Hi. destruct t; simpl; try done.
  - by apply move_prev_index_ok.
  - by apply move_next_index_ok.
  - by destruct (submit_proceeds (quiz a) go).
  - by destruct (qv_options (view a) !! k) as [[opt b]|].
  - by right.
Qed.

(** C22: in every state of the page reachable from boot, whatever the
    order of clicks and of settling loads, [state.index] is a valid
    question index (or [0] for an empty question list). *)
Theorem reachable_index_ok g a : rtc app_step (app_boot g) a -> index_ok (quiz a).
Proof.
  intros Hr. assert (Hb : index_ok (quiz (app_boot g))) by (by right).
  induction Hr as [|x y z Hxy _ IH]; [done|]. apply IH.
  destruct Hxy as [t x _|n res x _].
  - rewrite dispatch_quiz. by apply click_effect_index_ok.
  - rewrite load_finish_quiz.
    destruct (pending x !! n), res; try done. apply begin_quiz_wf.
Qed.

(** C9: the loads in flight always drain: with no further click, no
    sequence of settling fetches is infinite (each settlement removes one
    fetch from the in-flight list and issues none, a failed fetch
    included: nothing is retried), and from every page some order of
    settlements leaves no fetch in flight. *)
Theorem loads_drain :
  well_founded (fun a' a => settle a a') /\
  forall a, exists a', rtc settle a a' /\ pending a' = [].
Proof.
  split.
  - apply (wf_projected (<) (fun a => length (pending a))); [|apply lt_wf].
    intros a' a Hs. pose proof (settle_length a a' Hs) as Hl.
    destruct Hs as [n res x Hn]. lia.
  - intros a. remember (length (pending a)) as m eqn:Hm. revert a Hm.
    induction m as [|m IH]; intros a Hm.
    + exists a. split; [done|]. by apply nil_length_inv.
    + assert (Hs : settle a (js_exec (load_finish 0 None) a)) by (constructor; lia).
      destruct (IH (js_exec (load_finish 0 None) a)) as (a' & Hr & Hp).
      { rewrite (settle_length _ _ Hs). lia. }
      exists a'. split; [|done]. by eapply rtc_l.
Qed.

(** C23: one click on a category loses the user's answers.  The click
    starts two loads (C19); the first to settle starts the quiz, the user
    answers, and the second to settle replaces the quiz by a new one with
    no answers, while the quiz screen stays up. *)
Theorem double_load_loses_answers :
  let g := mk_rng (fun _ => 0%Z) 0 in
  let pool := [mkQuestion "Q1" ["a"; "b"] "a"; mkQuestion "Q2" ["c"; "d"] "d"] in
  let a1 := dispatch (TCategory "devops") (app_boot g) in
  let a2 := js_exec (load_finish 0 (Some pool)) a1 in
  let a3 := dispatch (TOption 0) a2 in
  let a4 := js_exec (load_finish 0 (Some pool)) a3 in
  rtc app_step (app_boot g) a3 /\ app_step a3 a4 /\
  answers (quiz a3) = {[0 := "c"]} /\ answers (quiz a4) = ∅ /\
  QuizScreen ∈ visible a4 /\ pending a4 = [].
Proof.
  intros g pool a1 a2 a3 a4.
  assert (H12 : app_step (app_boot g) a1) by (apply AppClick; decide_by_compute).
  assert (H23 : app_step a1 a2) by (apply AppLoad; decide_by_compute).
  assert (H34 : app_step a2 a3) by (apply AppClick; decide_by_compute).
  split; [eapply rtc_l; [exact H12|eapply rtc_l; [exact H23|by apply rtc_once]]|].
  split; [apply AppLoad; decide_by_compute|].
  split_and!; [vm_compute; reflexivity|vm_compute; reflexivity|decide_by_compute|vm_compute; reflexivity].
Qed.

Ltac step_click t := eapply rtc_l; [apply (AppClick t); decide_by_compute|].
Ltac step_load n res := eapply rtc_l; [apply (AppLoad n res); decide_by_compute|].

(** C24: the retry window.  Retry empties [state.questions] and shows the
    quiz screen before its load settles; its synchronous [renderQuestion]
    throws, so the previous quiz's option buttons stay on screen.  A click
    on one records an answer for a question that does not exist, and
    Submit, finding nothing unanswered among zero questions, shows the
    review "Score: 0 / 0" while the load is still in flight. *)
Theorem retry_window_stale_answer :
  let g := mk_rng (fun _ => 0%Z) 0 in
  let pool := [mkQuestion "Q1" ["a"; "b"] "a"] in
  let a1 := js_exec (load_finish 0 (Some pool)) (dispatch (TCategory "devops") (app_boot g)) in
  let a2 := dispatch TRetry (dispatch (TSubmit false) (dispatch (TOption 0) a1)) in
  let a3 := dispatch (TOption 1) a2 in
  let a4 := dispatch (TSubmit false) a3 in
  rtc app_step (app_boot g) a4 /\
  questions (quiz a3) = [] /\ answers (quiz a3) = {[0 := "b"]} /\ ~ answers_ok (quiz a3) /\
  ReviewScreen ∈ visible a4 /\ score_text a4 = "Score: 0 / 0" /\ pending a4 <> [].
Proof.
  intros g pool a1 a2 a3 a4.
  split.
  { step_click (TCategory "devops"). step_load 0 (Some pool).
    step_click (TOption 0). step_click (TSubmit false). step_click TRetry.
    step_click (TOption 1). step_click (TSubmit false). apply rtc_refl. }
  assert (Hq : questions (quiz a3) = []) by (vm_compute; reflexivity).
  assert (Ha : answers (quiz a3) = {[0 := "b"]}) by (vm_compute; reflexivity).
  split_and!; [exact Hq|exact Ha| |decide_by_compute|vm_compute; reflexivity|vm_compute; discriminate].
  intros Hok. destruct (Hok 0 "b") as (q & Hq0 & _).
  - rewrite Ha. apply lookup_singleton_eq.
  - rewrite Hq in Hq0. discriminate.
Qed.

(** C25: logging out while a load is in flight.  When the load settles
    after the logout, [loadCategory] shows the quiz screen over the login
    screen: both are visible, with the top bar hidden. *)
Theorem logout_during_load :
  let g := mk_rng (fun _ => 0%Z) 0 in
  let pool := [mkQuestion "Q1" ["a"; "b"] "a"] in
  let a1 := dispatch TLogout (dispatch (TCategory "devops") (app_boot g)) in
  let a2 := js_exec (load_finish 0 (Some pool)) a1 in
  rtc app_step (app_boot g) a2 /\
  AuthScreen ∈ visible a2 /\ QuizScreen ∈ visible a2 /\ Topbar ∉ visible a2.
Proof.
  intros g pool a1 a2. split.
  { step_click (TCategory "devops"). step_click TLogout.
    step_load 0 (Some pool). apply rtc_refl. }
  split_and!; decide_by_compute.
Qed.

(** C26: an empty category pool.  [loadCategory] installs a quiz with no
    questions, then its [renderQuestion] throws a [TypeError] before
    [hide(dashboard); show(quizScreen)] run: the dashboard stays on
    screen and the quiz screen is not shown, while [state] already holds
    the empty quiz (the spec asks for a graceful zero-question quiz). *)
Theorem empty_pool_type_error a n k :
  pending a !! n = Some k ->
  (load_finish n (Some []) a).1 =
    inr (TypeError "Cannot read properties of undefined (reading 'question')") /\
  visible (js_exec (load_finish n (Some [])) a) = visible a /\
  questions (quiz (js_exec (load_finish n (Some [])) a)) = [] /\
  category (quiz (js_exec (load_finish n (Some [])) a)) = Some k.
Proof.
  intros Hn. unfold load_finish, js_exec. js_simpl. rewrite Hn. simpl.
  unfold begin_quiz, sample, shuffle. simpl. unfold render_dom. js_simpl.
  by split_and!.
Qed.


(** ** Witnesses *)

Lemma load_finish_overwrites_witness :
  let a := dispatch (TCategory "devops") (app_boot (mk_rng (fun _ => 0%Z) 0)) in
  let all := [mkQuestion "Q1" ["a"; "b"] "a"] in
  pending a !! 0 = Some "devops" /\
  (quiz (js_exec (load_finish 0 (Some all)) a) = (begin_quiz "devops" (rand a) all).1 /\
   answers (quiz (js_exec (load_finish 0 (Some all)) a)) = ∅ /\
   pending (js_exec (load_finish 0 (Some all)) a) = delete 0 (pending a)).
Proof.
  intros a all. assert (H : pending a !! 0 = Some "devops") by reflexivity.
  split; [exact H|]. apply load_finish_overwrites. exact H.
Defined.

Lemma empty_pool_type_error_witness :
  let a := dispatch (TCategory "devops") (app_boot (mk_rng (fun _ => 0%Z) 0)) in
  pending a !! 0 = Some "devops" /\
  ((load_finish 0 (Some []) a).1 =
     inr (TypeError "Cannot read properties of undefined (reading 'question')") /\
   visible (js_exec (load_finish 0 (Some [])) a) = visible a /\
   questions (quiz (js_exec (load_finish 0 (Some [])) a)) = [] /\
   category (quiz (js_exec (load_finish 0 (Some [])) a)) = Some "devops").
Proof.
  intros a. assert (H : pending a !! 0 = Some "devops") by reflexivity.
  split; [exact H|]. apply empty_pool_type_error. exact H.
Defined.


Lemma reachable_index_ok_witness :
  let g := mk_rng (fun _ => 0%Z) 0 in
  let a := js_exec (load_finish 0 (Some [mkQuestion "Q1" ["a"; "b"] "a"]))
             (dispatch (TCategory "devops") (app_boot g)) in
  rtc app_step (app_boot g) a /\ index_ok (quiz a).
Proof.
  intros g a. assert (H : rtc app_step (app_boot g) a).
  { step_click (TCategory "devops"). step_load 0 (Some [mkQuestion "Q1" ["a"; "b"] "a"]).
    apply rtc_refl. }
  split; [exact H|]. apply (reachable_index_ok g). exact H.
Defined.

Lemma dispatch_refines_session_witness :
  let a := set_quiz (app_boot (mk_rng (fun _ => 0%Z) 0)) (mkState (Some "devops") [] 0 ∅ false) in
  shown_options (view a) = current_options (quiz a) /\ is_Some (category (quiz a)) /\
  (quiz (dispatch TNext a) = quiz a \/ session_step (quiz a) (quiz (dispatch TNext a))).
Proof.
  intros a.
  assert (H1 : shown_options (view a) = current_options (quiz a)) by reflexivity.
  assert (H2 : is_Some (category (quiz a))) by (eexists; reflexivity).
  split; [exact H1|]. split; [exact H2|].
  exact (proj2 (dispatch_refines_session TNext a) H1 H2).
Defined.
