(* ===== verification/Base64.v ===== *)
(** * Base64: [btoa], as the signup and login handlers use it

    [btoa] is the browser's Base64 encoder of a Latin-1 string; the auth
    handlers store [btoa(pass)] as [passHash] (src/script.js line 55) and
    compare it with [btoa] of the typed password (line 69).  It is not code
    of the repository: it is modelled from its standard definition, three
    8-bit characters to four characters of the alphabet [A-Za-z0-9+/],
    with [=] padding for a last group of one or two characters.  Strings
    are 8-bit, so the [InvalidCharacterError] [btoa] raises on code units
    above 255 does not arise here.

    The theorem is the round trip: a decoder recovers every string from
    its encoding, so [btoa] is injective and comparing [passHash] values is
    comparing passwords. *)

From S2P Require Import Prelude.
From Stdlib Require Import Ascii NArith.

Local Open Scope N_scope.

Definition B64_ALPHABET : string :=
  "ABCDEFGHIJKLMNOPQRSTUVWXYZabcdefghijklmnopqrstuvwxyz0123456789+/".

(** The character of a 6-bit value. *)
Definition b64_char (d : N) : ascii := default "A"%char (String.get (N.to_nat d) B64_ALPHABET).

Definition PAD : ascii := "="%char.

(** The four 6-bit values of the 24 bits [a b c], most significant first. *)
Definition sextets (a b c : ascii) : N * N * N * N :=
  let n := (N_of_ascii a * 256 + N_of_ascii b) * 256 + N_of_ascii c in
  let n1 := n / 64 in
  let n2 := n1 / 64 in
  (n2 / 64, n2 mod 64, n1 mod 64, n mod 64).

Definition ZERO : ascii := ascii_of_N 0.

(** [btoa] on a string of 8-bit characters. *)
Fixpoint btoa (s : string) : string :=
  match s with
  | String a (String b (String c r)) =>
      let '(d1, d2, d3, d4) := sextets a b c in
      String (b64_char d1) (String (b64_char d2) (String (b64_char d3)
        (String (b64_char d4) (btoa r))))
  | String a (String b EmptyString) =>
      let '(d1, d2, d3, _) := sextets a b ZERO in
      String (b64_char d1) (String (b64_char d2) (String (b64_char d3) (String PAD "")))
  | String a EmptyString =>
      let '(d1, d2, _, _) := sextets a ZERO ZERO in
      String (b64_char d1) (String (b64_char d2) (String PAD (String PAD "")))
  | EmptyString => ""
  end.

(** ** The decoder *)

Fixpoint b64_index_from (c : ascii) (s : string) (i : N) : option N :=
  match s with
  | EmptyString => None
  | String d s' => if bool_decide (c = d) then Some i else b64_index_from c s' (i + 1)
  end.

Definition b64_index (c : ascii) : option N := b64_index_from c B64_ALPHABET 0.

(** The three 8-bit characters of four 6-bit values. *)
Definition unsextets (d1 d2 d3 d4 : N) : ascii * ascii * ascii :=
  let m := ((d1 * 64 + d2) * 64 + d3) * 64 + d4 in
  let m1 := m / 256 in
  (ascii_of_N (m1 / 256), ascii_of_N (m1 mod 256), ascii_of_N (m mod 256)).

Fixpoint b64_decode (s : string) : option string :=
  match s with
  | EmptyString => Some ""
  | String c1 (String c2 (String c3 (String c4 r))) =>
      d1 ← b64_index c1; d2 ← b64_index c2;
      if bool_decide (c4 = PAD) then
        if bool_decide (c3 = PAD) then
          (if bool_decide (r = "") then
             let '(a, _, _) := unsextets d1 d2 0 0 in Some (String a "")
           else None)
        else
          (d3 ← b64_index c3;
           if bool_decide (r = "") then
             let '(a, b, _) := unsextets d1 d2 d3 0 in Some (String a (String b ""))
           else None)
      else
        (d3 ← b64_index c3; d4 ← b64_index c4;
         rest ← b64_decode r;
         let '(a, b, c) := unsextets d1 d2 d3 d4 in Some (String a (String b (String c rest))))
  | _ => None
  end.

(** ** Lemmas *)

Lemma digit_split n b : 0 < b -> n = (n / b) * b + n mod b /\ n mod b < b.
Proof.
  intros H. split; [|apply N.mod_lt; lia].
  rewrite N.mul_comm. apply N.div_mod. lia.
Qed.

Lemma digit_join q r b : r < b -> (q * b + r) / b = q /\ (q * b + r) mod b = r.
Proof.
  intros H. split.
  - rewrite N.div_add_l by lia. rewrite N.div_small by done. lia.
  - rewrite N.add_comm, N.Div0.mod_add. by apply N.mod_small.
Qed.

Lemma b64_index_char d : d < 64 -> b64_index (b64_char d) = Some d.
Proof.
  intros H. rewrite <-(N2Nat.id d). assert (Hd : (N.to_nat d < 64)%nat) by lia.
  generalize (N.to_nat d) Hd. clear.
  intros k Hk. do 64 (destruct k as [|k]; [reflexivity|]). lia.
Qed.

Lemma b64_char_not_pad d : d < 64 -> b64_char d <> PAD.
Proof.
  intros H. rewrite <-(N2Nat.id d). assert (Hd : (N.to_nat d < 64)%nat) by lia.
  generalize (N.to_nat d) Hd. clear.
  intros k Hk. do 64 (destruct k as [|k]; [discriminate|]). lia.
Qed.

(** One group: the four values are 6-bit, and decoding them gives the
    three characters back. *)
Lemma sextets_roundtrip a b c :
  let '(d1, d2, d3, d4) := sextets a b c in
  d1 < 64 /\ d2 < 64 /\ d3 < 64 /\ d4 < 64 /\ unsextets d1 d2 d3 d4 = (a, b, c).
Proof.
  unfold sextets, unsextets.
  pose proof (N_ascii_bounded a) as Ha. pose proof (N_ascii_bounded b) as Hb.
  pose proof (N_ascii_bounded c) as Hc.
  set (n := (N_of_ascii a * 256 + N_of_ascii b) * 256 + N_of_ascii c).
  destruct (digit_split n 64) as [E1 B1]; [lia|].
  destruct (digit_split (n / 64) 64) as [E2 B2]; [lia|].
  destruct (digit_split (n / 64 / 64) 64) as [E3 B3]; [lia|].
  assert (Hn : n < 16777216) by (subst n; lia).
  set (n1 := n / 64) in *. set (n2 := n1 / 64) in *. set (n3 := n2 / 64) in *.
  set (r1 := n mod 64) in *. set (r2 := n1 mod 64) in *. set (r3 := n2 mod 64) in *.
  assert (Hm : ((n3 * 64 + r3) * 64 + r2) * 64 + r1 = n) by lia.
  split_and!; try done; [lia|].
  rewrite Hm. subst n.
  destruct (digit_join (N_of_ascii a * 256 + N_of_ascii b) (N_of_ascii c) 256 Hc) as [-> ->].
  destruct (digit_join (N_of_ascii a) (N_of_ascii b) 256 Hb) as [-> ->].
  by rewrite !ascii_N_embedding.
Qed.

(** With zero padding, the trailing 6-bit values are zero. *)
Lemma sextets_pad1 a b : (sextets a b ZERO).2 = 0.
Proof.
  unfold sextets. cbn [fst snd]. change (N_of_ascii ZERO) with 0.
  set (x := N_of_ascii a * 256 + N_of_ascii b). rewrite N.add_0_r.
  destruct (digit_split (x * 256) 64) as [E B]; [lia|].
  set (q := x * 256 / 64) in *. set (r := (x * 256) mod 64) in *. lia.
Qed.

Lemma sextets_pad2 a : (sextets a ZERO ZERO).1.2 = 0 /\ (sextets a ZERO ZERO).2 = 0.
Proof.
  unfold sextets. cbn [fst snd]. change (N_of_ascii ZERO) with 0.
  set (x := N_of_ascii a). rewrite !N.add_0_r.
  destruct (digit_split (x * 256 * 256) 64) as [E1 B1]; [lia|].
  destruct (digit_split (x * 256 * 256 / 64) 64) as [E2 B2]; [lia|].
  set (q1 := x * 256 * 256 / 64) in *. set (r1 := (x * 256 * 256) mod 64) in *.
  set (q2 := q1 / 64) in *. set (r2 := q1 mod 64) in *. lia.
Qed.

Lemma b64_decode_group d1 d2 d3 d4 r :
  d1 < 64 -> d2 < 64 -> d3 < 64 -> d4 < 64 ->
  b64_decode (String (b64_char d1) (String (b64_char d2) (String (b64_char d3)
    (String (b64_char d4) r)))) =
  rest ← b64_decode r;
  let '(a, b, c) := unsextets d1 d2 d3 d4 in Some (String a (String b (String c rest))).
Proof.
  intros H1 H2 H3 H4. cbn [b64_decode].
  rewrite !b64_index_char by done. simpl.
  rewrite bool_decide_eq_false_2 by (by apply b64_char_not_pad).
  done.
Qed.

(** The round trip of [btoa]: decoding the encoding of any 8-bit
    string gives the string back. *)
Theorem btoa_roundtrip s : b64_decode (btoa s) = Some s.
Proof.
  remember (String.length s) as n eqn:En. revert s En.
  induction n as [n IH] using lt_wf_ind. intros s En.
  destruct s as [|a [|b [|c r]]].
  - done.
  - cbn [btoa]. pose proof (sextets_roundtrip a ZERO ZERO) as Hr.
    pose proof (sextets_pad2 a) as [P3 P4].
    destruct (sextets a ZERO ZERO) as [[[d1 d2] d3] d4]. simpl in P3, P4. subst d3 d4.
    destruct Hr as (H1 & H2 & _ & _ & Hu).
    cbn [b64_decode]. rewrite !b64_index_char by done. cbn -[unsextets]. by rewrite Hu.
  - cbn [btoa]. pose proof (sextets_roundtrip a b ZERO) as Hr.
    pose proof (sextets_pad1 a b) as P4.
    destruct (sextets a b ZERO) as [[[d1 d2] d3] d4]. simpl in P4. subst d4.
    destruct Hr as (H1 & H2 & H3 & _ & Hu).
    cbn [b64_decode]. rewrite !b64_index_char by done. cbn -[unsextets b64_char].
    rewrite (bool_decide_eq_true_2 (PAD = PAD)) by done.
    rewrite bool_decide_eq_false_2 by (by apply b64_char_not_pad).
    rewrite bool_decide_eq_true_2 by done. by rewrite Hu.
  - cbn [btoa]. pose proof (sextets_roundtrip a b c) as Hr.
    destruct (sextets a b c) as [[[d1 d2] d3] d4].
    destruct Hr as (H1 & H2 & H3 & H4 & Hu).
    rewrite b64_decode_group by done.
    rewrite (IH (String.length r)); [|simpl in En; lia|done]. cbn -[unsextets]. by rewrite Hu.
Qed.

(** [btoa] is injective: equal hashes mean equal passwords. *)
Lemma btoa_inj s1 s2 : btoa s1 = btoa s2 -> s1 = s2.
Proof.
  intros H. pose proof (btoa_roundtrip s1) as H1. rewrite H, btoa_roundtrip in H1.
  by injection H1.
Qed.

(** ** Examples: the model agrees with the browser's [btoa] *)

Example btoa_examples :
  btoa "a" = "YQ==" /\ btoa "ab" = "YWI=" /\ btoa "secret" = "c2VjcmV0" /\
  btoa "secret1" = "c2VjcmV0MQ==".
Proof. vm_compute. auto. Qed.
