(* ===== verification/Store.v ===== *)
(** * Store: localStorage, the [store] wrapper, and JS objects as maps

    Models the [store] wrapper of src/script.js (lines 14-18) over
    localStorage, the JSON values it stores, property access on the plain
    objects it returns (the [users] map of the auth handlers, with the keys
    every object inherits from [Object.prototype]), and the string
    functions the auth handlers apply to their inputs ([trim],
    [toLowerCase]) on 8-bit (Latin-1) strings.

    localStorage maps keys to strings.  A string written by [store.set] is
    [JSON.stringify] of a value, and [JSON.parse] gives that value back; a
    string written directly with [localStorage.setItem] (the theme, line
    240) is ["dark"] or ["light"], which is not JSON text, so [JSON.parse]
    throws on it.  The model stores the value or the raw text and takes
    these two facts of the JSON library as its semantics. *)

From S2P Require Import Prelude.
From Stdlib Require Import Ascii NArith String.

(** ** JSON values and localStorage *)

(** The JSON values the program stores: strings and objects of them. *)
Inductive Json :=
| JNull
| JStr (s : string)
| JObj (fields : list (string * Json)).

(** An item of localStorage: the text of [JSON.stringify(v)], kept as [v],
    or a raw text written by [localStorage.setItem]. *)
Inductive Item := Stored (v : Json) | Raw (s : string).

Abbreviation LocalStorage := (gmap string Item).

(** [store.get(key, def)]:
    [try{ return JSON.parse(localStorage.getItem(key)) ?? def }catch{ return def }].
    A missing key gives [JSON.parse(null)], which is [null]. *)
Definition store_get (ls : LocalStorage) (key : string) (def : Json) : Json :=
  match ls !! key with
  | None => def
  | Some (Stored JNull) => def
  | Some (Stored v) => v
  | Some (Raw _) => def
  end.

(** [store.set(key, val)]. *)
Definition store_set (key : string) (v : Json) (ls : LocalStorage) : LocalStorage :=
  <[key := Stored v]> ls.

(** [store.del(key)]. *)
Definition store_del (key : string) (ls : LocalStorage) : LocalStorage := delete key ls.

(** ** Property access on plain objects *)

(** What [obj[k]] evaluates to: [undefined], an own property, or a member
    inherited from [Object.prototype] ([obj.constructor] is the function
    [Object], [obj.__proto__] is [Object.prototype], ...). *)
Inductive JsVal := VUndef | VJson (v : Json) | VProto (k : string).

(** The members of [Object.prototype]. *)
Definition PROTO_KEYS : list string :=
  ["constructor"; "__proto__"; "hasOwnProperty"; "isPrototypeOf";
   "propertyIsEnumerable"; "toString"; "toLocaleString"; "valueOf";
   "__defineGetter__"; "__defineSetter__"; "__lookupGetter__"; "__lookupSetter__"].

Fixpoint own_lookup (k : string) (fields : list (string * Json)) : option Json :=
  match fields with
  | [] => None
  | (k', v) :: fs => if bool_decide (k = k') then Some v else own_lookup k fs
  end.

(** [obj[k]] on a parsed object. *)
Definition obj_get (fields : list (string * Json)) (k : string) : JsVal :=
  match own_lookup k fields with
  | Some v => VJson v
  | None => if bool_decide (k ∈ PROTO_KEYS) then VProto k else VUndef
  end.

(** [obj[k] = v]: replaces an own property or appends a new one; an
    assignment to [__proto__] changes the object's prototype and adds no
    own property, so [JSON.stringify] does not see it. *)
Fixpoint own_set (k : string) (v : Json) (fields : list (string * Json)) :
    list (string * Json) :=
  match fields with
  | [] => [(k, v)]
  | (k', v') :: fs => if bool_decide (k = k') then (k, v) :: fs else (k', v') :: own_set k v fs
  end.

Definition obj_set (fields : list (string * Json)) (k : string) (v : Json) :
    list (string * Json) :=
  if bool_decide (k = "__proto__") then fields else own_set k v fields.

(** The fields of a value used as an object ([{}] for anything else). *)
Definition fields_of (v : Json) : list (string * Json) :=
  match v with JObj fs => fs | _ => [] end.

(** [if(x)] on a property value: objects and functions are truthy;
    [undefined], [null] and [""] are falsy. *)
Definition js_truthy (x : JsVal) : bool :=
  match x with
  | VUndef | VJson JNull => false
  | VJson (JStr s) => negb (js_falsy_str s)
  | VJson (JObj _) | VProto _ => true
  end.

(** ** The stored text *)

(** The hexadecimal digits of [\u00XX] for a control character. *)
Definition hex_digit (n : N) : ascii :=
  ascii_of_N (if bool_decide (n < 10)%N then 48 + n else 87 + n)%N.

(** [JSON.stringify]'s quoting of one 8-bit character. *)
Definition json_escape_char (c : ascii) : string :=
  let n := N_of_ascii c in
  if bool_decide (c = QUOTE) then String BACKSLASH (String QUOTE EmptyString)
  else if bool_decide (c = BACKSLASH) then String BACKSLASH (String BACKSLASH EmptyString)
  else if bool_decide (n = 8%N) then String BACKSLASH "b"
  else if bool_decide (n = 9%N) then String BACKSLASH "t"
  else if bool_decide (n = 10%N) then String BACKSLASH "n"
  else if bool_decide (n = 12%N) then String BACKSLASH "f"
  else if bool_decide (n = 13%N) then String BACKSLASH "r"
  else if bool_decide (n < 32)%N then
    String BACKSLASH (String "u" (String "0" (String "0"
      (String (hex_digit (n / 16)) (String (hex_digit (n mod 16)) EmptyString)))))
  else String c EmptyString.

Definition json_quote (s : string) : string :=
  String QUOTE (foldr (fun c r => json_escape_char c +:+ r) (String QUOTE EmptyString)
                      (list_ascii_of_string s)).

(** [JSON.stringify(v)] on the values the program stores (own properties
    in insertion order). *)
Fixpoint json_text (v : Json) : string :=
  match v with
  | JNull => "null"
  | JStr s => json_quote s
  | JObj fs =>
      let fix fields (fs : list (string * Json)) : string :=
        match fs with
        | [] => ""
        | [(k, x)] => json_quote k +:+ ":" +:+ json_text x
        | (k, x) :: fs' => json_quote k +:+ ":" +:+ json_text x +:+ "," +:+ fields fs'
        end in
      "{" +:+ fields fs +:+ "}"
  end.

(** [localStorage.getItem(key)]: the text stored under [key], [null] when
    there is none. *)
Definition get_item (ls : LocalStorage) (key : string) : option string :=
  match ls !! key with
  | None => None
  | Some (Stored v) => Some (json_text v)
  | Some (Raw s) => Some s
  end.

(** [localStorage.setItem(key, text)] of a text that is not JSON. *)
Definition set_item (key text : string) (ls : LocalStorage) : LocalStorage := <[key := Raw text]> ls.

(** ** Strings *)

(** The white space [String.prototype.trim] removes, among 8-bit
    characters: tab, line feed, vertical tab, form feed, carriage return,
    space and no-break space. *)
Definition js_space (c : ascii) : bool :=
  bool_decide (N_of_ascii c ∈ [9; 10; 11; 12; 13; 32; 160]%N).

Fixpoint trim_start (s : string) : string :=
  match s with
  | String c s' => if js_space c then trim_start s' else s
  | EmptyString => EmptyString
  end.

Definition string_rev (s : string) : string := string_of_list_ascii (rev (list_ascii_of_string s)).

(** [s.trim()]. *)
Definition js_trim (s : string) : string := string_rev (trim_start (string_rev (trim_start s))).

(** [toLowerCase] of an 8-bit character: [A-Z] and [À-Þ] except [×]. *)
Definition lower_char (c : ascii) : ascii :=
  let n := N_of_ascii c in
  if bool_decide ((65 <= n <= 90)%N \/ ((192 <= n <= 222)%N /\ n <> 215%N))
  then ascii_of_N (n + 32) else c.

(** [s.toLowerCase()]. *)
Definition js_lower (s : string) : string :=
  string_of_list_ascii (lower_char <$> list_ascii_of_string s).

(** ** Theorems *)

Lemma store_get_set_eq l k v d : v <> JNull -> store_get (store_set k v l) k d = v.
Proof. intros Hv. unfold store_get, store_set. rewrite lookup_insert_eq. by destruct v. Qed.

Lemma store_get_set_ne l k k' v d : k' <> k -> store_get (store_set k v l) k' d = store_get l k' d.
Proof. intros Hk. unfold store_get, store_set. by rewrite lookup_insert_ne by congruence. Qed.

Lemma store_get_del_eq l k d : store_get (store_del k l) k d = d.
Proof. unfold store_get, store_del. by rewrite lookup_delete_eq. Qed.

Lemma store_get_del_ne l k k' d : k' <> k -> store_get (store_del k l) k' d = store_get l k' d.
Proof. intros Hk. unfold store_get, store_del. by rewrite lookup_delete_ne by congruence. Qed.

#[export] Hint Rewrite store_get_del_eq : quiz_rw.

Lemma own_lookup_set k k' v fs :
  own_lookup k' (own_set k v fs) = if bool_decide (k' = k) then Some v else own_lookup k' fs.
Proof.
  induction fs as [|[k0 v0] fs IH]; simpl.
  - by repeat case_bool_decide.
  - repeat case_bool_decide; simplify_eq; simpl; repeat case_bool_decide; congruence.
Qed.

Lemma obj_get_set_eq fs k v : k <> "__proto__" -> obj_get (obj_set fs k v) k = VJson v.
Proof.
  intros Hk. unfold obj_get, obj_set. rewrite bool_decide_eq_false_2 by done.
  rewrite own_lookup_set. by rewrite bool_decide_eq_true_2.
Qed.

Lemma obj_get_set_ne fs k k' v : k' <> k -> obj_get (obj_set fs k v) k' = obj_get fs k'.
Proof.
  intros Hk. unfold obj_get, obj_set. case_bool_decide; [done|].
  rewrite own_lookup_set. by rewrite bool_decide_eq_false_2.
Qed.

(** C28: the round trip of the [store] wrapper: a value written by
    [store.set] other than [null] is what [store.get] reads back, a deleted
    key reads as the default, and the other keys are untouched. *)
Theorem store_roundtrip ls k k' v d :
  v <> JNull ->
  store_get (store_set k v ls) k d = v /\
  store_get (store_del k ls) k d = d /\
  (k' <> k -> store_get (store_set k v ls) k' d = store_get ls k' d /\
              store_get (store_del k ls) k' d = store_get ls k' d).
Proof.
  intros Hv. split_and!; auto using store_get_set_eq, store_get_del_eq.
  intros Hk. auto using store_get_set_ne, store_get_del_ne.
Qed.

(** a JS object used as a map.  Writing [obj[k] = v] then reading
    [obj[k]] gives [v] back and leaves the other keys alone, except for
    the key ["__proto__"], whose write is lost (it sets the prototype); and
    a key that is not an own property but names a member of
    [Object.prototype] reads as that member, not as [undefined]. *)
Theorem obj_set_get fs k k' v :
  (k <> "__proto__" -> obj_get (obj_set fs k v) k = VJson v /\
     (k' <> k -> obj_get (obj_set fs k v) k' = obj_get fs k')) /\
  obj_set fs "__proto__" v = fs /\
  (own_lookup k fs = None -> k ∈ PROTO_KEYS -> obj_get fs k = VProto k).
Proof.
  split_and!.
  - intros Hk. auto using obj_get_set_eq, obj_get_set_ne.
  - unfold obj_set. by rewrite bool_decide_eq_true_2.
  - intros Hn Hp. unfold obj_get. rewrite Hn. by rewrite bool_decide_eq_true_2.
Qed.

Lemma lower_char_idem c : lower_char (lower_char c) = lower_char c.
Proof.
  destruct c as [[] [] [] [] [] [] [] []]; vm_compute; reflexivity.
Qed.

(** [toLowerCase] is idempotent: an e-mail address normalised once stays
    the same when normalised again. *)
Lemma js_lower_idem s : js_lower (js_lower s) = js_lower s.
Proof.
  unfold js_lower. rewrite list_ascii_of_string_of_list_ascii, <-list_fmap_compose.
  f_equal. apply list_fmap_ext. intros _ c _. apply lower_char_idem.
Qed.

(** ** Witnesses *)

Lemma store_roundtrip_witness :
  JStr "dark" <> JNull /\
  store_get (store_set "theme" (JStr "dark") ∅) "theme" JNull = JStr "dark" /\
  store_get (store_del "theme" (store_set "theme" (JStr "dark") ∅)) "theme" JNull = JNull.
Proof.
  assert (H : JStr "dark" <> JNull) by discriminate.
  destruct (store_roundtrip ∅ "theme" "users" (JStr "dark") JNull H) as (H1 & _ & _).
  destruct (store_roundtrip (store_set "theme" (JStr "dark") ∅) "theme" "users"
              (JStr "dark") JNull H) as (_ & H2 & _).
  split; [exact H|]. split; [exact H1|exact H2].
Defined.

Lemma obj_set_get_witness :
  own_lookup "constructor" [] = None /\ "constructor" ∈ PROTO_KEYS /\
  obj_get [] "constructor" = VProto "constructor".
Proof.
  assert (H1 : own_lookup "constructor" [] = None) by reflexivity.
  assert (H2 : "constructor" ∈ PROTO_KEYS) by decide_by_compute.
  split; [exact H1|]. split; [exact H2|].
  exact (proj2 (proj2 (obj_set_get [] "constructor" "x" JNull)) H1 H2).
Defined.
