(* ===== verification/Forms.v ===== *)
(** * Forms: the inputs of the sign-up and login forms

    The five inputs the auth listeners read ([#signup-name],
    [#signup-email], [#signup-password] at lines 48-50 of src/script.js,
    [#login-email] and [#login-password] at lines 63-64), what typing does
    to them, and [form.reset()] (lines 95-96), which gives every input of
    the form its default value.  The inputs are declared in index.html,
    which is not among the sources; they carry no [value] attribute, so
    their default value is the empty text. *)

From S2P Require Import Prelude.
From Stdlib Require Import String.

(** The [value] of each input. *)
Record Forms := mkForms {
  signup_name : string;
  signup_email : string;
  signup_password : string;
  login_email : string;
  login_password : string
}.

(** The inputs, by id. *)
Inductive Field := FSignupName | FSignupEmail | FSignupPassword | FLoginEmail | FLoginPassword.

#[export] Instance Field_eq_dec : EqDecision Field.
Proof. solve_decision. Defined.

(** The user types [v] into the input [f]: its [value] becomes [v]. *)
Definition type_into (f : Field) (v : string) (fm : Forms) : Forms :=
  match f with
  | FSignupName => mkForms v (signup_email fm) (signup_password fm) (login_email fm) (login_password fm)
  | FSignupEmail => mkForms (signup_name fm) v (signup_password fm) (login_email fm) (login_password fm)
  | FSignupPassword => mkForms (signup_name fm) (signup_email fm) v (login_email fm) (login_password fm)
  | FLoginEmail => mkForms (signup_name fm) (signup_email fm) (signup_password fm) v (login_password fm)
  | FLoginPassword => mkForms (signup_name fm) (signup_email fm) (signup_password fm) (login_email fm) v
  end.

(** [document.getElementById('login-form').reset()] (line 95). *)
Definition reset_login_form (fm : Forms) : Forms :=
  mkForms (signup_name fm) (signup_email fm) (signup_password fm) "" "".

(** [document.getElementById('signup-form').reset()] (line 96). *)
Definition reset_signup_form (fm : Forms) : Forms :=
  mkForms "" "" "" (login_email fm) (login_password fm).

(** Every input at its default value, as the page loads. *)
Definition blank_forms : Forms := mkForms "" "" "" "" "".
