(* ===== verification/Auth.v ===== *)
(** * Auth: sign-up, login, [onLogin] and [logout]

    Models the demo authentication of src/script.js: the two submit
    listeners [initAuth] registers (lines 39-73), [onLogin] (lines 75-84),
    [logout] (lines 86-98), [switchAuthTab] (lines 33-37), and the parts of
    the boot sequence that concern the session (lines 259, 267-271,
    312-315).  The page is a record of localStorage, the visible screens,
    the [#welcome] text, the alerts shown so far, the active auth tab and
    the inputs of the two forms ([Forms]), which the submit listeners read;
    each handler is a computation of the [jsM] monad of the prelude over
    it, with its early [return alert(...)] as a branch.

    [initAuth] runs twice, once at the top level (line 312) and once in the
    [DOMContentLoaded] listener (line 259), so each submit of a form runs
    its listener twice; [auth_event] models that.  The theorems show what a
    login accepts, the round trip sign-up/logout/login, what the doubled
    listener does to a successful sign-up and to a rejected one, the
    accounts the inherited keys of [Object.prototype] make, that the
    session survives a reload and not a logout, and that only [logout]
    clears the inputs. *)

From S2P Require Import Prelude Sampler Session Review View App Base64 Store Forms.
From Stdlib Require Import Ascii String.

(** ** The page *)

(** localStorage, the screens without [hidden], [#welcome]'s text, the
    alerts shown (oldest first), the active tab of the auth screen and the
    inputs of the two forms. *)
Record AuthPage := mkAuth {
  ls : LocalStorage;
  ap_visible : gset Screen;
  welcome : string;
  alerts : list string;
  tab : string;
  forms : Forms
}.

Definition set_ls (a : AuthPage) (l : LocalStorage) : AuthPage :=
  mkAuth l (ap_visible a) (welcome a) (alerts a) (tab a) (forms a).
Definition set_ap_visible (a : AuthPage) (v : gset Screen) : AuthPage :=
  mkAuth (ls a) v (welcome a) (alerts a) (tab a) (forms a).
Definition set_welcome (a : AuthPage) (w : string) : AuthPage :=
  mkAuth (ls a) (ap_visible a) w (alerts a) (tab a) (forms a).
Definition set_alerts (a : AuthPage) (l : list string) : AuthPage :=
  mkAuth (ls a) (ap_visible a) (welcome a) l (tab a) (forms a).
Definition set_tab (a : AuthPage) (t : string) : AuthPage :=
  mkAuth (ls a) (ap_visible a) (welcome a) (alerts a) t (forms a).
Definition set_forms (a : AuthPage) (fm : Forms) : AuthPage :=
  mkAuth (ls a) (ap_visible a) (welcome a) (alerts a) (tab a) fm.

Abbreviation AH := (jsM AuthPage unit).

(** [alert(msg)]. *)
Definition alert (msg : string) : AH := js_modify (fun a => set_alerts a (alerts a ++ [msg])).

(** [hide] and [show] (lines 29-30) on the auth page. *)
Definition auth_hide (s : Screen) : AH :=
  js_modify (fun a => set_ap_visible a (ap_visible a ∖ {[s]})).
Definition auth_show (s : Screen) : AH :=
  js_modify (fun a => set_ap_visible a ({[s]} ∪ ap_visible a)).

(** [store.get], [store.set] and [store.del] against the page's storage. *)
Definition ls_get (key : string) (def : Json) : jsM AuthPage Json :=
  a ← js_get; js_ret (store_get (ls a) key def).
Definition ls_set (key : string) (v : Json) : AH :=
  js_modify (fun a => set_ls a (store_set key v (ls a))).
Definition ls_del (key : string) : AH :=
  js_modify (fun a => set_ls a (store_del key (ls a))).

(** [switchAuthTab(name)]: the tab whose [data-tab] is [name] becomes
    active and [#name-form] the visible form. *)
Definition switch_auth_tab (name : string) : AH := js_modify (fun a => set_tab a name).

(** ** Values read from storage *)

(** [if(!session)]: [null] and [""] are falsy, objects are not. *)
Definition json_falsy (v : Json) : bool :=
  match v with JNull => true | JStr s => js_falsy_str s | JObj _ => false end.

(** [session.email] converted to a property key. *)
Definition session_email (s : Json) : string :=
  match s with
  | JObj fs =>
      match own_lookup "email" fs with
      | Some (JStr e) => e
      | Some JNull => "null"
      | Some (JObj _) => "[object Object]"
      | None => "undefined"
      end
  | _ => "undefined"
  end.

(** [u?.name || 'User'], as the template literal prints it.  An inherited
    member of [Object.prototype] is a function whose [name] is its key
    ([Object] for [constructor]); [Object.prototype] itself has no
    [name]. *)
Definition user_name (u : JsVal) : string :=
  match u with
  | VJson (JObj fs) =>
      match own_lookup "name" fs with
      | Some (JStr n) => if js_falsy_str n then "User" else n
      | Some (JObj _) => "[object Object]"
      | _ => "User"
      end
  | VProto k =>
      if bool_decide (k = "__proto__") then "User"
      else if bool_decide (k = "constructor") then "Object" else k
  | _ => "User"
  end.

(** [u.passHash] when it is a string ([undefined] otherwise, including on
    the inherited members). *)
Definition pass_hash (u : JsVal) : option string :=
  match u with
  | VJson (JObj fs) => match own_lookup "passHash" fs with Some (JStr h) => Some h | _ => None end
  | _ => None
  end.

(** [.trim().toLowerCase()] of a typed e-mail address. *)
Definition normalize_email (s : string) : string := js_lower (js_trim s).

(** The record a sign-up stores: [{ name, email, passHash: btoa(pass) }]. *)
Definition user_record (name email pass : string) : Json :=
  JObj [("name", JStr name); ("email", JStr email); ("passHash", JStr (btoa pass))].

(** The session a login stores: [{ email }]. *)
Definition session_record (email : string) : Json := JObj [("email", JStr email)].

(** ** Handlers *)

(** [onLogin]. *)
Definition on_login : AH :=
  session ← ls_get "session" JNull;
  if json_falsy session then js_ret () else
  users ← ls_get "users" (JObj []);
  let u := obj_get (fields_of users) (session_email session) in
  js_modify (fun a => set_welcome a ("Hi, " +:+ user_name u)) ;;
  auth_hide AuthScreen ;; auth_show Topbar ;; auth_show Dashboard.

(** The body of the sign-up submit listener, on the values it reads from
    [#signup-name], [#signup-email] and [#signup-password]. *)
Definition signup (name_in email_in pass : string) : AH :=
  let name := js_trim name_in in
  let email := normalize_email email_in in
  if bool_decide (String.length pass < 6) then alert "Password must be at least 6 characters." else
  users ← ls_get "users" (JObj []);
  if js_truthy (obj_get (fields_of users) email) then alert "Account already exists. Please log in." else
  ls_set "users" (JObj (obj_set (fields_of users) email (user_record name email pass))) ;;
  ls_set "session" (session_record email) ;;
  on_login.

(** The body of the login submit listener, on the values it reads from
    [#login-email] and [#login-password]. *)
Definition login (email_in pass : string) : AH :=
  let email := normalize_email email_in in
  users ← ls_get "users" (JObj []);
  let u := obj_get (fields_of users) email in
  if negb (js_truthy u) then alert "No account found. Please sign up." else
  if bool_decide (pass_hash u <> Some (btoa pass)) then alert "Incorrect password." else
  ls_set "session" (session_record email) ;;
  on_login.

(** The sign-up submit listener (lines 46-59): it reads the three inputs
    of [#signup-form] when it runs. *)
Definition signup_listener : AH :=
  a ← js_get;
  signup (signup_name (forms a)) (signup_email (forms a)) (signup_password (forms a)).

(** The login submit listener (lines 61-72). *)
Definition login_listener : AH :=
  a ← js_get;
  login (login_email (forms a)) (login_password (forms a)).

(** The user types into an input of a form. *)
Definition type_input (f : Field) (v : string) : AH :=
  js_modify (fun a => set_forms a (type_into f v (forms a))).

(** [logout]. *)
Definition logout : AH :=
  ls_del "session" ;;
  auth_hide Topbar ;; auth_hide Dashboard ;; auth_hide QuizScreen ;; auth_hide ReviewScreen ;;
  auth_show AuthScreen ;;
  js_modify (fun a => set_forms a (reset_login_form (forms a))) ;;
  js_modify (fun a => set_forms a (reset_signup_form (forms a))) ;;
  switch_auth_tab "login".

(** ** Registrations and events *)

(** What the user does on the auth screen and the top bar. *)
Inductive AuthEvent :=
| Input (f : Field) (v : string)
| SubmitSignup
| SubmitLogin
| ClickTab (name : string)
| ClickLogout.

(** The listeners [initAuth] registers, in order. *)
Inductive AuthListener := TabListener | SignupListener | LoginListener.

Definition init_auth : list AuthListener := [TabListener; SignupListener; LoginListener].

(** [initAuth()] at the top level (line 312), then again in the
    [DOMContentLoaded] listener (line 259). *)
Definition auth_registrations : list AuthListener := init_auth ++ init_auth.

Definition run_auth_listener (ev : AuthEvent) (l : AuthListener) : AH :=
  match l, ev with
  | TabListener, ClickTab n => switch_auth_tab n
  | SignupListener, SubmitSignup => signup_listener
  | LoginListener, SubmitLogin => login_listener
  | _, _ => js_ret ()
  end.

(** An event runs every listener registered for it, in registration order;
    the logout button has one listener (line 304); typing runs none. *)
Definition auth_event (ev : AuthEvent) : AH :=
  match ev with
  | Input f v => type_input f v
  | ClickLogout => logout
  | _ => foldr (fun l k => run_auth_listener ev l ;; k) (js_ret ()) auth_registrations
  end.

(** The session part of the boot: [if(store.get('session')) onLogin()]
    (lines 313-315), then, when [DOMContentLoaded] fires, the check of
    lines 267-271. *)
Definition auth_boot : AH :=
  s ← ls_get "session" JNull;
  (if json_falsy s then js_ret () else on_login) ;;
  s' ← ls_get "session" JNull;
  if json_falsy s' then auth_hide Dashboard ;; auth_hide Topbar ;; auth_show AuthScreen
  else js_ret ().

(** ** Lemmas: what each handler does *)

(** The screens after [onLogin] shows the dashboard. *)
Lemma on_login_ret a : fst (on_login a) = inl tt.
Proof.
  unfold on_login, ls_get, auth_hide, auth_show. js_simpl.
  by destruct (json_falsy _).
Qed.

Lemma on_login_run a e :
  store_get (ls a) "session" JNull = session_record e ->
  js_exec on_login a =
  mkAuth (ls a) ({[Dashboard]} ∪ ({[Topbar]} ∪ (ap_visible a ∖ {[AuthScreen]})))
         ("Hi, " +:+ user_name (obj_get (fields_of (store_get (ls a) "users" (JObj []))) e))
         (alerts a) (tab a) (forms a).
Proof. intros Hs. unfold on_login, ls_get, auth_hide, auth_show. js_simpl. by rewrite Hs. Qed.

Lemma on_login_no_session a :
  json_falsy (store_get (ls a) "session" JNull) = true -> js_exec on_login a = a.
Proof. intros Hs. unfold on_login, ls_get. js_simpl. by rewrite Hs. Qed.

Lemma user_name_record n e p :
  user_name (VJson (user_record n e p)) = if js_falsy_str n then "User" else n.
Proof. done. Qed.

Lemma signup_ret n e p a : fst (signup n e p a) = inl tt.
Proof.
  unfold signup, ls_get, ls_set, alert. js_simpl.
  repeat case_match; simpl; try done. apply on_login_ret.
Qed.

Lemma login_ret e p a : fst (login e p a) = inl tt.
Proof.
  unfold login, ls_get, ls_set, alert. js_simpl.
  repeat case_match; simpl; try done. apply on_login_ret.
Qed.

(** No handler but [logout] and typing touches the inputs. *)
Lemma on_login_forms a : forms (js_exec on_login a) = forms a.
Proof.
  unfold on_login, ls_get, auth_hide, auth_show. js_simpl. by destruct (json_falsy _).
Qed.

Lemma signup_forms n e p a : forms (js_exec (signup n e p) a) = forms a.
Proof.
  unfold signup, ls_get, ls_set, alert. js_simpl.
  repeat case_match; simpl; try done.
  change (snd (on_login ?x)) with (js_exec on_login x). by rewrite on_login_forms.
Qed.

Lemma login_forms e p a : forms (js_exec (login e p) a) = forms a.
Proof.
  unfold login, ls_get, ls_set, alert. js_simpl.
  repeat case_match; simpl; try done.
  change (snd (on_login ?x)) with (js_exec on_login x). by rewrite on_login_forms.
Qed.

(** A submit listener runs its body on the inputs as they are. *)
Lemma signup_listener_run a :
  js_exec signup_listener a =
  js_exec (signup (signup_name (forms a)) (signup_email (forms a)) (signup_password (forms a))) a.
Proof. done. Qed.

Lemma login_listener_run a :
  js_exec login_listener a = js_exec (login (login_email (forms a)) (login_password (forms a))) a.
Proof. done. Qed.

Lemma run_auth_listener_ret ev l a : fst (run_auth_listener ev l a) = inl tt.
Proof.
  destruct l; [by destruct ev| |];
    (destruct ev; cbn [run_auth_listener]; [done| | |done|done]); try done.
  - exact (signup_ret (signup_name (forms a)) (signup_email (forms a)) (signup_password (forms a)) a).
  - exact (login_ret (login_email (forms a)) (login_password (forms a)) a).
Qed.

Lemma run_auth_listener_forms ev l a : forms (js_exec (run_auth_listener ev l) a) = forms a.
Proof.
  destruct l; [by destruct ev| |];
    (destruct ev; cbn [run_auth_listener]; [done| | |done|done]); try done.
  - rewrite signup_listener_run. apply signup_forms.
  - rewrite login_listener_run. apply login_forms.
Qed.

(** The listeners of an event run one after the other. *)
Lemma auth_event_listeners ev a :
  (forall f v, ev <> Input f v) -> ev <> ClickLogout ->
  js_exec (auth_event ev) a = foldl (fun a l => js_exec (run_auth_listener ev l) a) a auth_registrations.
Proof.
  intros Hi Hl. assert (Hb : auth_event ev =
    foldr (fun l k => run_auth_listener ev l ;; k) (js_ret ()) auth_registrations)
    by (destruct ev; try done; by edestruct Hi).
  rewrite Hb. generalize auth_registrations as ls. clear Hb.
  intros ls; revert a; induction ls as [|l ls IH]; intros a; [done|].
  simpl. rewrite js_exec_seq by apply run_auth_listener_ret. apply IH.
Qed.

Lemma auth_event_signup a :
  js_exec (auth_event SubmitSignup) a = js_exec signup_listener (js_exec signup_listener a).
Proof. by rewrite auth_event_listeners. Qed.

Lemma auth_event_login a :
  js_exec (auth_event SubmitLogin) a = js_exec login_listener (js_exec login_listener a).
Proof. by rewrite auth_event_listeners. Qed.

(** The users object the handlers read. *)
Lemma signup_short_run n e p a :
  String.length p < 6 ->
  js_exec (signup n e p) a = set_alerts a (alerts a ++ ["Password must be at least 6 characters."]).
Proof. intros Hp. unfold signup, alert. js_simpl. by rewrite bool_decide_eq_true_2. Qed.

Lemma signup_exists_run n e p a :
  6 <= String.length p ->
  js_truthy (obj_get (fields_of (store_get (ls a) "users" (JObj []))) (normalize_email e)) = true ->
  js_exec (signup n e p) a = set_alerts a (alerts a ++ ["Account already exists. Please log in."]).
Proof.
  intros Hp Hu. unfold signup, alert, ls_get. js_simpl.
  rewrite bool_decide_eq_false_2 by lia. simpl. by rewrite Hu.
Qed.

Lemma signup_new_run n e p a :
  let email := normalize_email e in
  let fs := fields_of (store_get (ls a) "users" (JObj [])) in
  6 <= String.length p -> js_truthy (obj_get fs email) = false -> email <> "__proto__" ->
  js_exec (signup n e p) a =
  mkAuth (store_set "session" (session_record email)
            (store_set "users" (JObj (obj_set fs email (user_record (js_trim n) email p))) (ls a)))
         ({[Dashboard]} ∪ ({[Topbar]} ∪ (ap_visible a ∖ {[AuthScreen]})))
         ("Hi, " +:+ (if js_falsy_str (js_trim n) then "User" else js_trim n))
         (alerts a) (tab a) (forms a).
Proof.
  intros email fs Hp Hu Hk. unfold signup, ls_get, ls_set. fold email. js_simpl.
  rewrite bool_decide_eq_false_2 by lia. simpl. fold fs. rewrite Hu. simpl.
  change (snd (on_login ?x)) with (js_exec on_login x).
  erewrite on_login_run by (simpl; by apply store_get_set_eq). simpl.
  rewrite store_get_set_ne, store_get_set_eq by done. simpl.
  by rewrite obj_get_set_eq, user_name_record.
Qed.

Lemma login_missing_run e p a :
  js_truthy (obj_get (fields_of (store_get (ls a) "users" (JObj []))) (normalize_email e)) = false ->
  js_exec (login e p) a = set_alerts a (alerts a ++ ["No account found. Please sign up."]).
Proof. intros Hu. unfold login, alert, ls_get. js_simpl. by rewrite Hu. Qed.

Lemma login_wrong_run e p a u :
  obj_get (fields_of (store_get (ls a) "users" (JObj []))) (normalize_email e) = u ->
  js_truthy u = true -> pass_hash u <> Some (btoa p) ->
  js_exec (login e p) a = set_alerts a (alerts a ++ ["Incorrect password."]).
Proof.
  intros Hu Ht Hh. unfold login, alert, ls_get. js_simpl. rewrite Hu, Ht. simpl.
  by rewrite bool_decide_eq_true_2.
Qed.

Lemma login_ok_run e p a u :
  let email := normalize_email e in
  obj_get (fields_of (store_get (ls a) "users" (JObj []))) email = u ->
  js_truthy u = true -> pass_hash u = Some (btoa p) ->
  js_exec (login e p) a =
  mkAuth (store_set "session" (session_record email) (ls a))
         ({[Dashboard]} ∪ ({[Topbar]} ∪ (ap_visible a ∖ {[AuthScreen]})))
         ("Hi, " +:+ user_name u) (alerts a) (tab a) (forms a).
Proof.
  intros email Hu Ht Hh. unfold login, ls_get, ls_set. fold email. js_simpl.
  rewrite Hu, Ht. simpl. rewrite bool_decide_eq_false_2 by (rewrite Hh; auto).
  change (snd (on_login ?x)) with (js_exec on_login x).
  erewrite on_login_run by (simpl; by apply store_get_set_eq). simpl.
  rewrite store_get_set_ne by done. by rewrite Hu.
Qed.

Lemma logout_ret a : fst (logout a) = inl tt.
Proof. done. Qed.

Lemma logout_run a :
  js_exec logout a =
  mkAuth (store_del "session" (ls a))
         ({[AuthScreen]} ∪ (ap_visible a ∖ {[Topbar]} ∖ {[Dashboard]} ∖ {[QuizScreen]} ∖ {[ReviewScreen]}))
         (welcome a) (alerts a) "login" blank_forms.
Proof. done. Qed.

Lemma auth_boot_logged_in a e :
  store_get (ls a) "session" JNull = session_record e ->
  js_exec auth_boot a = js_exec on_login a.
Proof.
  intros Hs. unfold auth_boot, on_login, ls_get, auth_hide, auth_show. js_simpl.
  repeat (rewrite Hs; simpl). done.
Qed.

Lemma auth_boot_logged_out a :
  store_get (ls a) "session" JNull = JNull ->
  js_exec auth_boot a = set_ap_visible a ({[AuthScreen]} ∪ (ap_visible a ∖ {[Dashboard]} ∖ {[Topbar]})).
Proof. intros Hs. unfold auth_boot, ls_get. js_simpl. repeat (rewrite Hs; simpl). done. Qed.

(** ** Theorems *)

(** C30: a login for a stored account checks the password: with the
    password the account was created with, it stores the session and shows
    the dashboard without an alert; with any other password it only alerts
    "Incorrect password." ([btoa] is injective). *)
Theorem login_checks_password a e p p0 fs f :
  store_get (ls a) "users" (JObj []) = JObj fs ->
  own_lookup (normalize_email e) fs = Some (JObj f) ->
  own_lookup "passHash" f = Some (JStr (btoa p0)) ->
  let a' := js_exec (login e p) a in
  (p = p0 -> store_get (ls a') "session" JNull = session_record (normalize_email e) /\
             Dashboard ∈ ap_visible a' /\ (AuthScreen ∉ ap_visible a') /\ alerts a' = alerts a) /\
  (p <> p0 -> a' = set_alerts a (alerts a ++ ["Incorrect password."])).
Proof.
  intros Hus Hu Hh a'.
  assert (Hg : obj_get (fields_of (store_get (ls a) "users" (JObj []))) (normalize_email e)
               = VJson (JObj f)) by (rewrite Hus; unfold obj_get; simpl; by rewrite Hu).
  assert (Hph : pass_hash (VJson (JObj f)) = Some (btoa p0)) by (simpl; by rewrite Hh).
  split.
  - intros ->. subst a'. rewrite (login_ok_run e p0 a _ Hg) by done. simpl.
    split_and!; [by apply store_get_set_eq|set_solver|set_solver|done].
  - intros Hne. subst a'. apply (login_wrong_run e p a _ Hg); [done|].
    rewrite Hph. intros [= Hb]. by apply Hne, btoa_inj.
Qed.

(** C31: the round trip sign-up, logout, login: after a sign-up with a
    valid password for an address that has no account, logging out and
    logging in with the same address (up to case and surrounding blanks)
    and password succeeds, greets the user by the trimmed name, and alerts
    nothing. *)
Theorem signup_logout_login a n e e' p :
  6 <= String.length p ->
  js_truthy (obj_get (fields_of (store_get (ls a) "users" (JObj []))) (normalize_email e)) = false ->
  normalize_email e <> "__proto__" ->
  normalize_email e' = normalize_email e ->
  let a' := js_exec (signup n e p ;; logout ;; login e' p) a in
  store_get (ls a') "session" JNull = session_record (normalize_email e) /\
  welcome a' = "Hi, " +:+ (if js_falsy_str (js_trim n) then "User" else js_trim n) /\
  Dashboard ∈ ap_visible a' /\ (AuthScreen ∉ ap_visible a') /\ alerts a' = alerts a.
Proof.
  intros Hp Hu Hk He a'. subst a'.
  rewrite !js_exec_seq by (apply signup_ret || apply logout_ret).
  rewrite signup_new_run by done. rewrite logout_run.
  rewrite (login_ok_run e' p _ (VJson (user_record (js_trim n) (normalize_email e) p)));
    [|simpl|done|done].
  - simpl. rewrite He. split_and!; [by apply store_get_set_eq|done|set_solver|set_solver|done].
  - rewrite He, store_get_del_ne, store_get_set_ne, store_get_set_eq by done.
    by apply obj_get_set_eq.
Qed.

(** C32: the sign-up listener is registered twice ([initAuth] runs at
    line 312 and again at line 259), so one submit of a valid sign-up
    creates the account from the three inputs, logs in, and then the
    second listener, reading the same inputs (nothing resets them),
    alerts "Account already exists. Please log in." on top of the
    dashboard. *)
Theorem signup_submit_runs_twice a :
  let n := signup_name (forms a) in
  let e := signup_email (forms a) in
  let p := signup_password (forms a) in
  let email := normalize_email e in
  let fs := fields_of (store_get (ls a) "users" (JObj [])) in
  6 <= String.length p -> js_truthy (obj_get fs email) = false -> email <> "__proto__" ->
  let a' := js_exec (auth_event SubmitSignup) a in
  store_get (ls a') "users" (JObj []) = JObj (obj_set fs email (user_record (js_trim n) email p)) /\
  store_get (ls a') "session" JNull = session_record email /\
  Dashboard ∈ ap_visible a' /\
  alerts a' = alerts a ++ ["Account already exists. Please log in."] /\
  forms a' = forms a.
Proof.
  intros n e p email fs Hp Hu Hk a'. subst a' fs email p e n.
  rewrite auth_event_signup, (signup_listener_run a), signup_new_run by done.
  rewrite signup_listener_run. cbn [forms].
  rewrite signup_exists_run; [|done|].
  - simpl. rewrite store_get_set_ne, !store_get_set_eq by done. set_solver.
  - cbn [ls]. rewrite store_get_set_ne, store_get_set_eq by done. cbn [fields_of].
    by rewrite obj_get_set_eq.
Qed.

(** A sign-up with a password shorter than 6 characters changes
    nothing but the alerts, and, the listener being registered twice,
    alerts "Password must be at least 6 characters." twice. *)
Theorem short_password_alerted_twice a :
  String.length (signup_password (forms a)) < 6 ->
  js_exec (auth_event SubmitSignup) a =
  set_alerts a (alerts a ++ ["Password must be at least 6 characters.";
                             "Password must be at least 6 characters."]).
Proof.
  intros Hp. rewrite auth_event_signup, (signup_listener_run a), signup_short_run by done.
  rewrite signup_listener_run, signup_short_run by done.
  destruct a. unfold set_alerts. simpl. by rewrite <-app_assoc.
Qed.

(** C34: an address that is the name of a member of [Object.prototype]
    ([constructor], [toString], [__proto__], ...) can never own an
    account: [users[email]] reads the inherited member, so a sign-up with
    a valid password alerts "Account already exists. Please log in." and a
    login with any password alerts "Incorrect password.", each changing
    nothing else. *)
Theorem inherited_key_no_account a n e p p' :
  normalize_email e ∈ PROTO_KEYS ->
  own_lookup (normalize_email e) (fields_of (store_get (ls a) "users" (JObj []))) = None ->
  6 <= String.length p ->
  js_exec (signup n e p) a = set_alerts a (alerts a ++ ["Account already exists. Please log in."]) /\
  js_exec (login e p') a = set_alerts a (alerts a ++ ["Incorrect password."]).
Proof.
  intros Hk Hn Hp.
  assert (Hg : obj_get (fields_of (store_get (ls a) "users" (JObj []))) (normalize_email e)
               = VProto (normalize_email e)) by (unfold obj_get; rewrite Hn; by case_bool_decide).
  split.
  - apply signup_exists_run; [done|]. by rewrite Hg.
  - by apply (login_wrong_run e p' a _ Hg).
Qed.

(** C35: the session outlives a reload and not a logout: a page that
    boots on a storage holding a session shows the dashboard and hides the
    auth screen, whatever the screens it starts with; after [logout], a
    page that boots on the storage it leaves shows the auth screen alone
    of the auth, top bar and dashboard screens, and the accounts are
    kept. *)
Theorem session_survives_reload_not_logout a e :
  store_get (ls a) "session" JNull = session_record e ->
  (forall b, ls b = ls a ->
     Dashboard ∈ ap_visible (js_exec auth_boot b) /\ (AuthScreen ∉ ap_visible (js_exec auth_boot b))) /\
  (forall c, ls c = ls (js_exec logout a) ->
     let c' := js_exec auth_boot c in
     AuthScreen ∈ ap_visible c' /\ (Dashboard ∉ ap_visible c') /\ (Topbar ∉ ap_visible c') /\
     store_get (ls c') "users" (JObj []) = store_get (ls a) "users" (JObj [])).
Proof.
  intros Hs. split.
  - intros b Hb. rewrite (auth_boot_logged_in b e) by congruence.
    rewrite (on_login_run b e) by congruence. simpl. set_solver.
  - intros c Hc c'. subst c'. rewrite logout_run in Hc. simpl in Hc.
    rewrite auth_boot_logged_out by (rewrite Hc; apply store_get_del_eq).
    simpl. rewrite Hc, store_get_del_ne by done. set_solver.
Qed.

(** C38: [logout] clears the auth forms and nothing else does: after
    [logout] every input of the login and sign-up forms holds its default
    (empty) value, whatever was typed; every other event but typing (a
    submit of either form, accepted or rejected, a tab click) leaves every
    input as it was, so the password typed for a successful login or
    sign-up stays in its input, on the hidden auth screen, until
    [logout]. *)
Theorem logout_clears_forms a :
  forms (js_exec logout a) = blank_forms /\
  (forall ev, (forall f v, ev <> Input f v) -> ev <> ClickLogout ->
     forms (js_exec (auth_event ev) a) = forms a).
Proof.
  split; [by rewrite logout_run|].
  intros ev Hi Hl. rewrite auth_event_listeners by done.
  generalize auth_registrations as ls. intros ls. revert a.
  induction ls as [|l ls IH]; intros a; [done|]. simpl. by rewrite IH, run_auth_listener_forms.
Qed.

(** ** Witnesses *)

Lemma login_checks_password_witness :
  let f := [("name", JStr "Ann"); ("email", JStr "ann@x.io"); ("passHash", JStr (btoa "secret1"))] in
  let fs := [("ann@x.io", JObj f)] in
  let a := mkAuth (store_set "users" (JObj fs) ∅) {[AuthScreen]} "" [] "login" blank_forms in
  store_get (ls a) "users" (JObj []) = JObj fs /\
  own_lookup (normalize_email " Ann@X.io ") fs = Some (JObj f) /\
  own_lookup "passHash" f = Some (JStr (btoa "secret1")) /\
  js_exec (login " Ann@X.io " "secret2") a = set_alerts a ["Incorrect password."].
Proof.
  intros f fs a.
  assert (H1 : store_get (ls a) "users" (JObj []) = JObj fs) by reflexivity.
  assert (H2 : own_lookup (normalize_email " Ann@X.io ") fs = Some (JObj f)) by reflexivity.
  assert (H3 : own_lookup "passHash" f = Some (JStr (btoa "secret1"))) by reflexivity.
  split; [exact H1|]. split; [exact H2|]. split; [exact H3|].
  apply (proj2 (login_checks_password a " Ann@X.io " "secret2" "secret1" fs f H1 H2 H3)).
  discriminate.
Defined.

Lemma signup_logout_login_witness :
  let a := mkAuth ∅ {[AuthScreen]} "" [] "login" blank_forms in
  6 <= String.length "secret1" /\
  js_truthy (obj_get (fields_of (store_get (ls a) "users" (JObj []))) (normalize_email "Ann@X.io")) = false /\
  normalize_email "Ann@X.io" <> "__proto__" /\
  normalize_email " ann@x.IO" = normalize_email "Ann@X.io" /\
  welcome (js_exec (signup " Ann " "Ann@X.io" "secret1" ;; logout ;; login " ann@x.IO" "secret1") a)
  = "Hi, Ann".
Proof.
  intros a.
  assert (H1 : 6 <= String.length "secret1") by (simpl; lia).
  assert (H2 : js_truthy (obj_get (fields_of (store_get (ls a) "users" (JObj [])))
                 (normalize_email "Ann@X.io")) = false) by reflexivity.
  assert (H3 : normalize_email "Ann@X.io" <> "__proto__") by (vm_compute; discriminate).
  assert (H4 : normalize_email " ann@x.IO" = normalize_email "Ann@X.io") by reflexivity.
  split; [exact H1|]. split; [exact H2|]. split; [exact H3|]. split; [exact H4|].
  destruct (signup_logout_login a " Ann " "Ann@X.io" " ann@x.IO" "secret1" H1 H2 H3 H4)
    as (_ & Hw & _). rewrite Hw. reflexivity.
Defined.

Lemma signup_submit_runs_twice_witness :
  let a := mkAuth ∅ {[AuthScreen]} "" [] "signup" (mkForms "Ann" "ann@x.io" "secret1" "" "") in
  6 <= String.length (signup_password (forms a)) /\
  js_truthy (obj_get (fields_of (store_get (ls a) "users" (JObj [])))
               (normalize_email (signup_email (forms a)))) = false /\
  normalize_email (signup_email (forms a)) <> "__proto__" /\
  alerts (js_exec (auth_event SubmitSignup) a) = ["Account already exists. Please log in."].
Proof.
  intros a.
  assert (H1 : 6 <= String.length (signup_password (forms a))) by (simpl; lia).
  assert (H2 : js_truthy (obj_get (fields_of (store_get (ls a) "users" (JObj [])))
                 (normalize_email (signup_email (forms a)))) = false) by reflexivity.
  assert (H3 : normalize_email (signup_email (forms a)) <> "__proto__") by (vm_compute; discriminate).
  split; [exact H1|]. split; [exact H2|]. split; [exact H3|].
  exact (proj1 (proj2 (proj2 (proj2 (signup_submit_runs_twice a H1 H2 H3))))).
Defined.

Lemma inherited_key_no_account_witness :
  let a := mkAuth ∅ {[AuthScreen]} "" [] "login" blank_forms in
  normalize_email " Constructor" ∈ PROTO_KEYS /\
  own_lookup (normalize_email " Constructor") (fields_of (store_get (ls a) "users" (JObj []))) = None /\
  6 <= String.length "secret1" /\
  alerts (js_exec (login " Constructor" "secret1") a) = ["Incorrect password."].
Proof.
  intros a.
  assert (H1 : normalize_email " Constructor" ∈ PROTO_KEYS) by decide_by_compute.
  assert (H2 : own_lookup (normalize_email " Constructor")
                 (fields_of (store_get (ls a) "users" (JObj []))) = None) by reflexivity.
  assert (H3 : 6 <= String.length "secret1") by (simpl; lia).
  split; [exact H1|]. split; [exact H2|]. split; [exact H3|].
  rewrite (proj2 (inherited_key_no_account a "Bob" " Constructor" "secret1" "secret1" H1 H2 H3)).
  reflexivity.
Defined.

Lemma session_survives_reload_not_logout_witness :
  let a := mkAuth (store_set "session" (session_record "ann@x.io") ∅) ∅ "" [] "login" blank_forms in
  store_get (ls a) "session" JNull = session_record "ann@x.io" /\
  Dashboard ∈ ap_visible (js_exec auth_boot a).
Proof.
  intros a. assert (H : store_get (ls a) "session" JNull = session_record "ann@x.io") by reflexivity.
  split; [exact H|].
  exact (proj1 (proj1 (session_survives_reload_not_logout a "ann@x.io" H) a eq_refl)).
Defined.

Lemma logout_clears_forms_witness :
  let a := mkAuth ∅ {[AuthScreen]} "" [] "login" (mkForms "" "" "" "ann@x.io" "secret1") in
  (forall f v, SubmitLogin <> Input f v) /\ SubmitLogin <> ClickLogout /\
  login_password (forms (js_exec (auth_event SubmitLogin) a)) = "secret1".
Proof.
  intros a.
  assert (H1 : forall f v, SubmitLogin <> Input f v) by discriminate.
  assert (H2 : SubmitLogin <> ClickLogout) by discriminate.
  split; [exact H1|]. split; [exact H2|].
  rewrite (proj2 (logout_clears_forms a) SubmitLogin H1 H2). reflexivity.
Defined.
