(* ===== verification/Theme.v ===== *)
(** * Theme: [initTheme], [toggleTheme], [updateThemeToggle]

    Models the theme code of src/script.js (lines 210-254): the
    [data-theme] attribute of the document element, the text and title of
    the [#theme-toggle] button, the ["theme"] key of localStorage (written
    with [localStorage.setItem], not through [store]), and the listener
    [initTheme] registers for changes of the system colour scheme.  The
    page is a record of these, of whether [window.matchMedia] exists and
    whether the system prefers dark; each function is a handler of the
    [jsM] monad.  The two emoji of the button are the constructors of
    [Icon].

    The theorems show that the button always shows the icon and title of
    the current theme, that the theme a user picks survives a reload and is
    not overridden by the system preference, that two toggles from a
    light or dark theme come back to it, and that [initTheme] throws a
    [TypeError] where [window.matchMedia] is missing although it tests for
    it first. *)

From S2P Require Import Prelude Store.
From Stdlib Require Import Ascii String.

(** ** The page *)

(** The two texts of [#theme-toggle]: ['☀️'] and ['🌙']. *)
Inductive Icon := Sun | Moon.

#[export] Instance Icon_eq_dec : EqDecision Icon.
Proof. solve_decision. Defined.

(** localStorage, [data-theme] ([null] before it is set), whether the page
    has [#theme-toggle] and its text and title once set, whether
    [window.matchMedia] exists, whether the system prefers dark, and the
    number of [change] listeners on the colour-scheme media query. *)
Record ThemePage := mkTheme {
  tls : LocalStorage;
  data_theme : option string;
  has_toggle : bool;
  toggle_view : option (Icon * string);
  has_match_media : bool;
  system_dark : bool;
  mq_listeners : nat
}.

Definition set_tls (p : ThemePage) (l : LocalStorage) : ThemePage :=
  mkTheme l (data_theme p) (has_toggle p) (toggle_view p) (has_match_media p) (system_dark p)
          (mq_listeners p).
Definition set_data_theme (p : ThemePage) (t : string) : ThemePage :=
  mkTheme (tls p) (Some t) (has_toggle p) (toggle_view p) (has_match_media p) (system_dark p)
          (mq_listeners p).
Definition set_toggle_view (p : ThemePage) (v : Icon * string) : ThemePage :=
  mkTheme (tls p) (data_theme p) (has_toggle p) (Some v) (has_match_media p) (system_dark p)
          (mq_listeners p).
Definition set_system_dark (p : ThemePage) (b : bool) : ThemePage :=
  mkTheme (tls p) (data_theme p) (has_toggle p) (toggle_view p) (has_match_media p) b
          (mq_listeners p).
Definition add_mq_listener (p : ThemePage) : ThemePage :=
  mkTheme (tls p) (data_theme p) (has_toggle p) (toggle_view p) (has_match_media p) (system_dark p)
          (S (mq_listeners p)).

Abbreviation TH := (jsM ThemePage unit).

(** [document.documentElement.setAttribute('data-theme', t)]. *)
Definition set_theme_attr (t : string) : TH := js_modify (fun p => set_data_theme p t).

(** [localStorage.getItem('theme')]. *)
Definition saved_theme : jsM ThemePage (option string) := p ← js_get; js_ret (get_item (tls p) "theme").

(** The button of a theme: [currentTheme === 'dark' ? '☀️' : '🌙'] and
    [`Switch to ${currentTheme === 'dark' ? 'light' : 'dark'} mode`]. *)
Definition toggle_of (cur : option string) : Icon * string :=
  if bool_decide (cur = Some "dark") then (Sun, "Switch to light mode")
  else (Moon, "Switch to dark mode").

(** [updateThemeToggle]. *)
Definition update_theme_toggle : TH :=
  p ← js_get;
  if has_toggle p then js_put (set_toggle_view p (toggle_of (data_theme p))) else js_ret ().

(** [initTheme]. *)
Definition init_theme : TH :=
  saved ← saved_theme;
  p ← js_get;
  (if negb (js_falsy_opt saved) then set_theme_attr (saved ?? "")
   else if has_match_media p && system_dark p then set_theme_attr "dark"
   else set_theme_attr "light") ;;
  update_theme_toggle ;;
  p' ← js_get;
  if has_match_media p' then js_put (add_mq_listener p')
  else js_throw (TypeError "window.matchMedia is not a function").

(** One run of the [change] listener [initTheme] registers, for an event
    whose [matches] is [m]. *)
Definition on_scheme_change (m : bool) : TH :=
  saved ← saved_theme;
  if js_falsy_opt saved then set_theme_attr (if m then "dark" else "light") ;; update_theme_toggle
  else js_ret ().

(** The system switches its colour scheme: every registered listener runs. *)
Definition scheme_change (m : bool) : TH :=
  p ← js_get;
  js_put (set_system_dark p m) ;;
  Nat.iter (mq_listeners p) (fun k => on_scheme_change m ;; k) (js_ret ()).

(** [toggleTheme], the click listener of [#theme-toggle] (line 252). *)
Definition toggle_theme : TH :=
  p ← js_get;
  let new_theme := if bool_decide (data_theme p = Some "dark") then "light" else "dark" in
  set_theme_attr new_theme ;;
  js_modify (fun p => set_tls p (set_item "theme" new_theme (tls p))) ;;
  update_theme_toggle.

(** What happens to the theme: a click on the button (there is one when
    the page has [#theme-toggle]), or a change of the system scheme. *)
Inductive theme_step : ThemePage -> ThemePage -> Prop :=
| TClick p : has_toggle p = true -> theme_step p (js_exec toggle_theme p)
| TScheme p m : theme_step p (js_exec (scheme_change m) p).

(** A page loads: its theme part is [initTheme] on a document with no
    [data-theme], no button text and no listener yet. *)
Definition theme_boot (l : LocalStorage) (toggle mm dark : bool) : ThemePage :=
  js_exec init_theme (mkTheme l None toggle None mm dark 0).

(** The button shows the icon and title of the current theme. *)
Definition toggle_ok (p : ThemePage) : Prop :=
  has_toggle p = true -> toggle_view p = Some (toggle_of (data_theme p)).

(** ** Lemmas *)

Lemma update_theme_toggle_ret p : fst (update_theme_toggle p) = inl tt.
Proof. unfold update_theme_toggle. js_simpl. by destruct (has_toggle p). Qed.

Lemma update_theme_toggle_run p :
  js_exec update_theme_toggle p =
  if has_toggle p then set_toggle_view p (toggle_of (data_theme p)) else p.
Proof. unfold update_theme_toggle. js_simpl. by destruct (has_toggle p). Qed.

Lemma toggle_ok_update p : toggle_ok (js_exec update_theme_toggle p).
Proof.
  rewrite update_theme_toggle_run. unfold toggle_ok.
  destruct (has_toggle p) eqn:E; simpl; intros; congruence.
Qed.

Lemma on_scheme_change_ret m p : fst (on_scheme_change m p) = inl tt.
Proof.
  unfold on_scheme_change, saved_theme, set_theme_attr. js_simpl.
  destruct (js_falsy_opt _); [apply update_theme_toggle_ret|done].
Qed.

Lemma on_scheme_change_run m p :
  js_exec (on_scheme_change m) p =
  if js_falsy_opt (get_item (tls p) "theme")
  then js_exec update_theme_toggle (set_data_theme p (if m then "dark" else "light")) else p.
Proof.
  unfold on_scheme_change, saved_theme, set_theme_attr. js_simpl.
  by destruct (js_falsy_opt _).
Qed.

Lemma scheme_listeners_ret n m p :
  fst (Nat.iter n (fun k => on_scheme_change m ;; k) (js_ret ()) p) = inl tt.
Proof.
  revert p. induction n as [|n IH]; intros p; [done|].
  rewrite Nat.iter_succ. unfold mbind, jsM_bind, js_bind.
  pose proof (on_scheme_change_ret m p) as Hr.
  destruct (on_scheme_change m p) as [[[]|e] p']; simpl in *; [apply IH|done].
Qed.

Lemma scheme_change_run m p :
  js_exec (scheme_change m) p =
  js_exec (Nat.iter (mq_listeners p) (fun k => on_scheme_change m ;; k) (js_ret ()))
          (set_system_dark p m).
Proof. done. Qed.

(** The listeners of a scheme change, run [n] times from [p]. *)
Lemma scheme_listeners_run n m p :
  js_exec (Nat.iter (S n) (fun k => on_scheme_change m ;; k) (js_ret ())) p =
  js_exec (Nat.iter n (fun k => on_scheme_change m ;; k) (js_ret ()))
          (js_exec (on_scheme_change m) p).
Proof. rewrite Nat.iter_succ. apply js_exec_seq, on_scheme_change_ret. Qed.

Lemma toggle_ok_scheme_listeners n m p :
  toggle_ok p -> toggle_ok (js_exec (Nat.iter n (fun k => on_scheme_change m ;; k) (js_ret ())) p).
Proof.
  revert p. induction n as [|n IH]; intros p Hp; [done|].
  rewrite scheme_listeners_run. apply IH.
  rewrite on_scheme_change_run. destruct (js_falsy_opt _); [apply toggle_ok_update|done].
Qed.

Lemma toggle_theme_run p :
  let t := if bool_decide (data_theme p = Some "dark") then "light" else "dark" in
  js_exec toggle_theme p =
  js_exec update_theme_toggle (set_tls (set_data_theme p t) (set_item "theme" t (tls p))).
Proof. done. Qed.

Lemma get_set_item l k t : get_item (set_item k t l) k = Some t.
Proof. unfold get_item, set_item. by rewrite lookup_insert_eq. Qed.

Lemma update_theme_toggle_fields p :
  let q := js_exec update_theme_toggle p in
  tls q = tls p /\ data_theme q = data_theme p /\ has_toggle q = has_toggle p /\
  has_match_media q = has_match_media p /\ mq_listeners q = mq_listeners p.
Proof. rewrite update_theme_toggle_run. destruct (has_toggle p) eqn:E; by split_and!. Qed.

(** The theme [initTheme] picks. *)
Lemma init_theme_result p :
  let saved := get_item (tls p) "theme" in
  let x := if negb (js_falsy_opt saved) then saved ?? ""
           else if has_match_media p && system_dark p then "dark" else "light" in
  let q := js_exec update_theme_toggle (set_data_theme p x) in
  init_theme p = if has_match_media p then (inl tt, add_mq_listener q)
                 else (inr (TypeError "window.matchMedia is not a function"), q).
Proof.
  intros saved x q. unfold init_theme, saved_theme, set_theme_attr. js_simpl. fold saved.
  replace (if negb (js_falsy_opt saved) then _ else _) with
    (fun p0 : ThemePage => (inl tt, set_data_theme p0 x) : (unit + exn) * ThemePage)
    by (subst x; by repeat case_match).
  simpl. pose proof (update_theme_toggle_ret (set_data_theme p x)) as Hr.
  pose proof (update_theme_toggle_fields (set_data_theme p x)) as (_ & _ & _ & Hm & _).
  unfold q, js_exec in *. destruct (update_theme_toggle _) as [r p'] eqn:E.
  cbn in Hr, Hm. subst r. rewrite Hm. by destruct (has_match_media p).
Qed.

Lemma init_theme_state p :
  let saved := get_item (tls p) "theme" in
  let x := if negb (js_falsy_opt saved) then saved ?? ""
           else if has_match_media p && system_dark p then "dark" else "light" in
  let q := js_exec update_theme_toggle (set_data_theme p x) in
  js_exec init_theme p = if has_match_media p then add_mq_listener q else q.
Proof.
  change (js_exec init_theme p) with (snd (init_theme p)). rewrite init_theme_result.
  by destruct (has_match_media p).
Qed.

Lemma toggle_ok_init_theme p : toggle_ok (js_exec init_theme p).
Proof.
  rewrite init_theme_state. pose proof (toggle_ok_update (set_data_theme p
    (if negb (js_falsy_opt (get_item (tls p) "theme")) then get_item (tls p) "theme" ?? ""
     else if has_match_media p && system_dark p then "dark" else "light"))) as H.
  by destruct (has_match_media p).
Qed.

Lemma toggle_ok_step p p' : theme_step p p' -> toggle_ok p -> toggle_ok p'.
Proof.
  intros [q _|q m] Hq.
  - rewrite toggle_theme_run. apply toggle_ok_update.
  - rewrite scheme_change_run. by apply toggle_ok_scheme_listeners.
Qed.

Lemma toggle_ok_rtc p p' : rtc theme_step p p' -> toggle_ok p -> toggle_ok p'.
Proof. induction 1; eauto using toggle_ok_step. Qed.

(** The listeners of a scheme change when no theme is saved: each sets
    the scheme's theme; with a saved theme they do nothing. *)
Lemma scheme_listeners_theme n m p :
  let q := js_exec (Nat.iter n (fun k => on_scheme_change m ;; k) (js_ret ())) p in
  tls q = tls p /\
  (js_falsy_opt (get_item (tls p) "theme") = false -> q = p) /\
  (js_falsy_opt (get_item (tls p) "theme") = true -> 0 < n ->
     data_theme q = Some (if m then "dark" else "light")).
Proof.
  revert p. induction n as [|n IH]; intros p q; [split_and!; done || lia|].
  subst q. rewrite scheme_listeners_run, on_scheme_change_run.
  destruct (js_falsy_opt _) eqn:Hs.
  - pose proof (update_theme_toggle_fields (set_data_theme p (if m then "dark" else "light")))
      as (Ht & Hd & _).
    destruct (IH (js_exec update_theme_toggle (set_data_theme p (if m then "dark" else "light"))))
      as (Ht' & _ & Hd'). simpl in Ht. rewrite Ht in Ht', Hd'.
    split_and!; [congruence|done|]. intros _ _.
    destruct n as [|n]; [done|]. apply Hd'; [done|lia].
  - destruct (IH p) as (Ht & Hn & _). split_and!; [done|auto|done].
Qed.


(** ** Theorems *)

(** On every page reachable from a load by clicks on the theme button
    and changes of the system scheme, the button (when the page has one)
    shows the icon and title of the current [data-theme]: a sun and
    "Switch to light mode" on the dark theme, a moon and "Switch to dark
    mode" otherwise. *)
Theorem theme_toggle_consistent l t mm d p :
  rtc theme_step (theme_boot l t mm d) p ->
  has_toggle p = true -> toggle_view p = Some (toggle_of (data_theme p)).
Proof.
  intros Hr. change (toggle_ok p). eapply toggle_ok_rtc; [exact Hr|apply toggle_ok_init_theme].
Qed.

(** A theme picked with the button survives a reload: the next load
    on the same localStorage starts with that theme, whatever the system
    prefers and whether [matchMedia] exists. *)
Theorem toggle_survives_reload p t mm d :
  let p' := js_exec toggle_theme p in
  data_theme (theme_boot (tls p') t mm d) = data_theme p'.
Proof.
  intros p'. subst p'. rewrite toggle_theme_run.
  set (x := if bool_decide (data_theme p = Some "dark") then "light" else "dark").
  pose proof (update_theme_toggle_fields (set_tls (set_data_theme p x) (set_item "theme" x (tls p))))
    as (Ht & Hd & _). rewrite Ht, Hd. simpl.
  unfold theme_boot. rewrite init_theme_state. cbn [tls]. rewrite get_set_item.
  assert (Hx : js_falsy_opt (Some x) = false) by (subst x; by case_bool_decide).
  rewrite Hx. simpl.
  pose proof (update_theme_toggle_fields (set_data_theme (mkTheme (set_item "theme" x (tls p))
    None t None mm d 0) x)) as (_ & Hd' & _).
  by destruct mm.
Qed.

(** A saved choice beats the system: when localStorage holds a theme,
    a change of the system scheme changes nothing on the page but the
    recorded preference; when it holds none, the page (with the listener
    registered) takes the scheme's theme. *)
Theorem scheme_change_respects_choice p m :
  (js_falsy_opt (get_item (tls p) "theme") = false ->
     js_exec (scheme_change m) p = set_system_dark p m) /\
  (js_falsy_opt (get_item (tls p) "theme") = true -> 0 < mq_listeners p ->
     data_theme (js_exec (scheme_change m) p) = Some (if m then "dark" else "light")).
Proof.
  rewrite scheme_change_run.
  destruct (scheme_listeners_theme (mq_listeners p) m (set_system_dark p m)) as (_ & Hn & Hd).
  split; [apply Hn|apply Hd].
Qed.

(** The button flips the theme: from the dark theme to light and from
    anything else (light, none, or a foreign saved value) to dark, saving
    the new theme; two clicks from the light or dark theme bring back the
    theme and leave it saved. *)
Theorem toggle_twice p :
  data_theme (js_exec toggle_theme p) =
    Some (if bool_decide (data_theme p = Some "dark") then "light" else "dark") /\
  get_item (tls (js_exec toggle_theme p)) "theme" = data_theme (js_exec toggle_theme p) /\
  (data_theme p = Some "dark" \/ data_theme p = Some "light" ->
     data_theme (js_exec toggle_theme (js_exec toggle_theme p)) = data_theme p).
Proof.
  assert (Hrun : forall q, data_theme (js_exec toggle_theme q) =
            Some (if bool_decide (data_theme q = Some "dark") then "light" else "dark") /\
          get_item (tls (js_exec toggle_theme q)) "theme" = data_theme (js_exec toggle_theme q)).
  { intros q. rewrite toggle_theme_run.
    pose proof (update_theme_toggle_fields (set_tls (set_data_theme q
      (if bool_decide (data_theme q = Some "dark") then "light" else "dark"))
      (set_item "theme" (if bool_decide (data_theme q = Some "dark") then "light" else "dark")
         (tls q)))) as (Ht & Hd & _).
    rewrite Ht, Hd. split; [done|]. simpl. apply get_set_item. }
  destruct (Hrun p) as [H1 H2]. split_and!; [done|done|].
  intros Hp. destruct (Hrun (js_exec toggle_theme p)) as [H3 _]. rewrite H3, H1.
  destruct Hp as [-> | ->]; done.
Qed.

(** C40: [initTheme] tests [window.matchMedia] before reading the system
    preference, but registers its listener through [window.matchMedia]
    unconditionally: where it is missing, [initTheme] sets the saved theme
    or the light one, updates the button, and then throws a [TypeError]. *)
Theorem init_theme_without_match_media p :
  has_match_media p = false ->
  let saved := get_item (tls p) "theme" in
  fst (init_theme p) = inr (TypeError "window.matchMedia is not a function") /\
  data_theme (js_exec init_theme p) =
    Some (if js_falsy_opt saved then "light" else saved ?? "") /\
  mq_listeners (js_exec init_theme p) = mq_listeners p.
Proof.
  intros Hm saved. rewrite init_theme_result, Hm.
  change (js_exec init_theme p) with (snd (init_theme p)). rewrite init_theme_result, Hm. simpl.
  match goal with |- context [js_exec update_theme_toggle ?q] =>
    pose proof (update_theme_toggle_fields q) as (_ & Hd & _ & _ & Hl) end.
  rewrite Hd, Hl. simpl. fold saved. split_and!; [done| |done].
  by destruct (js_falsy_opt saved).
Qed.

(** ** Witnesses *)

Lemma theme_toggle_consistent_witness :
  let p0 := theme_boot ∅ true true false in
  let p := js_exec toggle_theme p0 in
  rtc theme_step p0 p /\ has_toggle p = true /\
  toggle_view p = Some (Sun, "Switch to light mode").
Proof.
  intros p0 p.
  assert (H1 : rtc theme_step p0 p) by (apply rtc_once, TClick; reflexivity).
  assert (H2 : has_toggle p = true) by reflexivity.
  split; [exact H1|]. split; [exact H2|].
  rewrite (theme_toggle_consistent ∅ true true false p H1 H2). reflexivity.
Defined.

Lemma scheme_change_respects_choice_witness :
  let p := mkTheme (set_item "theme" "dark" ∅) (Some "dark") true None true true 1 in
  js_falsy_opt (get_item (tls p) "theme") = false /\
  js_exec (scheme_change false) p = set_system_dark p false.
Proof.
  intros p. assert (H : js_falsy_opt (get_item (tls p) "theme") = false) by reflexivity.
  split; [exact H|]. exact (proj1 (scheme_change_respects_choice p false) H).
Defined.

Lemma toggle_twice_witness :
  let p := mkTheme ∅ (Some "light") true None true false 1 in
  (data_theme p = Some "dark" \/ data_theme p = Some "light") /\
  data_theme (js_exec toggle_theme (js_exec toggle_theme p)) = Some "light".
Proof.
  intros p. assert (H : data_theme p = Some "dark" \/ data_theme p = Some "light") by (right; reflexivity).
  split; [exact H|]. exact (proj2 (proj2 (toggle_twice p)) H).
Defined.

Lemma init_theme_without_match_media_witness :
  let p := mkTheme ∅ None true None false true 0 in
  has_match_media p = false /\ data_theme (js_exec init_theme p) = Some "light".
Proof.
  intros p. assert (H : has_match_media p = false) by reflexivity.
  split; [exact H|]. exact (proj1 (proj2 (init_theme_without_match_media p H))).
Defined.
