(* ===== verification/Boot.v ===== *)
(** * Boot: the whole page, and the order in which the script sets it up

    The quiz (App), the auth handlers (Auth) and the theme (Theme) act on
    one document and one localStorage.  This file puts them on one page
    record and runs each component's handlers on its view of the page
    through a lens: the auth handlers see the page's localStorage and its
    visible screens, the theme handlers see the same localStorage, the quiz
    handlers see the quiz part and the visible screens.  A [Lens] is a
    record of [get] and [put] with the three lens laws; [lift] runs a
    handler of a component on the page and is a monad morphism.

    The listener table is state of the page, filled as the script runs:
    the top-level registrations (lines 164-309, 254, 312), the session
    check of lines 313-315, and then the [DOMContentLoaded] listener
    (lines 257-272), which calls [initTheme] first.  An exception in
    [initTheme] ends that listener, so the registrations after it are not
    made.  The theorems show that the boot builds exactly the static
    tables of App.v and Auth.v when [matchMedia] exists, and a single copy
    of each otherwise; and that the theme's events and the auth handlers do
    not interfere through the storage they share. *)

From S2P Require Import Prelude Sampler Session Review View App Base64 Store Forms Auth Theme.
From Stdlib Require Import Ascii String.

(** ** Lenses *)

(** A view [S] of a state [P], with the laws a well-behaved lens has. *)
Record Lens (P S : Type) := {
  lget : P -> S;
  lput : P -> S -> P;
  lget_put p s : lget (lput p s) = s;
  lput_get p : lput p (lget p) = p;
  lput_put p s t : lput (lput p s) t = lput p t
}.
Arguments lget {P S} _ _.
Arguments lput {P S} _ _ _.
Arguments lget_put {P S} _ _ _.
Arguments lput_get {P S} _ _.
Arguments lput_put {P S} _ _ _ _.

(** Run a handler of a component on its view of the state. *)
Definition lift {P S A} (L : Lens P S) (h : jsM S A) : jsM P A :=
  fun p => let '(r, s) := h (lget L p) in (r, lput L p s).

(** ** The page *)

(** What the listener table holds: a quiz listener on an element, a
    listener of [initAuth], or [toggleTheme] on [#theme-toggle]. *)
Inductive Reg := RApp (sel : Selector) (l : Listener) | RAuth (l : AuthListener) | RThemeToggle.

Record Page := mkPage {
  pg_app : App;                     (** the quiz part and the visible screens *)
  pg_ls : LocalStorage;
  pg_welcome : string;
  pg_alerts : list string;
  pg_tab : string;
  pg_forms : Forms;                 (** the inputs of the auth forms *)
  pg_theme : option string;         (** [data-theme] *)
  pg_has_toggle : bool;
  pg_toggle_view : option (Icon * string);
  pg_mm : bool;                     (** [window.matchMedia] exists *)
  pg_dark : bool;
  pg_mq : nat;
  pg_regs : list Reg                (** the listener table, in registration order *)
}.

Definition set_pg_app (p : Page) (a : App) : Page :=
  mkPage a (pg_ls p) (pg_welcome p) (pg_alerts p) (pg_tab p) (pg_forms p) (pg_theme p) (pg_has_toggle p)
         (pg_toggle_view p) (pg_mm p) (pg_dark p) (pg_mq p) (pg_regs p).

Definition set_pg_auth (p : Page) (a : AuthPage) : Page :=
  mkPage (set_visible (pg_app p) (ap_visible a)) (ls a) (welcome a) (alerts a) (tab a) (forms a)
         (pg_theme p) (pg_has_toggle p) (pg_toggle_view p) (pg_mm p) (pg_dark p) (pg_mq p) (pg_regs p).

Definition set_pg_theme (p : Page) (t : ThemePage) : Page :=
  mkPage (pg_app p) (tls t) (pg_welcome p) (pg_alerts p) (pg_tab p) (pg_forms p) (data_theme t) (has_toggle t)
         (toggle_view t) (has_match_media t) (system_dark t) (mq_listeners t) (pg_regs p).

Definition set_pg_regs (p : Page) (r : list Reg) : Page :=
  mkPage (pg_app p) (pg_ls p) (pg_welcome p) (pg_alerts p) (pg_tab p) (pg_forms p) (pg_theme p)
         (pg_has_toggle p) (pg_toggle_view p) (pg_mm p) (pg_dark p) (pg_mq p) r.

(** The auth handlers' view: localStorage, the screens, [#welcome], the
    alerts, the tab and the forms' inputs. *)
Definition auth_view (p : Page) : AuthPage :=
  mkAuth (pg_ls p) (visible (pg_app p)) (pg_welcome p) (pg_alerts p) (pg_tab p) (pg_forms p).

(** The theme handlers' view: localStorage and the theme's parts. *)
Definition theme_view (p : Page) : ThemePage :=
  mkTheme (pg_ls p) (pg_theme p) (pg_has_toggle p) (pg_toggle_view p) (pg_mm p) (pg_dark p) (pg_mq p).

Definition app_lens : Lens Page App.
Proof.
  refine {| lget := pg_app; lput := set_pg_app |}.
  - reflexivity.
  - intros []; reflexivity.
  - reflexivity.
Defined.

Definition auth_lens : Lens Page AuthPage.
Proof.
  refine {| lget := auth_view; lput := set_pg_auth |}.
  - intros p [] ; reflexivity.
  - intros [[] ? ? ? ? ? ? ? ? ? ? ? ?]; reflexivity.
  - intros [[] ? ? ? ? ? ? ? ? ? ? ? ?] s t; reflexivity.
Defined.

Definition theme_lens : Lens Page ThemePage.
Proof.
  refine {| lget := theme_view; lput := set_pg_theme |}.
  - intros p []; reflexivity.
  - intros []; reflexivity.
  - intros p s t; reflexivity.
Defined.

(** ** Registrations, events and the boot *)

Definition register (rs : list Reg) : jsM Page unit :=
  js_modify (fun p => set_pg_regs p (pg_regs p ++ rs)).

(** The quiz listeners of a table, and those of [initAuth]. *)
Definition app_regs (rs : list Reg) : list (Selector * Listener) :=
  omap (fun r => match r with RApp s l => Some (s, l) | _ => None end) rs.
Definition auth_regs (rs : list Reg) : list AuthListener :=
  omap (fun r => match r with RAuth l => Some l | _ => None end) rs.

(** The script's top level: the quiz listeners (lines 164-172), the theme
    button (line 254, when the page has it), the other quiz listeners
    (lines 275-309), [initAuth()] (line 312) and the session check (lines
    313-315). *)
Definition script_toplevel : jsM Page unit :=
  register (uncurry RApp <$> take 3 toplevel_listeners) ;;
  p ← js_get;
  (if pg_has_toggle p then register [RThemeToggle] else js_ret ()) ;;
  register (uncurry RApp <$> drop 3 toplevel_listeners) ;;
  register (RAuth <$> init_auth) ;;
  s ← lift auth_lens (ls_get "session" JNull);
  if json_falsy s then js_ret () else lift auth_lens on_login.

(** The [DOMContentLoaded] listener (lines 257-272). *)
Definition dom_content_loaded : jsM Page unit :=
  lift theme_lens init_theme ;;
  register (RAuth <$> init_auth) ;;
  register (uncurry RApp <$> domcontentloaded_listeners) ;;
  s ← lift auth_lens (ls_get "session" JNull);
  if json_falsy s
  then lift auth_lens (auth_hide Dashboard ;; auth_hide Topbar ;; auth_show AuthScreen)
  else js_ret ().

(** Loading the page: the script, then the [DOMContentLoaded] event. *)
Definition page_boot (p : Page) : Page := js_exec dom_content_loaded (js_exec script_toplevel p).

(** What happens on the page after the boot. *)
Inductive Event :=
| EClick (t : Target)
| EAuth (ev : AuthEvent)
| EThemeClick
| ESchemeChange (m : bool)
| ELoad (n : nat) (res : option (list Question)).

(** One registered listener on an event, if it listens to it.  The logout
    button's listener is [logout] (line 304), with its storage part. *)
Definition run_reg (ev : Event) (r : Reg) : jsM Page unit :=
  match ev, r with
  | EClick t, RApp sel l =>
      if bool_decide (selector_of t = Some sel) then
        match l with
        | LLogout => lift auth_lens logout
        | _ => lift app_lens (run_listener t l)
        end
      else js_ret ()
  | EAuth ev, RAuth l => lift auth_lens (run_auth_listener ev l)
  | EThemeClick, RThemeToggle => lift theme_lens toggle_theme
  | _, _ => js_ret ()
  end.

(** An event: the listeners of the table in order, an exception in one not
    stopping the next; option buttons, the media query and fetches carry
    their own handlers. *)
Definition page_event (ev : Event) (p : Page) : Page :=
  match ev with
  | EClick (TOption k) => js_exec (lift app_lens (on_option k)) p
  | EAuth (Input f v) => js_exec (lift auth_lens (type_input f v)) p
  | ESchemeChange m => js_exec (lift theme_lens (scheme_change m)) p
  | ELoad n res => js_exec (lift app_lens (load_finish n res)) p
  | _ => foldl (fun p r => js_exec (run_reg ev r) p) p (pg_regs p)
  end.

(** The quiz listeners a click on [t] runs, in a table of quiz
    registrations ([listeners_of] of App.v is this on [boot_listeners]). *)
Definition listeners_in (t : Target) (rs : list (Selector * Listener)) : list Listener :=
  match selector_of t with
  | Some sel => snd <$> filter (fun r => r.1 = sel) rs
  | None => []
  end.

(** ** Steps, invariants and frames *)

(** The page's events after the boot, in any order. *)
Inductive page_step : Page -> Page -> Prop :=
| PStep ev p : page_step p (page_event ev p).

(** The invariant of the composed page: the quiz index is in range and the
    theme button shows the current theme. *)
Definition page_ok (p : Page) : Prop := index_ok (quiz (pg_app p)) /\ toggle_ok (theme_view p).

(** An auth computation that leaves the localStorage key [k] as it is. *)
Definition auth_keeps {A} (k : string) (m : jsM AuthPage A) : Prop :=
  forall a, ls (snd (m a)) !! k = ls a !! k.

Create HintDb frame.

(** What an auth event may not change: the theme, the theme's key of
    localStorage, the quiz state and the listener table. *)
Definition theme_frame (p p' : Page) : Prop :=
  pg_ls p' !! "theme" = pg_ls p !! "theme" /\ pg_theme p' = pg_theme p /\
  pg_toggle_view p' = pg_toggle_view p /\ quiz (pg_app p') = quiz (pg_app p) /\ pg_regs p' = pg_regs p.

(** What a theme event may not change: the quiz part and the screens, the
    auth texts, the listener table and every other key of localStorage. *)
Definition auth_frame (p p' : Page) : Prop :=
  pg_app p' = pg_app p /\ pg_welcome p' = pg_welcome p /\ pg_alerts p' = pg_alerts p /\
  pg_tab p' = pg_tab p /\ pg_forms p' = pg_forms p /\ pg_regs p' = pg_regs p /\
  (forall k, k <> "theme" -> pg_ls p' !! k = pg_ls p !! k).

(** A step within the invariant, as a preorder for [foldl_preorder]. *)
Definition keeps_ok (p p' : Page) : Prop := page_ok p -> page_ok p'.

(** ** Lemmas: the lift *)

Section lift.
Context {P S : Type} (L : Lens P S).

Lemma js_exec_lift {A} (h : jsM S A) p : js_exec (lift L h) p = lput L p (js_exec h (lget L p)).
Proof. unfold lift, js_exec. by destruct (h (lget L p)). Qed.

Lemma lift_result {A} (h : jsM S A) p : fst (lift L h p) = fst (h (lget L p)).
Proof. unfold lift. by destruct (h (lget L p)). Qed.

(** [lift] is a monad morphism: lifting a sequence is sequencing the
    lifted steps (by [lget_put] and [lput_put]). *)
Lemma lift_bind {A B} (m : jsM S A) (f : A -> jsM S B) p :
  lift L (m ≫= f) p = (lift L m ≫= (fun x => lift L (f x))) p.
Proof.
  unfold lift, mbind, jsM_bind, js_bind.
  destruct (m (lget L p)) as [[x|e] s]; simpl; [|done].
  rewrite lget_put. destruct (f x s) as [r s']. by rewrite lput_put.
Qed.

Lemma lift_ret {A} (x : A) p : lift L (js_ret x) p = js_ret x p.
Proof. unfold lift, js_ret. by rewrite lput_get. Qed.

End lift.

(** ** Lemmas: what the handlers leave alone *)

Section auth_frame.
Context (k : string).

Lemma keeps_ret {A} (x : A) : auth_keeps k (js_ret x).
Proof. done. Qed.

Lemma keeps_bind {A B} (m : jsM AuthPage A) (f : A -> jsM AuthPage B) :
  auth_keeps k m -> (forall x, auth_keeps k (f x)) -> auth_keeps k (m ≫= f).
Proof.
  intros Hm Hf a. unfold mbind, jsM_bind, js_bind. specialize (Hm a).
  destruct (m a) as [[x|e] a']; simpl in *; [by rewrite Hf|done].
Qed.

Lemma keeps_if {A} (b : bool) (m1 m2 : jsM AuthPage A) :
  auth_keeps k m1 -> auth_keeps k m2 -> auth_keeps k (if b then m1 else m2).
Proof. by destruct b. Qed.

Lemma keeps_get : auth_keeps k js_get.
Proof. done. Qed.

Lemma keeps_ls_get key def : auth_keeps k (ls_get key def).
Proof. done. Qed.

Lemma keeps_ls_set key v : key <> k -> auth_keeps k (ls_set key v).
Proof. intros Hk a. simpl. unfold store_set. by rewrite lookup_insert_ne. Qed.

Lemma keeps_ls_del key : key <> k -> auth_keeps k (ls_del key).
Proof. intros Hk a. simpl. unfold store_del. by rewrite lookup_delete_ne. Qed.

Lemma keeps_modify_same (f : AuthPage -> AuthPage) :
  (forall a, ls (f a) = ls a) -> auth_keeps k (js_modify f).
Proof. intros Hf a. simpl. by rewrite Hf. Qed.

End auth_frame.

#[export] Hint Resolve keeps_ret keeps_bind keeps_if keeps_get keeps_ls_get keeps_ls_set keeps_ls_del
  keeps_modify_same : frame.

(** The auth handlers write the keys ["users"] and ["session"] only. *)
Lemma auth_handlers_keep_theme :
  auth_keeps "theme" on_login /\ auth_keeps "theme" signup_listener /\
  auth_keeps "theme" login_listener /\ auth_keeps "theme" logout /\
  (forall t, auth_keeps "theme" (switch_auth_tab t)) /\
  (forall f v, auth_keeps "theme" (type_input f v)).
Proof.
  assert (Ho : auth_keeps "theme" on_login).
  { unfold on_login, auth_hide, auth_show. eauto 20 with frame. }
  assert (Hs : forall n e p, auth_keeps "theme" (signup n e p)).
  { intros. unfold signup, alert. eauto 30 with frame. }
  assert (Hl : forall e p, auth_keeps "theme" (login e p)).
  { intros. unfold login, alert. eauto 30 with frame. }
  split_and!; [done| | | | |]; intros;
    unfold signup_listener, login_listener, logout, auth_hide, auth_show, switch_auth_tab, type_input;
    eauto 40 with frame.
Qed.

#[export] Instance theme_frame_preorder : PreOrder theme_frame.
Proof.
  split; [intros p; by split_and!|].
  intros p1 p2 p3 (H1 & H2 & H3 & H4 & H5) (G1 & G2 & G3 & G4 & G5). split_and!; congruence.
Qed.

#[export] Instance auth_frame_preorder : PreOrder auth_frame.
Proof.
  split; [intros p; by split_and!|].
  intros p1 p2 p3 (H1 & H2 & H3 & H4 & H5 & H6 & H7) (G1 & G2 & G3 & G4 & G5 & G6 & G7).
  split_and!; try congruence. intros k Hk. by rewrite G7, H7.
Qed.

Lemma auth_lift_frame (h : jsM AuthPage unit) p :
  auth_keeps "theme" h -> theme_frame p (js_exec (lift auth_lens h) p).
Proof. intros Hk. rewrite js_exec_lift. unfold theme_frame. simpl. split_and!; try done. apply Hk. Qed.

Lemma auth_listener_frame ev l p :
  theme_frame p (js_exec (lift auth_lens (run_auth_listener ev l)) p).
Proof.
  apply auth_lift_frame. destruct auth_handlers_keep_theme as (Ho & Hs & Hl & Hout & Ht & Hty).
  destruct l, ev; cbn [run_auth_listener]; auto using keeps_ret.
Qed.

Lemma typing_frame f v p : theme_frame p (js_exec (lift auth_lens (type_input f v)) p).
Proof. apply auth_lift_frame. apply auth_handlers_keep_theme. Qed.

Lemma toggle_theme_frame p : auth_frame p (js_exec (lift theme_lens toggle_theme) p).
Proof.
  rewrite js_exec_lift. simpl. rewrite toggle_theme_run.
  match goal with |- context [js_exec update_theme_toggle ?t] =>
    destruct (update_theme_toggle_fields t) as (Ht & _) end.
  unfold auth_frame. cbn [set_pg_theme pg_app pg_welcome pg_alerts pg_tab pg_regs pg_ls].
  split_and!; try done. intros k Hk. rewrite Ht. simpl.
  unfold set_item. by rewrite lookup_insert_ne by congruence.
Qed.

Lemma scheme_change_frame m p : auth_frame p (js_exec (lift theme_lens (scheme_change m)) p).
Proof.
  rewrite js_exec_lift. simpl. rewrite scheme_change_run.
  match goal with |- context [js_exec (Nat.iter ?n ?f ?x) ?t] =>
    destruct (scheme_listeners_theme n m t) as (Ht & _) end.
  unfold auth_frame. cbn [set_pg_theme pg_app pg_welcome pg_alerts pg_tab pg_regs pg_ls].
  split_and!; try done. intros k Hk. by rewrite Ht.
Qed.

(** ** Lemmas: the boot *)

Lemma script_toplevel_regs p :
  pg_regs (js_exec script_toplevel p) =
    pg_regs p ++ (uncurry RApp <$> take 3 toplevel_listeners) ++
    (if pg_has_toggle p then [RThemeToggle] else []) ++
    (uncurry RApp <$> drop 3 toplevel_listeners) ++ (RAuth <$> init_auth) /\
  pg_mm (js_exec script_toplevel p) = pg_mm p.
Proof.
  unfold script_toplevel, register, lift, ls_get. js_simpl.
  destruct (pg_has_toggle p); simpl;
    (destruct (json_falsy _); [|destruct (on_login _)]); simpl; by rewrite <-?app_assoc.
Qed.

Lemma dom_content_loaded_regs q :
  pg_regs (js_exec dom_content_loaded q) =
    pg_regs q ++ (if pg_mm q then (RAuth <$> init_auth) ++ (uncurry RApp <$> domcontentloaded_listeners)
                  else []).
Proof.
  unfold dom_content_loaded, register, lift, ls_get. js_simpl.
  rewrite init_theme_result. cbn [has_match_media theme_view].
  destruct (pg_mm q); simpl; [|by rewrite app_nil_r].
  destruct (json_falsy _); simpl; by rewrite <-?app_assoc.
Qed.

(** ** Lemmas: the invariant of the composed page *)

Lemma run_listener_index_ok t l a :
  index_ok (quiz a) -> index_ok (quiz (js_exec (run_listener t l) a)).
Proof.
  intros Hi. destruct l; simpl; try done.
  - unfold js_exec. rewrite on_prev_quiz. by apply move_prev_index_ok.
  - unfold js_exec. rewrite on_next_quiz. by apply move_next_index_ok.
  - destruct t; unfold js_exec; rewrite on_submit_quiz; by case_match.
  - destruct t; done.
  - by right.
Qed.

#[export] Instance keeps_ok_preorder : PreOrder keeps_ok.
Proof. split; [intros p H; exact H|]. intros p1 p2 p3 H1 H2 H. by apply H2, H1. Qed.

Lemma keeps_ok_app (h : jsM App unit) p :
  (forall a, index_ok (quiz a) -> index_ok (quiz (js_exec h a))) ->
  keeps_ok p (js_exec (lift app_lens h) p).
Proof. intros Hh [Hi Ht]. rewrite js_exec_lift. split; [by apply Hh|done]. Qed.

Lemma keeps_ok_auth (h : jsM AuthPage unit) p : keeps_ok p (js_exec (lift auth_lens h) p).
Proof.
  intros [Hi Ht]. rewrite js_exec_lift. simpl. unfold set_pg_auth. split.
  - cbn [pg_app]. by destruct (pg_app p).
  - exact Ht.
Qed.

Lemma keeps_ok_theme (h : jsM ThemePage unit) p :
  (forall t, toggle_ok t -> toggle_ok (js_exec h t)) -> keeps_ok p (js_exec (lift theme_lens h) p).
Proof.
  intros Hh [Hi Ht]. rewrite js_exec_lift. split; [done|].
  change (toggle_ok (lget theme_lens (lput theme_lens p (js_exec h (lget theme_lens p))))).
  rewrite lget_put. by apply Hh.
Qed.

Lemma page_step_ok p p' : page_step p p' -> page_ok p -> page_ok p'.
Proof.
  intros [ev q]. change (keeps_ok q (page_event ev q)).
  destruct ev as [t|e| |m|n res].
  - destruct t; try (apply keeps_ok_app; intros a; unfold js_exec; rewrite on_option_quiz;
      by apply (click_effect_index_ok (TOption k))).
    all: unfold page_event; apply foldl_preorder; [apply _|]; intros q' [sel l|l|]; simpl;
      try reflexivity; case_bool_decide; try reflexivity;
      destruct l; (apply keeps_ok_auth || apply keeps_ok_app; intros; by apply run_listener_index_ok).
  - destruct e; [apply keeps_ok_auth|..];
      unfold page_event; apply foldl_preorder; (try apply _); intros q' [sel l|l|]; simpl;
      (reflexivity || apply keeps_ok_auth).
  - unfold page_event. apply foldl_preorder; [apply _|]. intros q' [sel l| |]; simpl; [reflexivity..|].
    apply keeps_ok_theme. intros t Ht. rewrite toggle_theme_run. apply toggle_ok_update.
  - apply keeps_ok_theme. intros t Ht. exact (toggle_ok_step t _ (TScheme t m) Ht).
  - apply keeps_ok_app. intros a Ha. rewrite load_finish_quiz.
    destruct (pending a !! n), res; try done. apply begin_quiz_wf.
Qed.

Lemma boot_quiz p : quiz (pg_app (page_boot p)) = quiz (pg_app p).
Proof.
  unfold page_boot, script_toplevel, dom_content_loaded, register, lift, ls_get. js_simpl.
  rewrite !init_theme_result. repeat (case_match; simplify_eq; simpl); by destruct (pg_app p).
Qed.

Lemma boot_toggle_ok q : toggle_ok (theme_view (js_exec dom_content_loaded q)).
Proof.
  pose proof (toggle_ok_init_theme (theme_view q)) as H.
  unfold dom_content_loaded, register, lift, ls_get. js_simpl.
  change (snd (init_theme (theme_view q))) with (js_exec init_theme (theme_view q)) in H.
  rewrite init_theme_result. rewrite init_theme_state in H.
  destruct (has_match_media (theme_view q)); simpl; [destruct (json_falsy _)|]; simpl; exact H.
Qed.

(** ** Lemmas: the listener table and the clicks *)

Lemma boot_regs p :
  pg_regs (page_boot p) =
    pg_regs p ++ (uncurry RApp <$> take 3 toplevel_listeners) ++
    (if pg_has_toggle p then [RThemeToggle] else []) ++
    (uncurry RApp <$> drop 3 toplevel_listeners) ++ (RAuth <$> init_auth) ++
    (if pg_mm p then (RAuth <$> init_auth) ++ (uncurry RApp <$> domcontentloaded_listeners) else []).
Proof.
  unfold page_boot. rewrite dom_content_loaded_regs.
  destruct (script_toplevel_regs p) as [Hr Hm]. rewrite Hr, Hm. by rewrite <-!app_assoc.
Qed.

Lemma lift_regs {S} (L : Lens Page S) (h : jsM S unit) p :
  (forall p s, pg_regs (lput L p s) = pg_regs p) -> pg_regs (js_exec (lift L h) p) = pg_regs p.
Proof. intros HL. rewrite js_exec_lift. apply HL. Qed.

(** No event changes the listener table. *)
Lemma page_event_regs ev p : pg_regs (page_event ev p) = pg_regs p.
Proof.
  assert (Hr : forall r q, pg_regs (js_exec (run_reg ev r) q) = pg_regs q).
  { intros r q. destruct ev, r; simpl; try case_bool_decide; try case_match; try done;
      apply lift_regs; done. }
  destruct ev as [[]|[]| | |]; cbn [page_event]; try (apply lift_regs; done);
    (generalize (pg_regs p) at 1; intros rs; revert p; induction rs as [|r rs IH]; intros q;
     [done|simpl; rewrite IH; apply Hr]).
Qed.

Lemma reachable_regs p0 p : rtc page_step p0 p -> pg_regs p = pg_regs p0.
Proof. induction 1 as [|x y z [ev q] _ IH]; [done|]. by rewrite IH, page_event_regs. Qed.

(** The quiz part of the table after a boot on an empty table. *)
Lemma boot_app_regs p0 :
  pg_regs p0 = [] ->
  app_regs (pg_regs (page_boot p0)) = (if pg_mm p0 then boot_listeners else toplevel_listeners).
Proof. intros Hp. rewrite boot_regs, Hp. by destruct (pg_mm p0), (pg_has_toggle p0). Qed.

(** A click on the page runs, on its quiz part, the quiz listeners of the
    table that listen to the target, in order. *)
Lemma page_click_app t p rs :
  (forall k, t <> TOption k) ->
  pg_app (foldl (fun q r => js_exec (run_reg (EClick t) r) q) p rs) =
  foldl (fun a l => js_exec (run_listener t l) a) (pg_app p) (listeners_in t (app_regs rs)).
Proof.
  intros Ht. revert p. induction rs as [|r rs IH]; intros p.
  { unfold listeners_in. by destruct (selector_of t). }
  simpl. rewrite IH. unfold listeners_in, app_regs. simpl.
  destruct r as [sel l| |]; simpl; [|done..].
  destruct (selector_of t) as [sel'|] eqn:Es.
  - rewrite filter_cons. case_bool_decide as Hs; simpl.
    + case_decide; [|congruence]. simpl. f_equal.
      destruct l; rewrite js_exec_lift; done.
    + case_decide; [congruence|]. done.
  - done.
Qed.

(** ** Theorems *)


(** C39: the boot builds the listener tables App.v and Auth.v assume only
    when [window.matchMedia] exists: the quiz listeners are then the top
    level's and the [DOMContentLoaded] listener's ([boot_listeners], with
    the category buttons twice) and [initAuth]'s are registered twice
    ([auth_registrations]).  Without [matchMedia], [initTheme] throws
    first thing in the [DOMContentLoaded] listener, so each is registered
    once: the page's own crash is what undoes the double registrations. *)
Theorem boot_registrations p0 :
  pg_regs p0 = [] ->
  app_regs (pg_regs (page_boot p0)) = (if pg_mm p0 then boot_listeners else toplevel_listeners) /\
  auth_regs (pg_regs (page_boot p0)) = (if pg_mm p0 then auth_registrations else init_auth).
Proof.
  intros Hp. unfold page_boot. rewrite dom_content_loaded_regs.
  destruct (script_toplevel_regs p0) as [Hr Hm]. rewrite Hr, Hm, Hp.
  by destruct (pg_mm p0), (pg_has_toggle p0).
Qed.

(** C36: the page refines App.v's dispatch: on every page reachable from
    the boot of a page with [window.matchMedia], a click on a target that
    is not an option button does to the quiz part exactly what [dispatch]
    does to an [App], the listeners being those of [boot_listeners] in the
    order the script registers them.  Without [matchMedia] the
    [DOMContentLoaded] listener is never registered, and a category click
    starts one load only, where the booted table of App.v starts two. *)
Theorem booted_click_refines_dispatch p0 p :
  pg_regs p0 = [] -> rtc page_step (page_boot p0) p ->
  (pg_mm p0 = true -> forall t, (forall k, t <> TOption k) ->
     pg_app (page_event (EClick t) p) = dispatch t (pg_app p)) /\
  (pg_mm p0 = false -> forall k,
     pg_app (page_event (EClick (TCategory k)) p) = js_exec (load_start k) (pg_app p)).
Proof.
  intros Hp Hr. apply reachable_regs in Hr.
  pose proof (boot_app_regs p0 Hp) as Ha. rewrite <-Hr in Ha.
  split.
  - intros Hm t Ht. rewrite Hm in Ha.
    destruct t; try (exfalso; by eapply Ht);
      unfold page_event; rewrite page_click_app, Ha by done; done.
  - intros Hm k. rewrite Hm in Ha. unfold page_event. rewrite page_click_app, Ha by done. done.
Qed.

(** C37: the components' invariants hold on the composed page: on every
    page reachable from the boot by any events in any order (clicks, auth
    submits, theme clicks, scheme changes, settling fetches), the quiz
    index is a valid question index (or [0] for an empty quiz), and the
    theme button, when the page has one, shows the icon and title of the
    current theme.  The quiz steps reach [state] through [app_lens], the
    theme's through [theme_lens], and the auth handlers touch neither. *)
Theorem reachable_page_ok p0 p :
  index_ok (quiz (pg_app p0)) -> rtc page_step (page_boot p0) p ->
  index_ok (quiz (pg_app p)) /\
  (pg_has_toggle p = true -> pg_toggle_view p = Some (toggle_of (pg_theme p))).
Proof.
  intros Hi Hr. change (page_ok p).
  assert (Hb : page_ok (page_boot p0)).
  { split; [by rewrite boot_quiz|apply boot_toggle_ok]. }
  induction Hr as [|x y z Hxy _ IH]; [done|]. apply IH. by eapply page_step_ok.
Qed.

(** ** Witnesses *)

Lemma boot_registrations_witness :
  let p0 := mkPage (app_boot (mk_rng (fun _ => 0%Z) 0)) ∅ "" [] "login" blank_forms None true None false false 0 [] in
  pg_regs p0 = [] /\ auth_regs (pg_regs (page_boot p0)) = [TabListener; SignupListener; LoginListener].
Proof.
  intros p0. assert (H : pg_regs p0 = []) by reflexivity.
  split; [exact H|]. exact (proj2 (boot_registrations p0 H)).
Defined.

Lemma reachable_page_ok_witness :
  let p0 := mkPage (app_boot (mk_rng (fun _ => 0%Z) 0)) ∅ "" [] "login" blank_forms None true None true false 0 [] in
  let p := page_event EThemeClick (page_boot p0) in
  index_ok (quiz (pg_app p0)) /\ rtc page_step (page_boot p0) p /\
  pg_toggle_view p = Some (toggle_of (pg_theme p)).
Proof.
  intros p0 p.
  assert (H1 : index_ok (quiz (pg_app p0))) by (right; split; reflexivity).
  assert (H2 : rtc page_step (page_boot p0) p) by (apply rtc_once; constructor).
  split; [exact H1|]. split; [exact H2|].
  apply (proj2 (reachable_page_ok p0 p H1 H2)). reflexivity.
Defined.

Lemma booted_click_refines_dispatch_witness :
  let p0 := mkPage (app_boot (mk_rng (fun _ => 0%Z) 0)) ∅ "" [] "login" blank_forms None true None true true 0 [] in
  pg_regs p0 = [] /\ rtc page_step (page_boot p0) (page_boot p0) /\
  pg_app (page_event (EClick TRetry) (page_boot p0)) = dispatch TRetry (pg_app (page_boot p0)).
Proof.
  intros p0.
  assert (H1 : pg_regs p0 = []) by reflexivity.
  assert (H2 : rtc page_step (page_boot p0) (page_boot p0)) by reflexivity.
  split; [exact H1|]. split; [exact H2|].
  apply (proj1 (booted_click_refines_dispatch p0 (page_boot p0) H1 H2)); [reflexivity|congruence].
Defined.
